(** * start.py: device resolution and container-launch assembly

    A shallow embedding of [src/start.py]: the configuration model
    (dataclasses), the tty inventory scanner and USB matcher
    ([TTYDeviceFinder]), the device mapping engine ([DeviceMapper]), the
    launch command assembler ([DockerCommand], [DockerRunner]) and the
    process-level glue ([DockerStarter.start], [main]).

    Python [str] values are Rocq strings holding the UTF-8 bytes of the
    text.  Everything the script reads from the machine (glob, udevadm,
    the file system, the environment, docker) is a field of [Host.t]; what
    it does to the machine (queries, prints, log lines, process launches)
    is recorded as a trace of [event]s. *)

From Stdlib Require Import ZArith NArith Lia.
From Stdlib Require Import Strings.String Strings.Ascii.
From stdpp Require Import base option strings list gmap sorting pretty.

Set Warnings "-register-all".
Local Open Scope string_scope.
Local Open Scope list_scope.

(* ================================================================== *)
(** ** Python built-ins used by the script *)
(* ================================================================== *)

Module Py.

(** Truth value of a [str]: [bool(s)] is [s != ''] . *)
Definition truthy (s : string) : bool :=
  match s with EmptyString => false | String _ _ => true end.

(** [o is not None]. *)
Definition is_not_none {A : Type} (o : option A) : bool :=
  match o with Some _ => true | None => false end.

(** [a or b] on strings. *)
Definition or_else (o : option string) (d : string) : string :=
  match o with
  | Some s => if truthy s then s else d
  | None => d
  end.

Definition byte_in (lo hi : N) (c : ascii) : bool :=
  ((lo <=? N_of_ascii c) && (N_of_ascii c <=? hi))%N.

(** [str.isspace] on the ASCII range: TAB..CR, FS..US and the space. *)
Definition ascii_space (c : ascii) : bool :=
  byte_in 9 13 c || byte_in 28 32 c.

(** Number of bytes of the white-space character that [s] starts with,
    [0] when it starts with none.  Beyond ASCII, [str.isspace] holds for
    U+0085, U+00A0, U+1680, U+2000..U+200A, U+2028, U+2029, U+202F,
    U+205F and U+3000, given here by their UTF-8 encodings. *)
Definition space_width (s : string) : nat :=
  match s with
  | EmptyString => 0
  | String c r =>
      if ascii_space c then 1
      else match r with
           | String d r' =>
               if byte_in 194 194 c then
                 if byte_in 133 133 d || byte_in 160 160 d then 2 else 0
               else match r' with
                    | String e _ =>
                        if byte_in 225 225 c then
                          if byte_in 154 154 d && byte_in 128 128 e then 3 else 0
                        else if byte_in 226 226 c then
                          if byte_in 128 128 d then
                            if byte_in 128 138 e || byte_in 168 169 e
                               || byte_in 175 175 e then 3 else 0
                          else if byte_in 129 129 d && byte_in 159 159 e then 3
                          else 0
                        else if byte_in 227 227 c then
                          if byte_in 128 128 d && byte_in 128 128 e then 3 else 0
                        else 0
                    | EmptyString => 0
                    end
           | EmptyString => 0
           end
  end.

Definition flush (cur : string) : list string :=
  if truthy cur then [cur] else [].

(** [s.split()]: the maximal runs of non-white-space characters.
    [skip] counts the remaining bytes of a white-space character that
    is being passed over, [cur] is the word read so far. *)
Fixpoint split_go (skip : nat) (cur : string) (s : string) : list string :=
  match s with
  | EmptyString => flush cur
  | String c r =>
      match skip with
      | S k => split_go k cur r
      | O =>
          match space_width s with
          | O => split_go 0 (cur +:+ String c EmptyString) r
          | S k => flush cur ++ split_go k EmptyString r
          end
      end
  end.

Definition split (s : string) : list string := split_go 0 EmptyString s.

(** [s.lstrip()]. *)
Fixpoint lstrip_go (skip : nat) (s : string) : string :=
  match s with
  | EmptyString => EmptyString
  | String c r =>
      match skip with
      | S k => lstrip_go k r
      | O =>
          match space_width s with
          | O => s
          | S k => lstrip_go k r
          end
      end
  end.

Definition lstrip (s : string) : string := lstrip_go 0 s.

(** [s] consists of white space only. *)
Definition all_space (s : string) : bool :=
  match lstrip s with EmptyString => true | String _ _ => false end.

(** [s.rstrip()]: the text up to the trailing run of white space. *)
Fixpoint rstrip (s : string) : string :=
  match s with
  | EmptyString => EmptyString
  | String c r => if all_space s then EmptyString else String c (rstrip r)
  end.

(** [s.strip()]. *)
Definition strip (s : string) : string := rstrip (lstrip s).

(** [s.split(sep)] for a one-character separator: empty fields are
    kept, [''.split(sep)] is [['']]. *)
Fixpoint split_on_go (sep : ascii) (cur : string) (s : string) : list string :=
  match s with
  | EmptyString => [cur]
  | String c r =>
      if Ascii.eqb c sep then cur :: split_on_go sep EmptyString r
      else split_on_go sep (cur +:+ String c EmptyString) r
  end.

Definition split_on (sep : ascii) (s : string) : list string :=
  split_on_go sep EmptyString s.

(** [s.split(sep, 1)] when [sep in s]: the text before the first [sep]
    and the text after it; [None] when [sep] does not occur. *)
Fixpoint split_once (sep : ascii) (s : string) : option (string * string) :=
  match s with
  | EmptyString => None
  | String c r =>
      if Ascii.eqb c sep then Some (EmptyString, r)
      else match split_once sep r with
           | Some (k, v) => Some (String c k, v)
           | None => None
           end
  end.

(** A byte that continues a multi-byte character. *)
Definition continuation (c : ascii) : bool := byte_in 128 191 c.

(** [s[:n]]: the first [n] characters (code points) of [s]. *)
Fixpoint take (n : nat) (s : string) : string :=
  match s with
  | EmptyString => EmptyString
  | String c r =>
      if continuation c then String c (take n r)
      else match n with
           | O => EmptyString
           | S k => String c (take k r)
           end
  end.

(** [sorted(l)] on strings: ascending in the order of [str], which on
    UTF-8 text is the byte-wise lexicographic order. *)
Definition sorted (l : list string) : list string := merge_sort String.le l.

(** [' '.join(l)]. *)
Definition join (sep : string) (l : list string) : string := String.concat sep l.

(** [str(n)] of an [int]. *)
Definition str_int (n : Z) : string := pretty n.

End Py.

(* ================================================================== *)
(** ** Configuration model (the frozen dataclasses) *)
(* ================================================================== *)

Module VolumeConfig.
Record t := mk {
  source : string;
  target : string;
  enabled : bool;
  options : string
}.
End VolumeConfig.

Module DeviceConfig.
Record t := mk {
  name : string;
  path : option string;
  enabled : bool;
  options : string;
  usb_vendor : option string;
  usb_product : option string;
  usb_interface : option string;
  usb_serial : option string;
  container_path : option string
}.

Definition is_usb_device (d : t) : bool :=
  Py.is_not_none (usb_vendor d) && Py.is_not_none (usb_product d).

Definition effective_container_path (d : t) : string :=
  Py.or_else (container_path d) ("/dev/" +:+ name d).
End DeviceConfig.

Module ResourceConfig.
Record t := mk {
  network : string;
  privileged : bool;
  gpu_enabled : bool;
  gpu_options : string
}.
End ResourceConfig.

Module ContainerConfig.
Record t := mk {
  name : string;
  image_repository : string;
  image_tag : string;
  command : string;
  restart : string
}.
End ContainerConfig.

(* ================================================================== *)
(** ** The host machine and the effects of the script *)
(* ================================================================== *)

(** Outcome of [subprocess.run(..., capture_output=True, text=True,
    check=True)]: the captured standard output, [CalledProcessError] on a
    non-zero exit status, or any other [Exception] (the tool is missing,
    the output cannot be decoded, ...). *)
Inductive completed :=
| Completed (stdout : string)
| CalledProcessError (returncode : Z)
| OtherException (what : string).

(** Outcome of the final [subprocess.run(command, check=True)]. *)
Inductive launched :=
| LaunchOk
| LaunchCalledProcessError
| LaunchKeyboardInterrupt.

(** Outcome of the [subprocess.run(..., check=True)] of
    [_enter_container]. *)
Inductive entered :=
| EnterOk
| EnterCalledProcessError
| EnterKeyboardInterrupt.

Module Host.
Record t := mk {
  (** [glob.glob(pattern)] *)
  glob : string → list string;
  (** [udevadm info -q property -n node] *)
  udevadm_info : string → completed;
  (** [os.path.exists(path)] *)
  path_exists : string → bool;
  (** [os.path.expanduser(path)] *)
  expanduser : string → string;
  (** [os.environ] *)
  environ : gmap string string;
  (** [os.getuid()] *)
  getuid : N;
  (** result of [DockerStarter._check_docker] *)
  check_docker : bool;
  (** result of [DockerStarter._check_image_exists] *)
  check_image_exists : string → bool;
  (** result of [DockerStarter._pull_image] *)
  pull_image : string → bool;
  (** result of [DockerRunner._stop_and_remove_container] *)
  stop_and_remove_container : string → bool;
  (** the container runtime started with an argument list *)
  docker_run : list string → launched;
  (** the [docker exec] of [DockerStarter._enter_container], started
      with an argument list *)
  docker_exec : list string → entered
}.
End Host.

(** What the script does to the machine, in order. *)
Inductive event :=
| Udevadm (node : string)
| PathExists (path : string)
| Print (line : string)
| LogError (msg : string)
| LogInfo (msg : string)
| Input
| CheckDocker
| CheckImage (image : string)
| PullImage (image : string)
| StopAndRemove (name : string)
| Xhost
| Launch (cmd : list string)
| DockerExec (cmd : list string).

(** How a computation ends: it returns a value, or [sys.exit(code)]
    unwinds it ([SystemExit] is caught nowhere in the script). *)
Inductive outcome (A : Type) :=
| Return (a : A)
| SysExit (code : Z).
Arguments Return {A} a.
Arguments SysExit {A} code.

(** An effectful computation: its trace and its outcome. *)
Definition io (A : Type) : Type := list event * outcome A.

Definition io_ret {A} (a : A) : io A := ([], Return a).

Definition io_bind {A B} (f : A → io B) (m : io A) : io B :=
  match m with
  | (t, Return a) => let '(t', r) := f a in (t ++ t', r)
  | (t, SysExit c) => (t, SysExit c)
  end.

#[global] Instance io_mret : MRet io := @io_ret.
#[global] Instance io_mbind : MBind io := @io_bind.

Definition emit (e : event) : io unit := ([e], Return tt).
Definition sys_exit {A} (code : Z) : io A := ([], SysExit code).

Definition trace {A} (m : io A) : list event := m.1.
Definition result {A} (m : io A) : outcome A := m.2.

(** [for x in l: body(x)] for a body that only has effects. *)
Fixpoint for_each {A} (l : list A) (body : A → io unit) : io unit :=
  match l with
  | [] => mret tt
  | x :: l' => body x ;; for_each l' body
  end.

Module EnvironmentConfig.
Record t := mk {
  ros_domain_id : Z;
  ros_localhost_only : Z;
  display : string;
  auto_detect_display : bool;
  fallback_displays : list string;
  pulse_server : option string
}.

Definition get_display (h : Host.t) (e : t) : string :=
  if auto_detect_display e
  then default (display e) (Host.environ h !! "DISPLAY")
  else display e.

Definition get_pulse_server (h : Host.t) (e : t) : string :=
  match pulse_server e with
  | Some s =>
      if Py.truthy s then s
      else "unix:/run/user/" +:+ pretty (Host.getuid h) +:+ "/pulse/native"
  | None => "unix:/run/user/" +:+ pretty (Host.getuid h) +:+ "/pulse/native"
  end.
End EnvironmentConfig.

(* ================================================================== *)
(** ** DockerCommand: the command builder *)
(* ================================================================== *)

Module DockerCommand.
Record t := mk {
  base_cmd : list string;
  name : option string;
  image : option string;
  network : option string;
  privileged : bool;
  gpu_options : option string;
  volumes : list string;
  devices : list string;
  environment : list string
}.

(** [cmd.extend(f(x))] under [if x:] for an optional string [x]. *)
Definition extend_if (cmd : list string) (x : option string)
    (f : string → list string) : list string :=
  match x with
  | Some s => if Py.truthy s then cmd ++ f s else cmd
  | None => cmd
  end.

Definition build (c : t) : list string :=
  let cmd := base_cmd c in
  let cmd := extend_if cmd (name c) (λ n, ["--name"; n]) in
  let cmd := extend_if cmd (network c) (λ n, ["--network"; n]) in
  let cmd := if privileged c then cmd ++ ["--privileged"] else cmd in
  let cmd := extend_if cmd (gpu_options c) Py.split in
  let cmd := cmd ++ volumes c in
  let cmd := cmd ++ devices c in
  let cmd := cmd ++ environment c in
  let cmd := extend_if cmd (image c) (λ i, [i; "tail"; "-f"; "/dev/null"]) in
  cmd.
End DockerCommand.

(* ================================================================== *)
(** ** TTYDeviceFinder: inventory scanner, identity resolver, matcher *)
(* ================================================================== *)

Module TTYDeviceFinder.

Definition _scan_tty_devices (h : Host.t) : list string :=
  Py.sorted (Host.glob h "/dev/ttyUSB*" ++ Host.glob h "/dev/ttyACM*").

(** The loop over the lines of the property listing: a line with an
    ['='] sets the key before the first ['='] to the text after it. *)
Definition parse_line (device_info : gmap string string) (line : string)
    : gmap string string :=
  match Py.split_once "=" line with
  | Some (key, value) => <[key := value]> device_info
  | None => device_info
  end.

Definition parse_properties (stdout : string) : gmap string string :=
  foldl parse_line ∅ (Py.split_on "010" (Py.strip stdout)).

Definition _get_device_info (h : Host.t) (tty_device : string)
    : io (gmap string string) :=
  emit (Udevadm tty_device) ;;
  match Host.udevadm_info h tty_device with
  | Completed stdout => mret (parse_properties stdout)
  | CalledProcessError _ => mret ∅
  | OtherException _ => mret ∅
  end.

(** The body of the loop of [find_by_usb_id] over [self.tty_devices];
    [continue] and falling out of the [if] go on with the rest. *)
Fixpoint find_loop (h : Host.t) (vendor_id product_id : string)
    (usb_interface usb_serial : option string) (tty_devices : list string)
    : io (option string) :=
  match tty_devices with
  | [] => mret None
  | tty_device :: rest =>
      device_info ← _get_device_info h tty_device;
      let continue := find_loop h vendor_id product_id usb_interface usb_serial rest in
      if bool_decide (device_info !! "ID_VENDOR_ID" = Some vendor_id)
         && bool_decide (device_info !! "ID_MODEL_ID" = Some product_id)
      then
        if Py.is_not_none usb_interface
           && bool_decide (device_info !! "ID_USB_INTERFACE_NUM" ≠ usb_interface)
        then continue
        else if Py.is_not_none usb_serial
                && bool_decide (device_info !! "ID_SERIAL" ≠ usb_serial)
        then continue
        else mret (Some tty_device)
      else continue
  end.

Definition find_by_usb_id (h : Host.t) (tty_devices : list string)
    (vendor_id product_id : string) (usb_interface usb_serial : option string)
    : io (option string) :=
  find_loop h vendor_id product_id usb_interface usb_serial tty_devices.

End TTYDeviceFinder.

(* ================================================================== *)
(** ** ConfigLoader: from the configuration document to the model *)
(* ================================================================== *)

(** A value of the document that [yaml.safe_load] returns.  A float keeps
    the text that [str] gives for it. *)
Inductive yaml :=
| YNull
| YBool (b : bool)
| YInt (z : Z)
| YFloat (text : string)
| YStr (s : string)
| YSeq (l : list yaml)
| YMap (m : gmap string yaml).

(** What building a part of the model from the document gives: the typed
    value; a Python exception (the loader calls [.get] on a section that
    is no mapping, or iterates a scalar); or a field that holds a value
    of another type than its annotation.  Python would carry such a value
    along unchecked; the typed model does not follow it. *)
Inductive loaded (A : Type) :=
| Loaded (a : A)
| Raised (exn : string)
| IllTyped (field : string).
Arguments Loaded {A} a.
Arguments Raised {A} exn.
Arguments IllTyped {A} field.

#[global] Instance loaded_mret : MRet loaded := @Loaded.
#[global] Instance loaded_mbind : MBind loaded := λ A B f m,
  match m with
  | Loaded a => f a
  | Raised e => Raised e
  | IllTyped k => IllTyped k
  end.

Module ConfigLoader.

(** [d.get(key, {})] followed by [.get]: the section must be a mapping. *)
Definition section (d : gmap string yaml) (key : string)
    : loaded (gmap string yaml) :=
  match d !! key with
  | None => Loaded ∅
  | Some (YMap m) => Loaded m
  | Some _ => Raised "AttributeError"
  end.

(** [d.get(key, default)] for a field annotated [str]. *)
Definition get_str (d : gmap string yaml) (key default : string)
    : loaded string :=
  match d !! key with
  | None => Loaded default
  | Some (YStr s) => Loaded s
  | Some _ => IllTyped key
  end.

(** [d.get(key)] for a field annotated [Optional[str]]. *)
Definition get_opt_str (d : gmap string yaml) (key : string)
    : loaded (option string) :=
  match d !! key with
  | None => Loaded None
  | Some YNull => Loaded None
  | Some (YStr s) => Loaded (Some s)
  | Some _ => IllTyped key
  end.

(** [d.get(key, default)] for a field annotated [bool]. *)
Definition get_bool (d : gmap string yaml) (key : string) (default : bool)
    : loaded bool :=
  match d !! key with
  | None => Loaded default
  | Some (YBool b) => Loaded b
  | Some _ => IllTyped key
  end.

(** [d.get(key, default)] for a field annotated [List[str]]. *)
Fixpoint str_items (l : list yaml) : option (list string) :=
  match l with
  | [] => Some []
  | YStr s :: l' => cons s <$> str_items l'
  | _ :: _ => None
  end.

Definition get_str_list (d : gmap string yaml) (key : string)
    (default : list string) : loaded (list string) :=
  match d !! key with
  | None => Loaded default
  | Some (YSeq l) =>
      match str_items l with Some ss => Loaded ss | None => IllTyped key end
  | Some _ => IllTyped key
  end.

(** The entries that [for x in config.get(key, [])] visits with
    [isinstance(x, dict)]: the mappings of a list; none for a mapping
    or a string (their elements are strings); a scalar is not
    iterable. *)
Definition dict_items (d : gmap string yaml) (key : string)
    : loaded (list (gmap string yaml)) :=
  match d !! key with
  | None => Loaded []
  | Some (YSeq l) =>
      Loaded (omap (λ x, match x with YMap m => Some m | _ => None end) l)
  | Some (YMap _) => Loaded []
  | Some (YStr _) => Loaded []
  | Some _ => Raised "TypeError"
  end.

(** [for x in l: out.append(f(x))] where [f] may fail. *)
Fixpoint for_items {A B} (f : A → loaded B) (l : list A) : loaded (list B) :=
  match l with
  | [] => Loaded []
  | x :: l' => y ← f x; ys ← for_items f l'; mret (y :: ys)
  end.

Definition parse_volume (vol_config : gmap string yaml) : loaded VolumeConfig.t :=
  source ← get_str vol_config "source" "";
  target ← get_str vol_config "target" "";
  enabled ← get_bool vol_config "enabled" true;
  options ← get_str vol_config "options" "rw";
  mret (VolumeConfig.mk source target enabled options).

Definition parse_volumes (config : gmap string yaml) : loaded (list VolumeConfig.t) :=
  volume_configs ← dict_items config "volumes";
  for_items parse_volume volume_configs.

Definition parse_device (dev_config : gmap string yaml) : loaded DeviceConfig.t :=
  name ← get_str dev_config "name" "GPU";
  path ← get_opt_str dev_config "path";
  enabled ← get_bool dev_config "enabled" true;
  options ← get_str dev_config "options" "rw";
  usb_vendor ← get_opt_str dev_config "usb_vendor";
  usb_product ← get_opt_str dev_config "usb_product";
  usb_interface ← get_opt_str dev_config "usb_interface";
  usb_serial ← get_opt_str dev_config "usb_serial";
  container_path ← get_opt_str dev_config "container_path";
  mret (DeviceConfig.mk name path enabled options usb_vendor usb_product
          usb_interface usb_serial container_path).

Definition parse_devices (config : gmap string yaml) : loaded (list DeviceConfig.t) :=
  device_configs ← dict_items config "devices";
  for_items parse_device device_configs.

Definition parse_resources (config : gmap string yaml) : loaded ResourceConfig.t :=
  resources ← section config "resources";
  gpu ← section resources "gpu";
  network ← get_str resources "network" "bridge";
  privileged ← get_bool resources "privileged" false;
  gpu_enabled ← get_bool gpu "enabled" false;
  gpu_options ← get_str gpu "options" "--gpus all";
  mret (ResourceConfig.mk network privileged gpu_enabled gpu_options).

(** [ros_domain_id] and [ros_localhost_only] are not passed to the
    constructor: they take the defaults of the dataclass. *)
Definition parse_environment (config : gmap string yaml) : loaded EnvironmentConfig.t :=
  env ← section config "environment";
  display ← get_str env "DISPLAY" ":0";
  auto_detect_display ← get_bool env "auto_detect_display" true;
  fallback_displays ← get_str_list env "fallback_displays" [":0"; ":1"; ":10"; ":11"; ":99"];
  pulse_server ← get_opt_str env "PULSE_SERVER";
  mret (EnvironmentConfig.mk 0 0 display auto_detect_display fallback_displays
          pulse_server).

Definition parse_container (config : gmap string yaml) : loaded ContainerConfig.t :=
  container ← section config "container";
  image ← section container "image";
  name ← get_str container "name" "docker-container";
  image_repository ← get_str image "repository" "ubuntu";
  image_tag ← get_str image "tag" "latest";
  command ← get_str container "command" "bash";
  restart ← get_str container "restart" "no";
  mret (ContainerConfig.mk name image_repository image_tag command restart).

End ConfigLoader.

(* ================================================================== *)
(** ** DeviceMapper: the device mapping engine *)
(* ================================================================== *)

(** [f"{x}"] of an [Optional[str]]. *)
Definition fmt_opt (o : option string) : string :=
  match o with Some s => s | None => "None" end.

Module DeviceMapper.

(** An entry of [mapped_devices]: the spec, the resolved host node (or
    [None]) and the device argument (or the error message). *)
Definition item : Type := DeviceConfig.t * option string * string.

(** The [try] around the finder has no failing case here: the finder
    raises no [Exception]. *)
Definition map_usb_device (h : Host.t) (tty_devices : list string)
    (device : DeviceConfig.t) : io (option string) :=
  if negb (DeviceConfig.is_usb_device device) then mret None
  else
    match DeviceConfig.usb_vendor device, DeviceConfig.usb_product device with
    | Some vendor, Some product =>
        TTYDeviceFinder.find_by_usb_id h tty_devices vendor product
          (DeviceConfig.usb_interface device) (DeviceConfig.usb_serial device)
    | _, _ => mret None
    end.

(** The two lists that the first loop of [map_devices] fills. *)
Record lists := mk_lists {
  failed_devices : list (string * string);
  mapped_devices : list item
}.

(** One turn of the first loop of [map_devices]. *)
Definition map_device (h : Host.t) (tty_devices : list string)
    (acc : lists) (device : DeviceConfig.t) : io lists :=
  let failed error_msg :=
    mk_lists (failed_devices acc ++ [(DeviceConfig.name device, error_msg)])
             (mapped_devices acc ++ [(device, None, error_msg)]) in
  let mapped node device_arg :=
    mk_lists (failed_devices acc)
             (mapped_devices acc ++ [(device, Some node, device_arg)]) in
  if negb (DeviceConfig.enabled device) then mret acc
  else if DeviceConfig.is_usb_device device then
    tty_device ← map_usb_device h tty_devices device;
    match tty_device with
    | Some node =>
        if Py.truthy node then
          mret (mapped node
                  (node +:+ ":" +:+ DeviceConfig.effective_container_path device
                        +:+ ":rw"))
        else
          mret (failed ("未找到USB设备 " +:+ fmt_opt (DeviceConfig.usb_vendor device)
                          +:+ ":" +:+ fmt_opt (DeviceConfig.usb_product device)))
    | None =>
        mret (failed ("未找到USB设备 " +:+ fmt_opt (DeviceConfig.usb_vendor device)
                        +:+ ":" +:+ fmt_opt (DeviceConfig.usb_product device)))
    end
  else
    match DeviceConfig.path device with
    | Some path =>
        if Py.truthy path then
          emit (PathExists path) ;;
          if Host.path_exists h path then
            mret (mapped path (path +:+ ":" +:+ DeviceConfig.options device))
          else
            mret (failed ("设备路径不存在: " +:+ fmt_opt (DeviceConfig.path device)))
        else
          mret (failed ("设备路径不存在: " +:+ fmt_opt (DeviceConfig.path device)))
    | None =>
        mret (failed ("设备路径不存在: " +:+ fmt_opt (DeviceConfig.path device)))
    end.

Fixpoint map_loop (h : Host.t) (tty_devices : list string)
    (acc : lists) (devices : list DeviceConfig.t) : io lists :=
  match devices with
  | [] => mret acc
  | device :: rest =>
      acc' ← map_device h tty_devices acc device;
      map_loop h tty_devices acc' rest
  end.

(** What the engine does once the loop has found failed devices. *)
Definition report_failures (dry_run_mode : bool)
    (failed : list (string * string)) : io unit :=
  if dry_run_mode then
    for_each failed (λ '(device_name, error_msg),
      emit (Print ("✗ " +:+ device_name)))
  else
    emit (LogError "未找到所有必需的设备，无法启动容器") ;;
    for_each failed (λ '(device_name, error_msg),
      emit (LogError ("  缺失设备: " +:+ device_name +:+ " - " +:+ error_msg))) ;;
    emit (Print (String "010" "按任意键退出...")) ;;
    emit Input ;;
    sys_exit 1.

(** [map_devices] is a generator whose only caller iterates it to the
    end: the body runs up to the first [yield] when the first item is
    asked for, and the [yield]s that follow have no effect of their
    own, so the items are returned as a list. *)
Definition map_devices (h : Host.t) (dry_run_mode : bool)
    (tty_devices : list string) (devices : list DeviceConfig.t)
    : io (list item) :=
  acc ← map_loop h tty_devices (mk_lists [] []) devices;
  match failed_devices acc with
  | [] => mret tt
  | _ :: _ => report_failures dry_run_mode (failed_devices acc)
  end ;;
  mret (mapped_devices acc).

End DeviceMapper.

(* ================================================================== *)
(** ** DockerRunner: the launch command assembler *)
(* ================================================================== *)

Module DockerRunner.

(** The state that [__init__] sets up: the parsed configuration and
    the inventory that the finder of the device mapper scanned. *)
Record t := mk {
  container_config : ContainerConfig.t;
  resource_config : ResourceConfig.t;
  environment_config : EnvironmentConfig.t;
  volumes : list VolumeConfig.t;
  devices : list DeviceConfig.t;
  tty_devices : list string
}.

(** [__init__] with [_parse_configs] on the loaded document. *)
Definition init (h : Host.t) (raw_config : gmap string yaml) : loaded t :=
  let tty_devices := TTYDeviceFinder._scan_tty_devices h in
  container_config ← ConfigLoader.parse_container raw_config;
  resource_config ← ConfigLoader.parse_resources raw_config;
  environment_config ← ConfigLoader.parse_environment raw_config;
  volumes ← ConfigLoader.parse_volumes raw_config;
  devices ← ConfigLoader.parse_devices raw_config;
  mret (mk container_config resource_config environment_config volumes devices
          tty_devices).

Definition expanded_source (h : Host.t) (volume : VolumeConfig.t) : string :=
  Host.expanduser h (VolumeConfig.source volume).

Fixpoint _build_volume_args (h : Host.t) (volumes : list VolumeConfig.t)
    : list string :=
  match volumes with
  | [] => []
  | volume :: rest =>
      if VolumeConfig.enabled volume then
        ["-v"; expanded_source h volume +:+ ":" +:+ VolumeConfig.target volume
                 +:+ ":" +:+ VolumeConfig.options volume]
        ++ _build_volume_args h rest
      else _build_volume_args h rest
  end.

Definition _log_device_mapping (dry_run_mode : bool) (device : DeviceConfig.t)
    (tty_device device_arg : string) : io unit :=
  if dry_run_mode then emit (Print ("✓ " +:+ DeviceConfig.name device))
  else if DeviceConfig.is_usb_device device then
    let log_info :=
      tty_device +:+ " -> " +:+ DeviceConfig.effective_container_path device
        +:+ " (" +:+ DeviceConfig.name device +:+ ")" in
    let log_info :=
      match DeviceConfig.usb_interface device with
      | Some i => log_info +:+ " [接口:" +:+ i +:+ "]"
      | None => log_info
      end in
    let log_info :=
      match DeviceConfig.usb_serial device with
      | Some s => log_info +:+ " [序列号:" +:+ Py.take 20 s +:+ "...]"
      | None => log_info
      end in
    emit (Print ("添加USB设备映射: " +:+ log_info))
  else emit (Print ("添加设备映射: " +:+ fmt_opt (DeviceConfig.path device))).

(** The loop of [_build_device_args] over the mapped items. *)
Fixpoint device_args_loop (dry_run_mode : bool) (device_args : list string)
    (items : list DeviceMapper.item) : io (list string) :=
  match items with
  | [] => mret device_args
  | (device, tty_device, device_arg) :: rest =>
      match tty_device with
      | Some node =>
          if Py.truthy node then
            _log_device_mapping dry_run_mode device node device_arg ;;
            device_args_loop dry_run_mode (device_args ++ ["--device"; device_arg]) rest
          else device_args_loop dry_run_mode device_args rest
      | None => device_args_loop dry_run_mode device_args rest
      end
  end.

Definition _build_device_args (h : Host.t) (dry_run_mode : bool) (r : t)
    : io (list string) :=
  items ← DeviceMapper.map_devices h dry_run_mode (tty_devices r) (devices r);
  device_args_loop dry_run_mode [] items.

Definition _build_environment_args (h : Host.t) (e : EnvironmentConfig.t)
    : list string :=
  let env_args := [] in
  let env_args :=
    env_args ++ ["-e"; "ROS_DOMAIN_ID=" +:+ Py.str_int (EnvironmentConfig.ros_domain_id e)] in
  let env_args :=
    env_args ++ ["-e"; "ROS_LOCALHOST_ONLY="
                         +:+ Py.str_int (EnvironmentConfig.ros_localhost_only e)] in
  let display := EnvironmentConfig.get_display h e in
  let env_args := env_args ++ ["-e"; "DISPLAY=" +:+ display] in
  let pulse_server := EnvironmentConfig.get_pulse_server h e in
  let env_args := env_args ++ ["-e"; "PULSE_SERVER=" +:+ pulse_server] in
  env_args.

Definition _build_docker_command (h : Host.t) (dry_run_mode : bool) (r : t)
    (container_name image_name : string) : io DockerCommand.t :=
  let rc := resource_config r in
  let network :=
    if bool_decide (ResourceConfig.network rc ≠ "bridge")
    then Some (ResourceConfig.network rc) else None in
  let privileged := ResourceConfig.privileged rc in
  let gpu_options :=
    if ResourceConfig.gpu_enabled rc
    then Some (ResourceConfig.gpu_options rc) else None in
  let volumes := _build_volume_args h (volumes r) in
  devices ← _build_device_args h dry_run_mode r;
  let environment := _build_environment_args h (environment_config r) in
  mret (DockerCommand.mk ["docker"; "run"; "-d"] (Some container_name)
          (Some image_name) network privileged gpu_options volumes devices
          environment).

(** The two lines of [run] that assemble the argument sequence. *)
Definition assemble (h : Host.t) (dry_run : bool) (r : t)
    (container_name image_name : string) : io (list string) :=
  docker_cmd ← _build_docker_command h dry_run r container_name image_name;
  mret (DockerCommand.build docker_cmd).

(** [_stop_and_remove_container] and [_setup_x11_access] are lifecycle
    calls of the container tooling: an event each, the result of the
    first given by the host.  A log line that ends in the text of a
    caught exception is recorded without that text. *)
Definition run (h : Host.t) (r : t) (container_name image_name : option string)
    (dry_run : bool) : io bool :=
  let cc := container_config r in
  let final_container_name := Py.or_else container_name (ContainerConfig.name cc) in
  let final_image_name :=
    Py.or_else image_name
      (ContainerConfig.image_repository cc +:+ ":" +:+ ContainerConfig.image_tag cc) in
  if negb (Py.truthy final_container_name) || negb (Py.truthy final_image_name) then
    emit (LogError "容器名称和镜像名称不能为空") ;; mret false
  else
    stopped ←
      (if negb dry_run then
         emit (StopAndRemove final_container_name) ;;
         mret (Host.stop_and_remove_container h final_container_name)
       else mret true);
    if negb stopped then mret false
    else
      (if negb dry_run then emit Xhost else mret tt) ;;
      command ← assemble h dry_run r final_container_name final_image_name;
      if dry_run then
        emit (Print "") ;; emit (Print (Py.join " " command)) ;; mret true
      else
        emit (Launch command) ;;
        match Host.docker_run h command with
        | LaunchOk =>
            emit (LogInfo ("容器 " +:+ final_container_name +:+ " 启动成功")) ;;
            mret true
        | LaunchCalledProcessError => emit (LogError "启动容器失败: ") ;; mret false
        | LaunchKeyboardInterrupt => emit (LogInfo "用户中断操作") ;; mret false
        end.

End DockerRunner.

(* ================================================================== *)
(** ** DockerStarter and main: the process-level result *)
(* ================================================================== *)

Module DockerStarter.

(** [str(x)] of a scalar of the document; the text of a list or of a
    mapping is not modelled. *)
Definition py_str (v : yaml) : option string :=
  match v with
  | YNull => Some "None"
  | YBool b => Some (if b then "True" else "False")
  | YInt z => Some (Py.str_int z)
  | YFloat text => Some text
  | YStr s => Some s
  | YSeq _ => None
  | YMap _ => None
  end.

(** [reduce(getitem, keys, config)]: [None] stands for the [KeyError]
    of a missing key and the [TypeError] of indexing a value that is no
    mapping by a string. *)
Fixpoint getitems (keys : list string) (v : yaml) : option yaml :=
  match keys with
  | [] => Some v
  | key :: rest =>
      match v with
      | YMap m => match m !! key with
                 | Some v' => getitems rest v'
                 | None => None
                 end
      | _ => None
      end
  end.

(** [_get_config], with the path already split at its dots; the outer
    [None] is a value whose text is not modelled. *)
Definition _get_config (config : gmap string yaml) (keys : list string)
    (default : string) : option string :=
  if bool_decide (config = ∅) then Some default
  else match getitems keys (YMap config) with
       | Some v => py_str v
       | None => Some default
       end.

(** The body of the [try] of [_enter_container] in either mode: the
    info line, then the [docker exec], with the two handlers. *)
Definition enter_with (h : Host.t) (info : string) (cmd : list string) : io unit :=
  emit (LogInfo info) ;;
  emit (DockerExec cmd) ;;
  match Host.docker_exec h cmd with
  | EnterOk => mret tt
  | EnterCalledProcessError => emit (LogError "进入容器失败: ") ;; sys_exit 1
  | EnterKeyboardInterrupt => emit (LogInfo "用户中断操作") ;; sys_exit 0
  end.

(** [_enter_container], given the values that [_get_config] found for
    [.container.command] and [.container.exec_mode]. *)
Definition _enter_container (h : Host.t) (container_name command exec_mode : string)
    : io unit :=
  if bool_decide (exec_mode = "command") then
    enter_with h ("在容器中执行命令: " +:+ command)
      ["docker"; "exec"; "-it"; container_name; "bash"; "-c"; command]
  else
    enter_with h ("进入容器: " +:+ container_name)
      ["docker"; "exec"; "-it"; container_name; command].

(** [start], given the values that [_get_config] found: the three names
    that [start] reads, and the entry command and execution mode that
    [_enter_container] reads. *)
Definition start (h : Host.t) (runner : DockerRunner.t)
    (container_name image_repository image_tag command exec_mode : string)
    (dry_run force : bool) : io bool :=
  docker_ok ←
    (if negb dry_run then
       emit CheckDocker ;;
       if Host.check_docker h then mret true
       else emit (LogError "Docker 未安装。请运行: ./install.sh") ;; mret false
     else mret true);
  if negb docker_ok then mret false
  else if negb (Py.truthy container_name) || negb (Py.truthy image_repository)
          || negb (Py.truthy image_tag) then
    emit (LogError "容器名称和镜像信息不能为空") ;; mret false
  else
    let image_name := image_repository +:+ ":" +:+ image_tag in
    if dry_run then
      DockerRunner.run h runner (Some container_name) (Some image_name) dry_run
    else
      present ←
        (if force then mret false
         else emit (CheckImage image_name) ;;
              mret (Host.check_image_exists h image_name));
      pulled ←
        (if negb present then
           emit (PullImage image_name) ;;
           if Host.pull_image h image_name then mret true
           else emit (LogError "镜像拉取失败，无法继续") ;; mret false
         else mret true);
      if negb pulled then mret false
      else
        started ← DockerRunner.run h runner (Some container_name) (Some image_name)
                    dry_run;
        if negb started then emit (LogError "容器启动失败") ;; mret false
        else _enter_container h container_name command exec_mode ;; mret true.

(** The exit status that [main] gives to the process: [sys.exit(0 if
    success else 1)], or the status of a [sys.exit] raised below, which
    the [except Exception] of [main] does not catch. *)
Definition exit_status (r : outcome bool) : Z :=
  match r with
  | Return true => 0
  | Return false => 1
  | SysExit code => code
  end.

(** What [main] does when building the starter raises: the runner
    logs the failed load, [main] logs the failed start and exits with
    status 1. *)
Definition load_failure : list event * Z :=
  ([LogError "配置加载失败: "; LogError "启动失败: "], 1%Z).

(** [main] after [parse_args] has returned the two flags, on a loaded
    document: the trace and the exit status; [None] is a document
    outside the typed model.  The two values that [_enter_container]
    reads are looked up with the three that [start] reads: a lookup has
    no effect, so its place does not matter. *)
Definition main (h : Host.t) (document : yaml) (dry_run force : bool)
    : option (list event * Z) :=
  match document with
  | YMap config =>
      match DockerRunner.init h config with
      | Loaded runner =>
          container_name ← _get_config config ["container"; "name"] "";
          image_repository ← _get_config config ["container"; "image"; "repository"] "";
          image_tag ← _get_config config ["container"; "image"; "tag"] "";
          command ← _get_config config ["container"; "command"] "bash";
          exec_mode ← _get_config config ["container"; "exec_mode"] "interactive";
          let m := start h runner container_name image_repository image_tag
                     command exec_mode dry_run force in
          Some (trace m, exit_status (result m))
      | Raised _ => Some load_failure
      | IllTyped _ => None
      end
  | _ => Some load_failure
  end.

End DockerStarter.

(* ================================================================== *)
(** * Properties *)
(* ================================================================== *)

(** ** Effects: how traces and outcomes compose *)

(** Run the monad on computations that are given as a trace and an
    outcome. *)
Ltac io_red :=
  cbn [mbind io_mbind io_bind mret io_mret io_ret emit sys_exit
       negb app trace result fst snd].

Lemma io_bind_return {A B} (f : A → io B) (t : list event) (a : A) :
  (t, Return a) ≫= f = (t ++ trace (f a), result (f a)).
Proof. unfold mbind, io_mbind, io_bind, trace, result. by destruct (f a). Qed.

Lemma io_bind_exit {A B} (f : A → io B) (t : list event) (c : Z) :
  (t, SysExit c) ≫= f = (t, SysExit c).
Proof. reflexivity. Qed.

Lemma io_ret_bind {A B} (f : A → io B) (a : A) : mret a ≫= f = f a.
Proof. unfold mret, io_mret, io_ret. rewrite io_bind_return. by destruct (f a). Qed.

Lemma io_emit_bind {B} (e : event) (m : io B) :
  (emit e ;; m) = (e :: trace m, result m).
Proof. unfold emit. by rewrite io_bind_return. Qed.

Lemma io_eta {A} (m : io A) : m = (trace m, result m).
Proof. by destruct m. Qed.

Lemma trace_bind_return {A B} (m : io A) (f : A → io B) (a : A) :
  result m = Return a → trace (m ≫= f) = trace m ++ trace (f a).
Proof.
  intros Hm. destruct m as [t r]. simpl in Hm. subst r.
  by rewrite io_bind_return.
Qed.

Lemma result_bind_return {A B} (m : io A) (f : A → io B) (a : A) :
  result m = Return a → result (m ≫= f) = result (f a).
Proof.
  intros Hm. destruct m as [t r]. simpl in Hm. subst r.
  by rewrite io_bind_return.
Qed.

Lemma result_bind_exit {A B} (m : io A) (f : A → io B) (c : Z) :
  result m = SysExit c → m ≫= f = (trace m, SysExit c).
Proof. intros Hm. destruct m as [t r]. simpl in Hm. by subst r. Qed.

(** ** The identity resolver and the matcher *)

Section matcher.
Context (h : Host.t).

(** The property mapping that the resolver returns for a node. *)
Definition device_info (node : string) : gmap string string :=
  match Host.udevadm_info h node with
  | Completed stdout => TTYDeviceFinder.parse_properties stdout
  | _ => ∅
  end.

Lemma get_device_info_eq node :
  TTYDeviceFinder._get_device_info h node = ([Udevadm node], Return (device_info node)).
Proof.
  unfold TTYDeviceFinder._get_device_info, device_info.
  rewrite io_emit_bind. by destruct (Host.udevadm_info h node).
Qed.

(** A node passes every filter of a request. *)
Definition satisfies (vendor_id product_id : string)
    (usb_interface usb_serial : option string) (node : string) : Prop :=
  ∃ info, result (TTYDeviceFinder._get_device_info h node) = Return info
    ∧ info !! "ID_VENDOR_ID" = Some vendor_id
    ∧ info !! "ID_MODEL_ID" = Some product_id
    ∧ (∀ i, usb_interface = Some i → info !! "ID_USB_INTERFACE_NUM" = Some i)
    ∧ (∀ s, usb_serial = Some s → info !! "ID_SERIAL" = Some s).

(** The test of the loop body on the properties of one node. *)
Definition accepts (vendor_id product_id : string)
    (usb_interface usb_serial : option string) (node : string) : bool :=
  bool_decide (device_info node !! "ID_VENDOR_ID" = Some vendor_id)
  && bool_decide (device_info node !! "ID_MODEL_ID" = Some product_id)
  && negb (Py.is_not_none usb_interface
           && bool_decide (device_info node !! "ID_USB_INTERFACE_NUM" ≠ usb_interface))
  && negb (Py.is_not_none usb_serial
           && bool_decide (device_info node !! "ID_SERIAL" ≠ usb_serial)).

Lemma accepts_satisfies v p i s node :
  accepts v p i s node = true ↔ satisfies v p i s node.
Proof.
  unfold accepts, satisfies. rewrite get_device_info_eq. simpl.
  rewrite !andb_true_iff, !negb_true_iff, !andb_false_iff,
    !bool_decide_eq_true, !bool_decide_eq_false.
  split.
  - intros [[[Hv Hp] Hi] Hs]. exists (device_info node).
    repeat split; auto.
    + intros i' ->. destruct Hi as [Hi|Hi]; [done|].
      by destruct (decide (device_info node !! "ID_USB_INTERFACE_NUM" = Some i')).
    + intros s' ->. destruct Hs as [Hs|Hs]; [done|].
      by destruct (decide (device_info node !! "ID_SERIAL" = Some s')).
  - intros (info & [= <-] & Hv & Hp & Hi & Hs). repeat split; auto.
    + destruct i as [i'|]; [right|by left]. rewrite (Hi i' eq_refl). by intros [].
    + destruct s as [s'|]; [right|by left]. rewrite (Hs s' eq_refl). by intros [].
Qed.

(** The nodes that the loop asks the resolver about: all up to and
    including the first accepted one. *)
Fixpoint queried (f : string → bool) (l : list string) : list string :=
  match l with
  | [] => []
  | n :: l' => n :: if f n then [] else queried f l'
  end.

Lemma find_loop_eq v p i s l :
  TTYDeviceFinder.find_loop h v p i s l
  = (Udevadm <$> queried (accepts v p i s) l,
     Return (List.find (accepts v p i s) l)).
Proof.
  induction l as [|n l IH]; [done|].
  cbn [TTYDeviceFinder.find_loop queried List.find].
  rewrite get_device_info_eq, io_bind_return, IH.
  generalize (queried (accepts v p i s) l) (List.find (accepts v p i s) l).
  intros qs found. unfold accepts.
  destruct (bool_decide (device_info n !! "ID_VENDOR_ID" = Some v)); [|done].
  destruct (bool_decide (device_info n !! "ID_MODEL_ID" = Some p)); [|done].
  simpl.
  destruct (Py.is_not_none i
            && bool_decide (device_info n !! "ID_USB_INTERFACE_NUM" ≠ i)); [done|].
  by destruct (Py.is_not_none s && bool_decide (device_info n !! "ID_SERIAL" ≠ s)).
Qed.

Lemma find_by_usb_id_result v p i s l :
  result (TTYDeviceFinder.find_by_usb_id h l v p i s)
  = Return (List.find (accepts v p i s) l).
Proof. unfold TTYDeviceFinder.find_by_usb_id. by rewrite find_loop_eq. Qed.

(** [List.find] returns the first element that passes the test. *)
Lemma find_first {A} (f : A → bool) (l : list A) (x : A) :
  List.find f l = Some x →
  ∃ before after, l = before ++ x :: after ∧ f x = true
    ∧ ∀ y, y ∈ before → f y = false.
Proof.
  induction l as [|a l IH]; [done|]. simpl.
  destruct (f a) eqn:Ha.
  - intros [= ->]. exists [], l. split_and!; [done|done|]. by intros y ?%elem_of_nil.
  - intros (before & after & -> & Hx & Hb)%IH.
    exists (a :: before), after. split_and!; [done|done|].
    intros y [->|?]%elem_of_cons; auto.
Qed.

Lemma find_none {A} (f : A → bool) (l : list A) :
  List.find f l = None → ∀ y, y ∈ l → f y = false.
Proof.
  induction l as [|a l IH]; simpl; [by intros _ y ?%elem_of_nil|].
  destruct (f a) eqn:Ha; [done|].
  intros Hn y [->|?]%elem_of_cons; auto.
Qed.

(** In a list where [x] is the only element passing the test, the
    first one passing it is [x]. *)
Lemma find_unique {A} (f : A → bool) (l : list A) (x : A) :
  x ∈ l → f x = true → (∀ y, y ∈ l → f y = true → y = x) →
  List.find f l = Some x.
Proof.
  intros Hx Hfx Huniq. destruct (List.find f l) as [y|] eqn:Hfind.
  - apply find_first in Hfind as (before & after & -> & Hy & _).
    f_equal. apply Huniq; [|done]. apply elem_of_app. right. by left.
  - by rewrite (find_none _ _ Hfind x Hx) in Hfx.
Qed.

End matcher.

(** The scanned inventory is the sorted list of what the two patterns
    match. *)
Lemma scan_sorted h :
  StronglySorted String.le (TTYDeviceFinder._scan_tty_devices h)
  ∧ TTYDeviceFinder._scan_tty_devices h
      ≡ₚ Host.glob h "/dev/ttyUSB*" ++ Host.glob h "/dev/ttyACM*".
Proof.
  unfold TTYDeviceFinder._scan_tty_devices, Py.sorted. split.
  - apply (StronglySorted_merge_sort _).
  - apply merge_sort_Permutation.
Qed.

(** In a sorted list, of two distinct elements the smaller comes first. *)
Lemma sorted_first_of_two (l : list string) (n1 n2 : string) (f : string → bool) :
  StronglySorted String.le l → n1 ∈ l → n2 ∈ l → String.le n1 n2 →
  f n1 = true → (∀ y, y ∈ l → f y = true → y = n1 ∨ y = n2) →
  List.find f l = Some n1.
Proof.
  intros Hs H1 H2 Hle Hf1 Honly.
  destruct (List.find f l) as [y|] eqn:Hfind.
  - pose proof Hfind as (before & after & -> & Hy & Hbefore)%find_first.
    destruct (Honly y) as [->| ->];
      [apply elem_of_app; right; by left|done|done|].
    f_equal.
    apply elem_of_app in H1 as [H1|H1].
    { by rewrite (Hbefore _ H1) in Hf1. }
    apply elem_of_cons in H1 as [H1|H1]; [done|].
    apply StronglySorted_app_1_r in Hs.
    apply StronglySorted_inv in Hs as [_ Hall].
    rewrite Forall_forall in Hall. apply Hall in H1.
    by apply (anti_symm String.le).
  - by rewrite (find_none _ _ Hfind n1 H1) in Hf1.
Qed.

Lemma find_app_first {A} (f : A → bool) (before after : list A) (x : A) :
  f x = true → (∀ y, y ∈ before → f y = false) →
  List.find f (before ++ x :: after) = Some x.
Proof.
  intros Hx. induction before as [|a before IH]; intros Hb; simpl.
  - by rewrite Hx.
  - rewrite (Hb a) by by left. apply IH. intros y Hy. apply Hb. by right.
Qed.

(** ** A host for the examples: the scenario of the specification *)

Module Scenario.

(** [/dev/ttyUSB0] is a 10c4:ea60 adapter, [/dev/ttyUSB1] a 0403:6001
    one; the lookup of any other node fails. *)
Definition udevadm_info (node : string) : completed :=
  if bool_decide (node = "/dev/ttyUSB0") then
    Completed ("ID_VENDOR_ID=10c4" +:+ String "010" "ID_MODEL_ID=ea60"
                 +:+ String "010" "ID_USB_INTERFACE_NUM=00" +:+ String "010" "")
  else if bool_decide (node = "/dev/ttyUSB1") then
    Completed ("ID_VENDOR_ID=0403" +:+ String "010" "ID_MODEL_ID=6001"
                 +:+ String "010" "")
  else CalledProcessError 1.

Definition glob (pattern : string) : list string :=
  if bool_decide (pattern = "/dev/ttyUSB*") then ["/dev/ttyUSB1"; "/dev/ttyUSB0"]
  else [].

(** The only static device node of the host. *)
Definition path_exists (path : string) : bool :=
  bool_decide (path = "/dev/input/js0").

Definition host : Host.t :=
  Host.mk glob udevadm_info path_exists (λ path, path) ∅ 1000
    true (λ _, true) (λ _, true) (λ _, true) (λ _, LaunchOk) (λ _, EnterOk).

(** A two-port adapter: both nodes are 0403:6010, on interfaces 00
    and 01. *)
Definition udevadm_two_ports (node : string) : completed :=
  if bool_decide (node = "/dev/ttyUSB0") then
    Completed ("ID_VENDOR_ID=0403" +:+ String "010" "ID_MODEL_ID=6010"
                 +:+ String "010" "ID_USB_INTERFACE_NUM=00")
  else if bool_decide (node = "/dev/ttyUSB1") then
    Completed ("ID_VENDOR_ID=0403" +:+ String "010" "ID_MODEL_ID=6010"
                 +:+ String "010" "ID_USB_INTERFACE_NUM=01")
  else OtherException "FileNotFoundError".

Definition host_two_ports : Host.t :=
  Host.mk glob udevadm_two_ports (λ _, false) (λ path, path) ∅ 1000
    true (λ _, true) (λ _, true) (λ _, true) (λ _, LaunchOk) (λ _, EnterOk).

Definition lidar : DeviceConfig.t :=
  DeviceConfig.mk "lidar" None true "rw" (Some "10c4") (Some "ea60") None None None.

(** The same device, to be mapped read-only. *)
Definition lidar_ro : DeviceConfig.t :=
  DeviceConfig.mk "lidar" None true "ro" (Some "10c4") (Some "ea60") None None None.

(** A static device that the host has, to be mapped read-only. *)
Definition joystick_ro : DeviceConfig.t :=
  DeviceConfig.mk "joystick" (Some "/dev/input/js0") true "ro" None None None None None.

(** A static device whose path the host does not have. *)
Definition camera : DeviceConfig.t :=
  DeviceConfig.mk "camera" (Some "/dev/video0") true "rw" None None None None None.

Definition camera_off : DeviceConfig.t :=
  DeviceConfig.mk "camera" (Some "/dev/video0") false "rw" None None None None None.

Definition workspace : VolumeConfig.t := VolumeConfig.mk "~/ws" "/ws" true "rw".
Definition cache_off : VolumeConfig.t := VolumeConfig.mk "~/.cache" "/cache" false "rw".

Definition runner (network : string) (devices : list DeviceConfig.t) : DockerRunner.t :=
  DockerRunner.mk
    (ContainerConfig.mk "dev" "ubuntu" "latest" "bash" "no")
    (ResourceConfig.mk network false true "--gpus all")
    (EnvironmentConfig.mk 0 0 ":0" true [":0"; ":1"; ":10"; ":11"; ":99"] None)
    [workspace; cache_off] devices
    (TTYDeviceFinder._scan_tty_devices host).

End Scenario.

(** ** C4: the matcher returns the first node that passes every filter *)

(** C4.  The USB matcher goes through the lexicographically sorted
    inventory and returns the first node whose vendor id and product id
    are the requested ones and whose interface number and serial are the
    requested ones when such a filter is given; it returns none exactly
    when no node of the inventory passes every given filter.  In
    particular, when exactly two nodes [n1] and [n2] of the inventory
    carry the requested vendor and product ids, with different interface
    numbers [i1] and [i2], the request with the interface filter [i1]
    returns [n1], and the request without filters returns the one of the
    two that comes first in the sorted order. *)
Theorem C4_matcher_first_match (h : Host.t) (vendor_id product_id : string) :
  let inventory := TTYDeviceFinder._scan_tty_devices h in
  let find := TTYDeviceFinder.find_by_usb_id h inventory vendor_id product_id in
  (StronglySorted String.le inventory
   ∧ inventory ≡ₚ Host.glob h "/dev/ttyUSB*" ++ Host.glob h "/dev/ttyACM*")
  ∧ (∀ usb_interface usb_serial node,
       result (find usb_interface usb_serial) = Return (Some node)
       ↔ ∃ before after, inventory = before ++ node :: after
           ∧ satisfies h vendor_id product_id usb_interface usb_serial node
           ∧ ∀ m, m ∈ before →
               ¬ satisfies h vendor_id product_id usb_interface usb_serial m)
  ∧ (∀ usb_interface usb_serial,
       result (find usb_interface usb_serial) = Return None
       ↔ ∀ m, m ∈ inventory →
           ¬ satisfies h vendor_id product_id usb_interface usb_serial m)
  ∧ (∀ n1 n2 i1 i2,
       n1 ∈ inventory → n2 ∈ inventory → i1 ≠ i2 →
       satisfies h vendor_id product_id (Some i1) None n1 →
       satisfies h vendor_id product_id (Some i2) None n2 →
       (∀ m, m ∈ inventory → satisfies h vendor_id product_id None None m →
             m = n1 ∨ m = n2) →
       result (find (Some i1) None) = Return (Some n1)
       ∧ result (find None None)
         = Return (Some (if bool_decide (String.le n1 n2) then n1 else n2))).
Proof.
  intros inventory find. split; [apply scan_sorted|].
  assert (Hnot : ∀ i s m, accepts h vendor_id product_id i s m = false
                          ↔ ¬ satisfies h vendor_id product_id i s m).
  { intros i s m. rewrite <- accepts_satisfies. by destruct (accepts _ _ _ _ _ _). }
  split; [|split].
  - intros i s node. unfold find. rewrite find_by_usb_id_result. split.
    + intros [= Hfind]. apply find_first in Hfind as (before & after & ? & ? & Hb).
      exists before, after. split_and!; [done|by apply accepts_satisfies|].
      intros m Hm. apply Hnot. auto.
    + intros (before & after & -> & Hnode & Hb). f_equal.
      apply find_app_first; [by apply accepts_satisfies|].
      intros m Hm. apply Hnot. auto.
  - intros i s. unfold find. rewrite find_by_usb_id_result. split.
    + intros [= Hfind] m Hm. apply Hnot. by eapply find_none.
    + intros Hall. f_equal.
      destruct (List.find _ inventory) as [node|] eqn:Hfind; [|done].
      apply find_first in Hfind as (before & after & Heq & Hacc & _).
      destruct (Hall node); [|by apply accepts_satisfies].
      rewrite Heq. apply elem_of_app. right. by left.
  - intros n1 n2 i1 i2 H1 H2 Hi Hs1 Hs2 Honly.
    assert (Hweak : ∀ i m, satisfies h vendor_id product_id (Some i) None m →
                           satisfies h vendor_id product_id None None m).
    { intros i m (info & ? & ? & ? & _ & _). exists info. by split_and!. }
    unfold find. rewrite !find_by_usb_id_result. split; f_equal.
    + apply find_unique; [done|by apply accepts_satisfies|].
      intros m Hm Hacc%accepts_satisfies.
      destruct (Honly m Hm (Hweak _ _ Hacc)) as [->| ->]; [done|].
      destruct Hacc as (info & Hinfo & _ & _ & Hi1 & _).
      destruct Hs2 as (info' & Hinfo' & _ & _ & Hi2 & _).
      rewrite Hinfo in Hinfo'. injection Hinfo' as <-.
      specialize (Hi1 _ eq_refl). specialize (Hi2 _ eq_refl). congruence.
    + pose proof (proj1 (scan_sorted h)) as Hsorted.
      case_bool_decide as Hle.
      * apply (sorted_first_of_two _ n1 n2); [done..| |].
        -- by apply accepts_satisfies, (Hweak i1).
        -- intros m Hm Hacc%accepts_satisfies. auto.
      * apply (sorted_first_of_two _ n2 n1); [done..| | |].
        -- by destruct (total String.le n1 n2).
        -- by apply accepts_satisfies, (Hweak i2).
        -- intros m Hm Hacc%accepts_satisfies.
           destruct (Honly m Hm Hacc); auto.
Qed.

(** The two-port adapter: the filter picks the port, no filter gives the
    first node. *)
Lemma C4_matcher_first_match_witness :
  let inventory := TTYDeviceFinder._scan_tty_devices Scenario.host_two_ports in
  result (TTYDeviceFinder.find_by_usb_id Scenario.host_two_ports inventory
            "0403" "6010" (Some "01") None) = Return (Some "/dev/ttyUSB1")
  ∧ result (TTYDeviceFinder.find_by_usb_id Scenario.host_two_ports inventory
              "0403" "6010" None None) = Return (Some "/dev/ttyUSB0").
Proof.
  pose proof (C4_matcher_first_match Scenario.host_two_ports "0403" "6010")
    as (_ & _ & _ & Htwo).
  destruct (Htwo "/dev/ttyUSB1" "/dev/ttyUSB0" "01" "00") as [Hfilter Hfirst].
  - vm_compute. by right; left.
  - vm_compute. by left.
  - done.
  - apply accepts_satisfies. by vm_compute.
  - apply accepts_satisfies. by vm_compute.
  - intros m Hm _. vm_compute in Hm.
    apply elem_of_cons in Hm as [->|Hm]; [by right|].
    apply elem_of_cons in Hm as [->|Hm]; [by left|]. by apply elem_of_nil in Hm.
  - split; [exact Hfilter|exact Hfirst].
Defined.

(** ** C9: a failed identity lookup is an empty mapping, hence no match *)

(** C9.  The identity lookup returns a property mapping for every node
    and never ends the run.  When the invocation of the property
    subsystem for a node fails, by a non-zero exit status or by any other
    exception, the lookup returns the empty mapping; the matcher, which
    always returns too, then never picks that node: the failure counts as
    no match. *)
Theorem C9_lookup_failure_is_no_match (h : Host.t) (node : string) :
  (∀ stdout, Host.udevadm_info h node ≠ Completed stdout) →
  TTYDeviceFinder._get_device_info h node = ([Udevadm node], Return ∅)
  ∧ (∀ n, ∃ info, result (TTYDeviceFinder._get_device_info h n) = Return info)
  ∧ (∀ tty_devices vendor_id product_id usb_interface usb_serial,
       ∃ found,
         result (TTYDeviceFinder.find_by_usb_id h tty_devices vendor_id product_id
                   usb_interface usb_serial) = Return found
         ∧ found ≠ Some node).
Proof.
  intros Hfail.
  assert (Hempty : device_info h node = ∅).
  { unfold device_info. destruct (Host.udevadm_info h node) eqn:E; [|done..].
    by destruct (Hfail stdout). }
  split; [by rewrite get_device_info_eq, Hempty|]. split.
  - intros n. rewrite get_device_info_eq. by eexists.
  - intros l v p i s. rewrite find_by_usb_id_result. eexists. split; [done|].
    intros (_ & _ & _ & Hacc & _)%find_first.
    unfold accepts in Hacc. rewrite Hempty, lookup_empty in Hacc.
    by rewrite bool_decide_eq_false_2 in Hacc.
Qed.

(** The lookup of [/dev/ttyACM0] exits with status 1 on the scenario's
    host. *)
Lemma C9_lookup_failure_is_no_match_witness :
  TTYDeviceFinder._get_device_info Scenario.host "/dev/ttyACM0"
  = ([Udevadm "/dev/ttyACM0"], Return ∅).
Proof.
  apply (C9_lookup_failure_is_no_match Scenario.host "/dev/ttyACM0").
  intros stdout. vm_compute. discriminate.
Defined.

(** ** The device mapping engine, device by device *)

Lemma for_each_emit {A} (body : A → io unit) (g : A → event) (l : list A) :
  (∀ x, body x = emit (g x)) → for_each l body = (g <$> l, Return tt).
Proof.
  intros Hbody. induction l as [|x l IH]; [done|].
  cbn [for_each]. by rewrite Hbody, io_emit_bind, IH.
Qed.

Section engine.
Context (h : Host.t) (tty_devices : list string).

(** The host node that the engine finds for a device spec: the node
    that the matcher returns for a USB-kind spec, the declared path of
    a static one when the host has it. *)
Definition resolved_node (device : DeviceConfig.t) : option string :=
  if DeviceConfig.is_usb_device device then
    match result (DeviceMapper.map_usb_device h tty_devices device) with
    | Return (Some node) => if Py.truthy node then Some node else None
    | _ => None
    end
  else
    match DeviceConfig.path device with
    | Some path =>
        if Py.truthy path && Host.path_exists h path then Some path else None
    | None => None
    end.

(** The queries that the engine makes for an enabled device spec. *)
Definition lookups (device : DeviceConfig.t) : list event :=
  if DeviceConfig.is_usb_device device then
    trace (DeviceMapper.map_usb_device h tty_devices device)
  else
    match DeviceConfig.path device with
    | Some path => if Py.truthy path then [PathExists path] else []
    | None => []
    end.

(** The device argument that the engine builds for a resolved node. *)
Definition device_arg (device : DeviceConfig.t) (node : string) : string :=
  if DeviceConfig.is_usb_device device then
    node +:+ ":" +:+ DeviceConfig.effective_container_path device +:+ ":rw"
  else node +:+ ":" +:+ DeviceConfig.options device.

(** The failure reason that the engine gives for an unresolved spec. *)
Definition error_msg (device : DeviceConfig.t) : string :=
  if DeviceConfig.is_usb_device device then
    "未找到USB设备 " +:+ fmt_opt (DeviceConfig.usb_vendor device)
      +:+ ":" +:+ fmt_opt (DeviceConfig.usb_product device)
  else "设备路径不存在: " +:+ fmt_opt (DeviceConfig.path device).

Definition entry (device : DeviceConfig.t) : DeviceMapper.item :=
  match resolved_node device with
  | Some node => (device, Some node, device_arg device node)
  | None => (device, None, error_msg device)
  end.

Definition failure (device : DeviceConfig.t) : list (string * string) :=
  match resolved_node device with
  | Some _ => []
  | None => [(DeviceConfig.name device, error_msg device)]
  end.

Lemma map_usb_device_returns device :
  ∃ found, result (DeviceMapper.map_usb_device h tty_devices device) = Return found.
Proof.
  unfold DeviceMapper.map_usb_device.
  destruct (negb _); [by eexists|].
  destruct (DeviceConfig.usb_vendor device), (DeviceConfig.usb_product device);
    try by eexists.
  rewrite find_by_usb_id_result. by eexists.
Qed.

Lemma map_device_eq acc device :
  DeviceMapper.map_device h tty_devices acc device
  = if DeviceConfig.enabled device then
      (lookups device,
       Return (DeviceMapper.mk_lists
                 (DeviceMapper.failed_devices acc ++ failure device)
                 (DeviceMapper.mapped_devices acc ++ [entry device])))
    else ([], Return acc).
Proof.
  unfold DeviceMapper.map_device, lookups, failure, entry, resolved_node,
    device_arg, error_msg.
  destruct (DeviceConfig.enabled device); [|done]. simpl negb. cbv iota.
  destruct (DeviceConfig.is_usb_device device).
  - destruct (map_usb_device_returns device) as [found Hfound].
    rewrite (io_eta (DeviceMapper.map_usb_device h tty_devices device)), Hfound.
    rewrite io_bind_return. simpl result.
    destruct found as [node|]; [destruct (Py.truthy node)|];
      simpl; by rewrite ?app_nil_r.
  - destruct (DeviceConfig.path device) as [path|]; [|by rewrite ?app_nil_r].
    destruct (Py.truthy path); [|by rewrite ?app_nil_r].
    rewrite io_emit_bind. simpl.
    destruct (Host.path_exists h path); by rewrite ?app_nil_r.
Qed.

Lemma map_loop_eq acc devices :
  DeviceMapper.map_loop h tty_devices acc devices
  = (mjoin (lookups <$> filter (λ d, DeviceConfig.enabled d = true) devices),
     Return (DeviceMapper.mk_lists
               (DeviceMapper.failed_devices acc
                ++ mjoin (failure <$> filter (λ d, DeviceConfig.enabled d = true) devices))
               (DeviceMapper.mapped_devices acc
                ++ (entry <$> filter (λ d, DeviceConfig.enabled d = true) devices)))).
Proof.
  revert acc. induction devices as [|d devices IH]; intros acc.
  - simpl. rewrite !app_nil_r. by destruct acc.
  - cbn [DeviceMapper.map_loop]. rewrite map_device_eq.
    destruct (DeviceConfig.enabled d) eqn:Hd.
    + rewrite io_bind_return, IH, filter_cons_True by done. simpl.
      by rewrite <- !app_assoc.
    + rewrite io_bind_return, IH, filter_cons_False by congruence. done.
Qed.

(** The failed devices and the items of a whole device list. *)
Definition failures (devices : list DeviceConfig.t) : list (string * string) :=
  mjoin (failure <$> filter (λ d, DeviceConfig.enabled d = true) devices).

Definition entries (devices : list DeviceConfig.t) : list DeviceMapper.item :=
  entry <$> filter (λ d, DeviceConfig.enabled d = true) devices.

Definition all_lookups (devices : list DeviceConfig.t) : list event :=
  mjoin (lookups <$> filter (λ d, DeviceConfig.enabled d = true) devices).

Lemma map_devices_eq dry_run_mode devices :
  DeviceMapper.map_devices h dry_run_mode tty_devices devices
  = match failures devices with
    | [] => (all_lookups devices, Return (entries devices))
    | _ :: _ =>
        if dry_run_mode then
          (all_lookups devices
             ++ ((λ f, Print ("✗ " +:+ f.1)) <$> failures devices),
           Return (entries devices))
        else
          (all_lookups devices
             ++ LogError "未找到所有必需的设备，无法启动容器"
             :: ((λ f, LogError ("  缺失设备: " +:+ f.1 +:+ " - " +:+ f.2))
                   <$> failures devices)
             ++ [Print (String "010" "按任意键退出..."); Input],
           SysExit 1)
    end.
Proof.
  unfold DeviceMapper.map_devices. rewrite map_loop_eq, io_bind_return.
  simpl. fold (failures devices) (entries devices) (all_lookups devices).
  destruct (failures devices) as [|f fs] eqn:Hf.
  { rewrite io_ret_bind. simpl. by rewrite app_nil_r. }
  unfold DeviceMapper.report_failures. destruct dry_run_mode.
  - rewrite (for_each_emit _ (λ f, Print ("✗ " +:+ f.1))) by by intros [].
    rewrite io_bind_return. simpl. by rewrite app_nil_r.
  - rewrite io_emit_bind.
    rewrite (for_each_emit _
               (λ f, LogError ("  缺失设备: " +:+ f.1 +:+ " - " +:+ f.2)))
      by by intros [].
    rewrite io_bind_return. simpl. done.
Qed.

Lemma failure_elem_of devices device :
  device ∈ devices → DeviceConfig.enabled device = true →
  resolved_node device = None →
  (DeviceConfig.name device, error_msg device) ∈ failures devices.
Proof.
  intros Hin Hen Hnone. unfold failures. apply list_elem_of_join.
  exists (failure device). split.
  - unfold failure. rewrite Hnone. by left.
  - apply list_elem_of_fmap. exists device. split; [done|].
    by apply list_elem_of_filter.
Qed.

End engine.

Section engine_facts.
Context (h : Host.t) (tty_devices : list string).

Lemma resolved_node_truthy device node :
  resolved_node h tty_devices device = Some node → Py.truthy node = true.
Proof.
  unfold resolved_node. destruct (DeviceConfig.is_usb_device device).
  - destruct (result _) as [[n|]|]; [|done..].
    destruct (Py.truthy n) eqn:Hn; [|done]. by intros [= <-].
  - destruct (DeviceConfig.path device) as [p|]; [|done].
    destruct (Py.truthy p) eqn:Hp; [|done].
    destruct (Host.path_exists h p); [|done]. by intros [= <-].
Qed.

(** The engine only queries the host: every event of a lookup is an
    identity lookup or an existence check. *)
Definition is_query (e : event) : Prop :=
  match e with Udevadm _ | PathExists _ => True | _ => False end.

Lemma lookups_queries device : Forall is_query (lookups h tty_devices device).
Proof.
  unfold lookups. destruct (DeviceConfig.is_usb_device device).
  - unfold DeviceMapper.map_usb_device. destruct (negb _); [by constructor|].
    destruct (DeviceConfig.usb_vendor device), (DeviceConfig.usb_product device);
      try by constructor.
    unfold TTYDeviceFinder.find_by_usb_id. rewrite find_loop_eq. simpl.
    apply Forall_fmap, Forall_forall. by intros.
  - destruct (DeviceConfig.path device) as [p|]; [|by constructor].
    destruct (Py.truthy p); by repeat constructor.
Qed.

Lemma all_lookups_queries devices : Forall is_query (all_lookups h tty_devices devices).
Proof.
  unfold all_lookups. apply Forall_join, Forall_fmap, Forall_forall.
  intros d _. apply lookups_queries.
Qed.

(** The failed devices are the enabled ones without a resolved node,
    in the order of the list. *)
Lemma failures_of_list (l : list DeviceConfig.t) :
  mjoin (failure h tty_devices <$> l)
  = (λ d, (DeviceConfig.name d, error_msg d))
      <$> filter (λ d, resolved_node h tty_devices d = None) l.
Proof.
  induction l as [|d l IH]; [done|].
  rewrite fmap_cons. change (mjoin (?x :: ?xs)) with (x ++ mjoin xs).
  rewrite IH. unfold failure.
  destruct (resolved_node h tty_devices d) eqn:Hd.
  - by rewrite filter_cons_False by congruence.
  - by rewrite filter_cons_True by done.
Qed.

Lemma failures_unresolved devices :
  failures h tty_devices devices
  = (λ d, (DeviceConfig.name d, error_msg d))
      <$> filter (λ d, resolved_node h tty_devices d = None)
            (filter (λ d, DeviceConfig.enabled d = true) devices).
Proof. apply failures_of_list. Qed.

(** The line that [_log_device_mapping] prints. *)
Definition mapping_line (dry_run_mode : bool) (device : DeviceConfig.t)
    (node : string) : string :=
  match trace (DockerRunner._log_device_mapping dry_run_mode device node "") with
  | Print line :: _ => line
  | _ => ""
  end.

Lemma log_device_mapping_eq dry_run_mode device node arg :
  DockerRunner._log_device_mapping dry_run_mode device node arg
  = emit (Print (mapping_line dry_run_mode device node)).
Proof.
  unfold mapping_line, DockerRunner._log_device_mapping.
  destruct dry_run_mode; [done|]. by destruct (DeviceConfig.is_usb_device device).
Qed.

Lemma mapping_line_dry device node :
  mapping_line true device node = "✓ " +:+ DeviceConfig.name device.
Proof. done. Qed.

(** The device arguments and the printed lines of the resolved devices
    of a list. *)
Definition resolved_args (device : DeviceConfig.t) : list string :=
  match resolved_node h tty_devices device with
  | Some node => ["--device"; device_arg device node]
  | None => []
  end.

Definition resolved_line (dry_run_mode : bool) (device : DeviceConfig.t)
    : list event :=
  match resolved_node h tty_devices device with
  | Some node => [Print (mapping_line dry_run_mode device node)]
  | None => []
  end.

Lemma device_args_loop_eq dry_run_mode device_args (l : list DeviceConfig.t) :
  DockerRunner.device_args_loop dry_run_mode device_args (entry h tty_devices <$> l)
  = (mjoin (resolved_line dry_run_mode <$> l),
     Return (device_args ++ mjoin (resolved_args <$> l))).
Proof.
  revert device_args. induction l as [|d l IH]; intros device_args.
  - simpl. by rewrite app_nil_r.
  - rewrite !fmap_cons. unfold entry at 1, resolved_line at 1, resolved_args at 1.
    destruct (resolved_node h tty_devices d) as [node|] eqn:Hd.
    + cbn [DockerRunner.device_args_loop].
      rewrite (resolved_node_truthy _ _ Hd), log_device_mapping_eq, io_emit_bind, IH.
      simpl. by rewrite <- app_assoc.
    + cbn [DockerRunner.device_args_loop]. by rewrite IH.
Qed.

End engine_facts.

Section runner_facts.
Context (h : Host.t) (r : DockerRunner.t).

(** The enabled device specs of the configuration. *)
Definition enabled_devices : list DeviceConfig.t :=
  filter (λ d, DeviceConfig.enabled d = true) (DockerRunner.devices r).

(** The device arguments of the command: a pair for each enabled device
    with a resolved node, in the order of the configuration. *)
Definition device_args : list string :=
  mjoin (resolved_args h (DockerRunner.tty_devices r) <$> enabled_devices).

(** With every enabled device resolved, or in dry-run mode, the device
    arguments are built; in normal mode a failed device ends the run. *)
Lemma build_device_args_eq dry_run_mode :
  DockerRunner._build_device_args h dry_run_mode r
  = (trace (DeviceMapper.map_devices h dry_run_mode (DockerRunner.tty_devices r) (DockerRunner.devices r))
       ++ match result (DeviceMapper.map_devices h dry_run_mode (DockerRunner.tty_devices r)
                          (DockerRunner.devices r)) with
          | Return _ => mjoin (resolved_line h (DockerRunner.tty_devices r) dry_run_mode <$> enabled_devices)
          | SysExit _ => []
          end,
     match result (DeviceMapper.map_devices h dry_run_mode (DockerRunner.tty_devices r)
                     (DockerRunner.devices r)) with
     | Return _ => Return device_args
     | SysExit c => SysExit c
     end).
Proof.
  unfold DockerRunner._build_device_args. rewrite map_devices_eq.
  destruct (failures h (DockerRunner.tty_devices r) (DockerRunner.devices r)); [|destruct dry_run_mode].
  - rewrite io_bind_return. unfold entries. by rewrite device_args_loop_eq.
  - rewrite io_bind_return. unfold entries. by rewrite device_args_loop_eq.
  - rewrite io_bind_exit. simpl. by rewrite app_nil_r.
Qed.

(** The command object that [_build_docker_command] fills in, given
    the device arguments. *)
Definition docker_command (container_name image_name : string)
    (devices : list string) : DockerCommand.t :=
  DockerCommand.mk ["docker"; "run"; "-d"] (Some container_name) (Some image_name)
    (if bool_decide (ResourceConfig.network (DockerRunner.resource_config r) ≠ "bridge")
     then Some (ResourceConfig.network (DockerRunner.resource_config r)) else None)
    (ResourceConfig.privileged (DockerRunner.resource_config r))
    (if ResourceConfig.gpu_enabled (DockerRunner.resource_config r)
     then Some (ResourceConfig.gpu_options (DockerRunner.resource_config r)) else None)
    (DockerRunner._build_volume_args h (DockerRunner.volumes r))
    devices
    (DockerRunner._build_environment_args h (DockerRunner.environment_config r)).

Lemma build_docker_command_eq dry_run_mode n i :
  DockerRunner._build_docker_command h dry_run_mode r n i
  = (trace (DockerRunner._build_device_args h dry_run_mode r),
     match result (DockerRunner._build_device_args h dry_run_mode r) with
     | Return devices => Return (docker_command n i devices)
     | SysExit c => SysExit c
     end).
Proof.
  unfold DockerRunner._build_docker_command.
  rewrite (io_eta (DockerRunner._build_device_args h dry_run_mode r)).
  destruct (result (DockerRunner._build_device_args h dry_run_mode r)).
  - rewrite io_bind_return. simpl. by rewrite app_nil_r.
  - by rewrite io_bind_exit.
Qed.

Lemma assemble_eq dry_run_mode n i :
  DockerRunner.assemble h dry_run_mode r n i
  = (trace (DockerRunner._build_device_args h dry_run_mode r),
     match result (DockerRunner._build_device_args h dry_run_mode r) with
     | Return devices => Return (DockerCommand.build (docker_command n i devices))
     | SysExit c => SysExit c
     end).
Proof.
  unfold DockerRunner.assemble. rewrite build_docker_command_eq.
  destruct (result (DockerRunner._build_device_args h dry_run_mode r)).
  - rewrite io_bind_return. simpl. by rewrite app_nil_r.
  - by rewrite io_bind_exit.
Qed.

End runner_facts.

(** ** C1: the device argument of a resolved USB device *)

(** The argument that the engine builds for a resolved USB-kind device
    ends in [rw] whatever the options of the spec are. *)
Lemma usb_device_arg_is_rw (h : Host.t) (tty_devices : list string)
    (device : DeviceConfig.t) (node : string) :
  DeviceConfig.is_usb_device device = true →
  resolved_node h tty_devices device = Some node →
  entry h tty_devices device
  = (device, Some node,
     node +:+ ":" +:+ DeviceConfig.effective_container_path device +:+ ":rw").
Proof. intros Husb Hnode. unfold entry, device_arg. by rewrite Hnode, Husb. Qed.

(** C1.  On the host of the scenario, the enabled USB-kind spec [lidar]
    with the options [ro] resolves to [/dev/ttyUSB0]; the engine produces
    the device argument [/dev/ttyUSB0:/dev/lidar:rw], which is not the
    resolved node paired with the effective container path and the
    options of the spec, [/dev/ttyUSB0:/dev/lidar:ro].  The static-path
    branch of the same loop does use the options: the read-only joystick
    is mapped as [/dev/input/js0:ro]. *)
Theorem C1_usb_device_argument_drops_options :
  let tty_devices := TTYDeviceFinder._scan_tty_devices Scenario.host in
  result (DeviceMapper.map_devices Scenario.host false tty_devices
            [Scenario.lidar_ro; Scenario.joystick_ro])
  = Return [(Scenario.lidar_ro, Some "/dev/ttyUSB0", "/dev/ttyUSB0:/dev/lidar:rw");
            (Scenario.joystick_ro, Some "/dev/input/js0", "/dev/input/js0:ro")]
  ∧ "/dev/ttyUSB0" +:+ ":" +:+ DeviceConfig.effective_container_path Scenario.lidar_ro
      +:+ ":" +:+ DeviceConfig.options Scenario.lidar_ro
    = "/dev/ttyUSB0:/dev/lidar:ro".
Proof. split; by vm_compute. Qed.

(** ** C2: in normal mode one failed device ends the run *)

(** The commands that a trace hands to the container runtime. *)
Definition launches (t : list event) : list (list string) :=
  omap (λ e, match e with Launch cmd => Some cmd | _ => None end) t.

Lemma launches_app (t1 t2 : list event) :
  launches (t1 ++ t2) = launches t1 ++ launches t2.
Proof. apply omap_app. Qed.

Lemma launches_cons (e : event) (t : list event) :
  launches (e :: t)
  = match e with Launch cmd => [cmd] | _ => [] end ++ launches t.
Proof. by destruct e. Qed.

Lemma launches_queries (t : list event) : Forall is_query t → launches t = [].
Proof.
  induction 1 as [|e t He _ IH]; [done|].
  rewrite launches_cons, IH. by destruct e.
Qed.

Lemma launches_fmap {A} (g : A → event) (l : list A) :
  (∀ x cmd, g x ≠ Launch cmd) → launches (g <$> l) = [].
Proof.
  intros Hg. induction l as [|x l IH]; [done|].
  rewrite fmap_cons, launches_cons, IH.
  destruct (g x) eqn:E; try done. by destruct (Hg x cmd).
Qed.

(** The engine and the assembler launch nothing. *)
Lemma map_devices_launches h dry_run_mode tty_devices devices :
  launches (trace (DeviceMapper.map_devices h dry_run_mode tty_devices devices)) = [].
Proof.
  rewrite map_devices_eq.
  pose proof (launches_queries _ (all_lookups_queries h tty_devices devices)) as Hq.
  destruct (failures h tty_devices devices); [done|].
  destruct dry_run_mode; simpl; rewrite launches_app, Hq; simpl.
  - by apply launches_fmap.
  - rewrite (launches_app _ [_; _]). unfold launches at 1. simpl.
    rewrite launches_fmap by done. done.
Qed.

Lemma build_device_args_launches h dry_run_mode r :
  launches (trace (DockerRunner._build_device_args h dry_run_mode r)) = [].
Proof.
  rewrite build_device_args_eq. simpl.
  rewrite launches_app, map_devices_launches.
  destruct (result _); [|done]. simpl.
  induction (enabled_devices r) as [|d l IH]; [done|].
  rewrite fmap_cons. change (mjoin (?x :: ?xs)) with (x ++ mjoin xs).
  rewrite launches_app, IH. unfold resolved_line. by destruct (resolved_node _ _ d).
Qed.

(** The names that [run] settles on. *)
Definition final_container_name (r : DockerRunner.t) (container_name : option string)
    : string :=
  Py.or_else container_name (ContainerConfig.name (DockerRunner.container_config r)).

Definition final_image_name (r : DockerRunner.t) (image_name : option string)
    : string :=
  Py.or_else image_name
    (ContainerConfig.image_repository (DockerRunner.container_config r) +:+ ":"
       +:+ ContainerConfig.image_tag (DockerRunner.container_config r)).

(** [run] in normal mode when the engine ends the run. *)
Lemma run_normal_exit (h : Host.t) (r : DockerRunner.t)
    (container_name image_name : option string) :
  result (DockerRunner._build_device_args h false r) = SysExit 1 →
  DockerRunner.run h r container_name image_name false
  = if negb (Py.truthy (final_container_name r container_name))
       || negb (Py.truthy (final_image_name r image_name))
    then ([LogError "容器名称和镜像名称不能为空"], Return false)
    else if Host.stop_and_remove_container h (final_container_name r container_name)
    then (StopAndRemove (final_container_name r container_name) :: Xhost
            :: trace (DockerRunner._build_device_args h false r),
          SysExit 1)
    else ([StopAndRemove (final_container_name r container_name)], Return false).
Proof.
  intros Hexit. unfold DockerRunner.run.
  fold (final_container_name r container_name) (final_image_name r image_name).
  rewrite assemble_eq, Hexit.
  destruct (negb _ || negb _); [done|].
  io_red. destruct (Host.stop_and_remove_container h _); by io_red.
Qed.

(** [start] in normal mode around a [run] that does not succeed: it
    does not succeed either, and when it exits, it is [run] that did. *)
Lemma start_normal_unsuccessful (h : Host.t) (r : DockerRunner.t)
    (container_name image_repository image_tag command exec_mode : string)
    (force : bool) :
  let m := DockerRunner.run h r (Some container_name)
             (Some (image_repository +:+ ":" +:+ image_tag)) false in
  let s := DockerStarter.start h r container_name image_repository image_tag
             command exec_mode false force in
  result m ≠ Return true → launches (trace m) = [] →
  (result s = Return false ∨ result s = result m)
  ∧ launches (trace s) = []
  ∧ (∀ c, result s = SysExit c → ∃ before, trace s = before ++ trace m).
Proof.
  intros m s Hm Hl. subst s. unfold DockerStarter.start. fold m.
  clearbody m. destruct m as [tm [[|]|c]]; simpl in Hm, Hl; [done|..].
  all: destruct (Host.check_docker h),
         (negb (Py.truthy container_name) || negb (Py.truthy image_repository)
          || negb (Py.truthy image_tag)), force,
         (Host.pull_image h (image_repository +:+ ":" +:+ image_tag)),
         (Host.check_image_exists h (image_repository +:+ ":" +:+ image_tag));
       io_red.
  all: split_and!;
         [ by (left + right)
         | by repeat (rewrite launches_cons || rewrite launches_app || rewrite Hl)
         | intros c' Hc; try discriminate Hc;
           first [by exists [] | by eexists [_] | by eexists [_; _]
                 | by eexists [_; _; _]] ].
Qed.

(** C2.  In normal mode, when an enabled device of the configuration
    does not resolve, whatever the other devices do: the engine ends the
    run with exit status 1, after logging the name and the failure reason
    of every enabled device that did not resolve; the assembler produces
    no command; [run] launches nothing and either returns failure or
    exits with status 1; and the process started by [start] launches
    nothing and ends with a non-zero exit status, the names and reasons
    being in its trace whenever it is the engine that ended it. *)
Theorem C2_normal_mode_fails_closed (h : Host.t) (r : DockerRunner.t)
    (device : DeviceConfig.t) :
  device ∈ DockerRunner.devices r →
  DeviceConfig.enabled device = true →
  resolved_node h (DockerRunner.tty_devices r) device = None →
  let engine := DeviceMapper.map_devices h false (DockerRunner.tty_devices r)
                  (DockerRunner.devices r) in
  let reported (t : list event) :=
    ∀ d, d ∈ DockerRunner.devices r → DeviceConfig.enabled d = true →
         resolved_node h (DockerRunner.tty_devices r) d = None →
         LogError ("  缺失设备: " +:+ DeviceConfig.name d +:+ " - "
                     +:+ error_msg d) ∈ t in
  (result engine = SysExit 1 ∧ reported (trace engine))
  ∧ (∀ n i, result (DockerRunner.assemble h false r n i) = SysExit 1)
  ∧ (∀ container_name image_name,
       let m := DockerRunner.run h r container_name image_name false in
       (result m = Return false ∨ result m = SysExit 1)
       ∧ launches (trace m) = []
       ∧ (result m = SysExit 1 → reported (trace m)))
  ∧ (∀ container_name image_repository image_tag command exec_mode force,
       let s := DockerStarter.start h r container_name image_repository image_tag
                  command exec_mode false force in
       DockerStarter.exit_status (result s) ≠ 0%Z
       ∧ launches (trace s) = []
       ∧ (result s = SysExit 1 → reported (trace s))).
Proof.
  intros Hin Hen Hnone engine reported.
  pose proof (failure_elem_of h _ _ _ Hin Hen Hnone) as Hfailed.
  assert (Hengine : result engine = SysExit 1 ∧ reported (trace engine)).
  { subst engine reported. cbv beta. rewrite map_devices_eq.
    destruct (failures h _ (DockerRunner.devices r)) as [|f fs] eqn:Hf.
    { by apply elem_of_nil in Hfailed. }
    split; [done|]. intros d Hd1 Hd2 Hd3. unfold trace. cbn [fst].
    apply elem_of_app. right. apply elem_of_cons. right.
    apply elem_of_app. left. rewrite <- Hf.
    apply list_elem_of_fmap. exists (DeviceConfig.name d, error_msg d).
    split; [done|]. by apply failure_elem_of. }
  destruct Hengine as [Hexit Hreported].
  assert (Hargs : result (DockerRunner._build_device_args h false r) = SysExit 1
                  ∧ trace (DockerRunner._build_device_args h false r) = trace engine).
  { rewrite build_device_args_eq. fold engine. rewrite Hexit. simpl.
    by rewrite app_nil_r. }
  destruct Hargs as [Hargs Htrace].
  assert (Hrun : ∀ container_name image_name,
    let m := DockerRunner.run h r container_name image_name false in
    (result m = Return false ∨ result m = SysExit 1)
    ∧ launches (trace m) = []
    ∧ (result m = SysExit 1 → reported (trace m))).
  { intros cn img. cbv zeta. rewrite (run_normal_exit _ _ _ _ Hargs).
    destruct (negb _ || negb _); [by split_and!; [left| |]|].
    destruct (Host.stop_and_remove_container h _); [|by split_and!; [left| |]].
    split_and!; [by right| |].
    - simpl trace. rewrite !launches_cons. simpl.
      apply build_device_args_launches.
    - intros _ d Hd1 Hd2 Hd3. simpl trace. rewrite Htrace.
      do 2 (apply elem_of_cons; right). by apply Hreported. }
  split_and!; [done|done| |done|].
  - intros n i. by rewrite assemble_eq, Hargs.
  - intros cn repo tag cmd mode force s.
    destruct (Hrun (Some cn) (Some (repo +:+ ":" +:+ tag))) as (Hres & Hl & Hrep).
    destruct (start_normal_unsuccessful h r cn repo tag cmd mode force)
      as (Hs & Hsl & Hst);
      [|done|].
    { destruct Hres as [-> | ->]; done. }
    fold s in Hs, Hsl, Hst. split_and!; [|done|].
    + destruct Hs as [-> | ->]; [done|]. by destruct Hres as [-> | ->].
    + intros Hs1 d Hd1 Hd2 Hd3. destruct (Hst _ Hs1) as [before ->].
      apply elem_of_app. right. apply Hrep; [|done..].
      destruct Hs as [Hs|Hs]; congruence.
Qed.

(** One lidar that resolves and one camera that does not: the run ends
    with status 1 and the camera is named with its reason. *)
Lemma C2_normal_mode_fails_closed_witness :
  let r := Scenario.runner "bridge" [Scenario.lidar; Scenario.camera] in
  DockerStarter.exit_status
    (result (DockerStarter.start Scenario.host r "dev" "ubuntu" "latest" "bash"
               "interactive" false false))
  ≠ 0%Z
  ∧ LogError "  缺失设备: camera - 设备路径不存在: /dev/video0"
    ∈ trace (DeviceMapper.map_devices Scenario.host false (DockerRunner.tty_devices r)
               (DockerRunner.devices r)).
Proof.
  intros r.
  destruct (C2_normal_mode_fails_closed Scenario.host r Scenario.camera)
    as ((_ & Hreported) & _ & _ & Hstart).
  - unfold r. simpl. by right; left.
  - reflexivity.
  - by vm_compute.
  - split.
    + apply (Hstart "dev" "ubuntu" "latest" "bash" "interactive" false).
    + apply (Hreported Scenario.camera); [by right; left|reflexivity|by vm_compute].
Defined.

(** ** C3: in dry-run mode failed devices are reported and left out *)

Section dry_run.
Context (h : Host.t) (r : DockerRunner.t).

(** The enabled devices that resolve, and those that do not. *)
Definition resolved_devices : list DeviceConfig.t :=
  filter (λ d, is_Some (resolved_node h (DockerRunner.tty_devices r) d))
    (enabled_devices r).

Definition unresolved_devices : list DeviceConfig.t :=
  filter (λ d, resolved_node h (DockerRunner.tty_devices r) d = None)
    (enabled_devices r).

Lemma resolved_lines_dry (l : list DeviceConfig.t) :
  mjoin (resolved_line h (DockerRunner.tty_devices r) true <$> l)
  = (λ d, Print ("✓ " +:+ DeviceConfig.name d))
      <$> filter (λ d, is_Some (resolved_node h (DockerRunner.tty_devices r) d)) l.
Proof.
  induction l as [|d l IH]; [done|].
  rewrite fmap_cons. change (mjoin (?x :: ?xs)) with (x ++ mjoin xs).
  rewrite IH. unfold resolved_line.
  destruct (resolved_node h (DockerRunner.tty_devices r) d) eqn:Hd.
  - rewrite filter_cons_True; [done|]. rewrite Hd. by eexists.
  - rewrite filter_cons_False; [done|]. rewrite Hd. by intros [? ?].
Qed.

Lemma build_device_args_dry :
  DockerRunner._build_device_args h true r
  = (all_lookups h (DockerRunner.tty_devices r) (DockerRunner.devices r)
       ++ ((λ d, Print ("✗ " +:+ DeviceConfig.name d)) <$> unresolved_devices)
       ++ ((λ d, Print ("✓ " +:+ DeviceConfig.name d)) <$> resolved_devices),
     Return (device_args h r)).
Proof.
  rewrite build_device_args_eq, map_devices_eq, resolved_lines_dry.
  fold resolved_devices.
  assert (Hf : (λ f : string * string, Print ("✗ " +:+ f.1))
                 <$> failures h (DockerRunner.tty_devices r) (DockerRunner.devices r)
               = (λ d, Print ("✗ " +:+ DeviceConfig.name d)) <$> unresolved_devices).
  { rewrite failures_unresolved. unfold unresolved_devices, enabled_devices.
    by rewrite <- list_fmap_compose. }
  rewrite <- Hf.
  destruct (failures h _ (DockerRunner.devices r)); simpl; [done|].
  by rewrite <- app_assoc.
Qed.

Lemma run_dry (container_name image_name : option string) :
  Py.truthy (final_container_name r container_name) = true →
  Py.truthy (final_image_name r image_name) = true →
  DockerRunner.run h r container_name image_name true
  = (trace (DockerRunner._build_device_args h true r)
       ++ [Print "";
           Print (Py.join " "
                    (DockerCommand.build
                       (docker_command h r (final_container_name r container_name)
                          (final_image_name r image_name) (device_args h r))))],
     Return true).
Proof.
  intros Hn Hi. unfold DockerRunner.run.
  fold (final_container_name r container_name) (final_image_name r image_name).
  rewrite Hn, Hi, assemble_eq, build_device_args_dry. by io_red.
Qed.

End dry_run.

(** ** C6: disabled specs contribute nothing and are never looked up *)

Lemma build_volume_args_app (h : Host.t) (l1 l2 : list VolumeConfig.t) :
  DockerRunner._build_volume_args h (l1 ++ l2)
  = DockerRunner._build_volume_args h l1 ++ DockerRunner._build_volume_args h l2.
Proof.
  induction l1 as [|v l1 IH]; [done|]. simpl.
  destruct (VolumeConfig.enabled v); [|done]. by rewrite IH.
Qed.

Lemma enabled_devices_skip (before after : list DeviceConfig.t)
    (device : DeviceConfig.t) :
  DeviceConfig.enabled device = false →
  filter (λ d, DeviceConfig.enabled d = true) (before ++ device :: after)
  = filter (λ d, DeviceConfig.enabled d = true) (before ++ after).
Proof.
  intros Hoff. rewrite !filter_app. f_equal.
  apply filter_cons_False. congruence.
Qed.

(** C6.  A volume spec or a device spec with [enabled = false]
    contributes no argument and causes no query: the volume arguments
    are those of the list without the disabled volume; a turn of the
    engine's loop on a disabled device does nothing at all, so that
    neither an existence check nor an identity lookup is made for it;
    and the whole run, with its trace of queries and its command, is the
    run of the configuration from which the disabled volume and the
    disabled device have been removed. *)
Theorem C6_disabled_specs_are_skipped (h : Host.t) (volume : VolumeConfig.t)
    (device : DeviceConfig.t) :
  VolumeConfig.enabled volume = false →
  DeviceConfig.enabled device = false →
  (∀ before after,
     DockerRunner._build_volume_args h (before ++ volume :: after)
     = DockerRunner._build_volume_args h (before ++ after))
  ∧ (∀ tty_devices acc,
       DeviceMapper.map_device h tty_devices acc device = ([], Return acc))
  ∧ (∀ dry_run_mode tty_devices before after,
       DeviceMapper.map_devices h dry_run_mode tty_devices (before ++ device :: after)
       = DeviceMapper.map_devices h dry_run_mode tty_devices (before ++ after))
  ∧ (∀ cc rc ec volumes1 volumes2 devices1 devices2 tty_devices
       container_name image_name dry_run,
       DockerRunner.run h
         (DockerRunner.mk cc rc ec (volumes1 ++ volume :: volumes2)
            (devices1 ++ device :: devices2) tty_devices)
         container_name image_name dry_run
       = DockerRunner.run h
           (DockerRunner.mk cc rc ec (volumes1 ++ volumes2) (devices1 ++ devices2)
              tty_devices)
           container_name image_name dry_run).
Proof.
  intros Hvolume Hdevice.
  assert (Hvols : ∀ before after,
    DockerRunner._build_volume_args h (before ++ volume :: after)
    = DockerRunner._build_volume_args h (before ++ after)).
  { intros before after. rewrite !build_volume_args_app. simpl.
    by rewrite Hvolume. }
  assert (Hdevs : ∀ dry_run_mode tty_devices before after,
    DeviceMapper.map_devices h dry_run_mode tty_devices (before ++ device :: after)
    = DeviceMapper.map_devices h dry_run_mode tty_devices (before ++ after)).
  { intros dry tty before after. rewrite !map_devices_eq.
    unfold failures, entries, all_lookups.
    by rewrite (enabled_devices_skip _ _ _ Hdevice). }
  split_and!; [done| |done|].
  - intros tty acc. by rewrite map_device_eq, Hdevice.
  - intros. unfold DockerRunner.run, DockerRunner.assemble,
      DockerRunner._build_docker_command, DockerRunner._build_device_args.
    simpl. by rewrite Hvols, Hdevs.
Qed.

(** The disabled cache volume and the disabled camera of the scenario. *)
Lemma C6_disabled_specs_are_skipped_witness :
  DockerRunner._build_volume_args Scenario.host [Scenario.workspace; Scenario.cache_off]
  = DockerRunner._build_volume_args Scenario.host [Scenario.workspace]
  ∧ DeviceMapper.map_devices Scenario.host false
      (TTYDeviceFinder._scan_tty_devices Scenario.host)
      [Scenario.lidar; Scenario.camera_off]
    = DeviceMapper.map_devices Scenario.host false
        (TTYDeviceFinder._scan_tty_devices Scenario.host) [Scenario.lidar].
Proof.
  destruct (C6_disabled_specs_are_skipped Scenario.host Scenario.cache_off
              Scenario.camera_off) as (Hvolumes & _ & Hdevices & _);
    [reflexivity..|].
  split.
  - exact (Hvolumes [Scenario.workspace] []).
  - exact (Hdevices false _ [Scenario.lidar] []).
Defined.

(** ** C7: the audio-server address *)

(** C7 as stated fails for an address that is configured but empty: the
    configured address is the empty string, the returned one is the
    derived address. *)
Lemma C7_empty_address_counterexample :
  ¬ (∀ (h : Host.t) (e : EnvironmentConfig.t) (address : string),
       EnvironmentConfig.pulse_server e = Some address →
       EnvironmentConfig.get_pulse_server h e = address).
Proof.
  intros Hclaim.
  specialize (Hclaim Scenario.host
                (EnvironmentConfig.mk 0 0 ":0" true [] (Some "")) "" eq_refl).
  vm_compute in Hclaim. discriminate.
Qed.

(** C7, amended.  When no audio-server address is configured, or an
    empty one, the derived value is [unix:/run/user/{uid}/pulse/native]
    for the current user id, which for the user id 1000 is
    [unix:/run/user/1000/pulse/native]; when a non-empty address is
    configured, that address is returned unchanged. *)
Theorem C7_pulse_server (h : Host.t) (e : EnvironmentConfig.t) :
  ((EnvironmentConfig.pulse_server e = None
    ∨ EnvironmentConfig.pulse_server e = Some "") →
   EnvironmentConfig.get_pulse_server h e
   = "unix:/run/user/" +:+ pretty (Host.getuid h) +:+ "/pulse/native"
   ∧ (Host.getuid h = 1000%N →
      EnvironmentConfig.get_pulse_server h e = "unix:/run/user/1000/pulse/native"))
  ∧ (∀ address, address ≠ "" →
       EnvironmentConfig.pulse_server e = Some address →
       EnvironmentConfig.get_pulse_server h e = address).
Proof.
  unfold EnvironmentConfig.get_pulse_server. split.
  - intros [-> | ->]; (split; [done|]); by intros ->.
  - intros address Hne ->. by destruct address.
Qed.

(** With nothing configured and the user id 1000. *)
Lemma C7_pulse_server_witness :
  EnvironmentConfig.get_pulse_server Scenario.host
    (EnvironmentConfig.mk 0 0 ":0" true [] None)
  = "unix:/run/user/1000/pulse/native"
  ∧ EnvironmentConfig.get_pulse_server Scenario.host
      (EnvironmentConfig.mk 0 0 ":0" true [] (Some "tcp:10.0.0.2:4713"))
    = "tcp:10.0.0.2:4713".
Proof.
  pose proof (C7_pulse_server Scenario.host
                (EnvironmentConfig.mk 0 0 ":0" true [] None)) as [Hnone _].
  pose proof (C7_pulse_server Scenario.host
                (EnvironmentConfig.mk 0 0 ":0" true [] (Some "tcp:10.0.0.2:4713")))
    as [_ Hsome].
  split.
  - apply Hnone; [by left|reflexivity].
  - apply Hsome; [discriminate|reflexivity].
Defined.

(** ** The structure of the assembled command *)

Section assembled.
Context (h : Host.t) (r : DockerRunner.t).

Definition network_args : list string :=
  let network := ResourceConfig.network (DockerRunner.resource_config r) in
  if bool_decide (network = "bridge" ∨ network = "") then []
  else ["--network"; network].

Definition privileged_args : list string :=
  if ResourceConfig.privileged (DockerRunner.resource_config r)
  then ["--privileged"] else [].

Definition gpu_args : list string :=
  if ResourceConfig.gpu_enabled (DockerRunner.resource_config r)
  then Py.split (ResourceConfig.gpu_options (DockerRunner.resource_config r))
  else [].

Lemma split_empty_go skip : Py.split_go skip "" "" = [].
Proof. done. Qed.

(** The command built from the command object of the runner, part by
    part, for names that are not empty. *)
Lemma build_eq (n i : string) (devices : list string) :
  Py.truthy n = true → Py.truthy i = true →
  DockerCommand.build (docker_command h r n i devices)
  = ["docker"; "run"; "-d"] ++ ["--name"; n] ++ network_args ++ privileged_args
    ++ gpu_args
    ++ DockerRunner._build_volume_args h (DockerRunner.volumes r)
    ++ devices
    ++ DockerRunner._build_environment_args h (DockerRunner.environment_config r)
    ++ [i; "tail"; "-f"; "/dev/null"].
Proof.
  intros Hn Hi.
  unfold DockerCommand.build, docker_command, DockerCommand.extend_if,
    network_args, privileged_args, gpu_args.
  cbn [DockerCommand.base_cmd DockerCommand.name DockerCommand.network
       DockerCommand.privileged DockerCommand.gpu_options DockerCommand.volumes
       DockerCommand.devices DockerCommand.environment DockerCommand.image].
  rewrite Hn, Hi.
  set (network := ResourceConfig.network (DockerRunner.resource_config r)).
  assert (Hnet :
    match (if bool_decide (network ≠ "bridge") then Some network else None) with
    | Some s => if Py.truthy s
                then (["docker"; "run"; "-d"] ++ ["--name"; n]) ++ ["--network"; s]
                else ["docker"; "run"; "-d"] ++ ["--name"; n]
    | None => ["docker"; "run"; "-d"] ++ ["--name"; n]
    end
    = (["docker"; "run"; "-d"] ++ ["--name"; n])
      ++ (if bool_decide (network = "bridge" ∨ network = "") then []
          else ["--network"; network])).
  { destruct (decide (network = "bridge")) as [Hb|Hb].
    - rewrite bool_decide_eq_false_2 by (by intros ?).
      rewrite bool_decide_eq_true_2 by (by left). by rewrite app_nil_r.
    - rewrite (bool_decide_eq_true_2 (network ≠ "bridge")) by done.
      destruct (decide (network = "")) as [He|He].
      + rewrite bool_decide_eq_true_2 by (by right). by rewrite He.
      + rewrite bool_decide_eq_false_2 by (by intros [|]).
        by destruct network. }
  rewrite Hnet. clear Hnet.
  set (gpu := ResourceConfig.gpu_options (DockerRunner.resource_config r)).
  destruct (ResourceConfig.privileged _), (ResourceConfig.gpu_enabled _);
    try (destruct (Py.truthy gpu) eqn:Hgpu;
         [|destruct gpu; [|done]; rewrite (split_empty_go 0 : Py.split "" = [])]);
    by rewrite <- ?app_assoc, ?app_nil_r.
Qed.

Lemma assemble_cases dry_run_mode (n i : string) :
  Py.truthy n = true → Py.truthy i = true →
  ∀ cmd, result (DockerRunner.assemble h dry_run_mode r n i) = Return cmd →
  cmd = ["docker"; "run"; "-d"] ++ ["--name"; n] ++ network_args ++ privileged_args
        ++ gpu_args
        ++ DockerRunner._build_volume_args h (DockerRunner.volumes r)
        ++ device_args h r
        ++ DockerRunner._build_environment_args h (DockerRunner.environment_config r)
        ++ [i; "tail"; "-f"; "/dev/null"].
Proof.
  intros Hn Hi cmd. rewrite assemble_eq, build_device_args_eq. simpl result.
  destruct (result (DeviceMapper.map_devices _ _ _ _)); [|done].
  intros [= <-]. by apply build_eq.
Qed.

End assembled.

(** ** C5: the network flag *)

(** The text contains a colon. *)
Fixpoint has_colon (s : string) : bool :=
  match s with
  | EmptyString => false
  | String c s' => Ascii.eqb c ":" || has_colon s'
  end.

Lemma has_colon_app (a b : string) : has_colon (a +:+ ":" +:+ b) = true.
Proof.
  induction a as [|c a IH]; [done|]. simpl. rewrite IH. apply orb_true_r.
Qed.

Lemma colon_not_network (a b : string) : a +:+ ":" +:+ b ≠ "--network".
Proof.
  intros Heq. pose proof (has_colon_app a b) as Hc. rewrite Heq in Hc. done.
Qed.

Lemma volume_args_no_network (h : Host.t) (volumes : list VolumeConfig.t) :
  "--network" ∉ DockerRunner._build_volume_args h volumes.
Proof.
  induction volumes as [|v l IH]; simpl; [by intros ?%elem_of_nil|].
  destruct (VolumeConfig.enabled v); [|done].
  intros [?|[Heq|?]%elem_of_cons]%elem_of_cons; [done| |done].
  by apply eq_sym, colon_not_network in Heq.
Qed.

Lemma device_args_no_network (h : Host.t) (r : DockerRunner.t) :
  "--network" ∉ device_args h r.
Proof.
  unfold device_args.
  induction (enabled_devices r) as [|d l IH]; [by intros ?%elem_of_nil|].
  rewrite fmap_cons. change (mjoin (?x :: ?xs)) with (x ++ mjoin xs).
  intros [Hd|?]%elem_of_app; [|done].
  unfold resolved_args in Hd.
  destruct (resolved_node h _ d) as [node|]; [|by apply elem_of_nil in Hd].
  apply elem_of_cons in Hd as [?|Hd]; [done|].
  apply list_elem_of_singleton in Hd. unfold device_arg in Hd.
  destruct (DeviceConfig.is_usb_device d);
    by apply eq_sym, colon_not_network in Hd.
Qed.

Lemma environment_args_no_network (h : Host.t) (e : EnvironmentConfig.t) :
  "--network" ∉ DockerRunner._build_environment_args h e.
Proof.
  unfold DockerRunner._build_environment_args. simpl.
  rewrite !elem_of_cons, elem_of_nil. intros H.
  repeat (destruct H as [H|H]; [discriminate H|]). done.
Qed.

(** C5 as stated fails for the empty network mode: it is not ["bridge"],
    and the assembled command has no [--network] pair. *)
Lemma C5_empty_network_counterexample :
  ¬ (∀ (h : Host.t) (r : DockerRunner.t) (dry_run : bool) (n i : string)
       (cmd : list string),
       ResourceConfig.network (DockerRunner.resource_config r) ≠ "bridge" →
       result (DockerRunner.assemble h dry_run r n i) = Return cmd →
       ∃ before after,
         cmd = before
               ++ ["--network"; ResourceConfig.network (DockerRunner.resource_config r)]
               ++ after).
Proof.
  intros Hclaim.
  destruct (Hclaim Scenario.host (Scenario.runner "" [Scenario.lidar]) false
              "dev" "ubuntu:latest" _ ltac:(done) eq_refl)
    as (before & after & Hcmd).
  match type of Hcmd with
  | ?cmd = _ => assert (Hin : "--network" ∈ cmd)
  end.
  { rewrite Hcmd. apply elem_of_app. right. by left. }
  vm_compute in Hin.
  repeat (apply elem_of_cons in Hin as [Hin|Hin]; [discriminate Hin|]).
  by apply elem_of_nil in Hin.
Qed.

(** C5, amended.  For every assembled launch command: after the base
    flags and the name pair, the assembler emits nothing when the
    network mode is ["bridge"] or empty, and exactly the pair
    [--network v] for any other value [v]; in what follows that place
    the token [--network] does not occur, unless the image name or a
    token of the enabled GPU options spells it. *)
Theorem C5_network_flag (h : Host.t) (r : DockerRunner.t) (dry_run : bool)
    (n i : string) (cmd : list string) :
  Py.truthy n = true → Py.truthy i = true →
  result (DockerRunner.assemble h dry_run r n i) = Return cmd →
  let network := ResourceConfig.network (DockerRunner.resource_config r) in
  ∃ rest,
    cmd = ["docker"; "run"; "-d"; "--name"; n]
          ++ (if bool_decide (network = "bridge" ∨ network = "") then []
              else ["--network"; network])
          ++ rest
    ∧ (i ≠ "--network" →
       (ResourceConfig.gpu_enabled (DockerRunner.resource_config r) = true →
        "--network" ∉ Py.split (ResourceConfig.gpu_options (DockerRunner.resource_config r))) →
       "--network" ∉ rest).
Proof.
  intros Hn Hi Hcmd network.
  apply (assemble_cases h r dry_run n i Hn Hi) in Hcmd.
  eexists. split; [exact Hcmd|].
  intros Himage Hgpu.
  rewrite !elem_of_app. intros [Hp|[Hg|[Hv|[Hd|[He|Hi']]]]].
  - unfold privileged_args in Hp. destruct (ResourceConfig.privileged _).
    + by apply list_elem_of_singleton in Hp.
    + by apply elem_of_nil in Hp.
  - unfold gpu_args in Hg. destruct (ResourceConfig.gpu_enabled _).
    + by apply Hgpu.
    + by apply elem_of_nil in Hg.
  - by apply volume_args_no_network in Hv.
  - by apply device_args_no_network in Hd.
  - by apply environment_args_no_network in He.
  - rewrite !elem_of_cons, elem_of_nil in Hi'.
    destruct Hi' as [?|[?|[?|[?|?]]]]; done.
Qed.

(** The scenario on the host network, and on the default one. *)
Lemma C5_network_flag_witness :
  result (DockerRunner.assemble Scenario.host false
            (Scenario.runner "host" [Scenario.lidar]) "dev" "ubuntu:latest")
  = Return (["docker"; "run"; "-d"; "--name"; "dev"] ++ ["--network"; "host"]
            ++ ["--gpus"; "all"; "-v"; "~/ws:/ws:rw";
                "--device"; "/dev/ttyUSB0:/dev/lidar:rw";
                "-e"; "ROS_DOMAIN_ID=0"; "-e"; "ROS_LOCALHOST_ONLY=0";
                "-e"; "DISPLAY=:0";
                "-e"; "PULSE_SERVER=unix:/run/user/1000/pulse/native";
                "ubuntu:latest"; "tail"; "-f"; "/dev/null"]).
Proof.
  destruct (C5_network_flag Scenario.host (Scenario.runner "host" [Scenario.lidar])
              false "dev" "ubuntu:latest" _ eq_refl eq_refl eq_refl)
    as (rest & Hcmd & _).
  by vm_compute.
Defined.

(** ** C3, continued: the device pairs of the printed command *)

(** Two neighbours [x; y] of a list that begins with a part without [x]
    are neighbours in the rest. *)
Lemma neighbours_skip (x y : string) (l1 l b a : list string) :
  x ∉ l1 → l1 ++ l = b ++ x :: y :: a → ∃ b', l = b' ++ x :: y :: a.
Proof.
  revert b. induction l1 as [|c l1 IH]; intros b Hx Heq; [by exists b|].
  apply not_elem_of_cons in Hx as [Hc Hx].
  destruct b as [|c' b]; simpl in Heq.
  - injection Heq as Heq _. by destruct Hc.
  - injection Heq as _ Heq. by apply (IH b).
Qed.

(** In a run of pairs [x; arg] followed by a part without [x], what
    follows an [x] is one of the [arg]s. *)
Lemma neighbours_of_pairs (x y : string) (args l3 b a : list string) :
  x ∉ args → x ∉ l3 →
  mjoin ((λ arg, [x; arg]) <$> args) ++ l3 = b ++ x :: y :: a → y ∈ args.
Proof.
  revert b. induction args as [|arg args IH]; intros b Hargs Hl3 Heq.
  - simpl in Heq. destruct Hl3. rewrite Heq. apply elem_of_app. right. by left.
  - apply not_elem_of_cons in Hargs as [Harg Hargs].
    rewrite fmap_cons in Heq.
    change (mjoin (?p :: ?ps)) with (p ++ mjoin ps) in Heq.
    destruct b as [|c1 [|c2 b]]; simpl in Heq.
    + injection Heq as <- _. by left.
    + injection Heq as _ Heq _. by destruct Harg.
    + injection Heq as _ _ Heq. right. by apply (IH b).
Qed.

Lemma pairs_have_neighbours (x y : string) (args : list string) :
  y ∈ args → ∃ b a, mjoin ((λ arg, [x; arg]) <$> args) = b ++ x :: y :: a.
Proof.
  intros (l1 & l2 & ->)%list_elem_of_split.
  exists (mjoin ((λ arg, [x; arg]) <$> l1)), (mjoin ((λ arg, [x; arg]) <$> l2)).
  by rewrite fmap_app, join_app, fmap_cons.
Qed.

Lemma colon_not_device (a b : string) : a +:+ ":" +:+ b ≠ "--device".
Proof.
  intros Heq. pose proof (has_colon_app a b) as Hc. rewrite Heq in Hc. done.
Qed.

Lemma volume_args_no_device (h : Host.t) (volumes : list VolumeConfig.t) :
  "--device" ∉ DockerRunner._build_volume_args h volumes.
Proof.
  induction volumes as [|v l IH]; simpl; [by intros ?%elem_of_nil|].
  destruct (VolumeConfig.enabled v); [|done].
  intros [?|[Heq|?]%elem_of_cons]%elem_of_cons; [done| |done].
  by apply eq_sym, colon_not_device in Heq.
Qed.

Lemma environment_args_no_device (h : Host.t) (e : EnvironmentConfig.t) :
  "--device" ∉ DockerRunner._build_environment_args h e.
Proof.
  unfold DockerRunner._build_environment_args. simpl.
  rewrite !elem_of_cons, elem_of_nil. intros H.
  repeat (destruct H as [H|H]; [discriminate H|]). done.
Qed.

(** The device arguments of the enabled devices that resolved, in the
    order of the configuration. *)
Definition resolved_device_args (h : Host.t) (r : DockerRunner.t) : list string :=
  omap (λ d, device_arg d <$> resolved_node h (DockerRunner.tty_devices r) d)
    (enabled_devices r).

Lemma device_args_pairs (h : Host.t) (r : DockerRunner.t) :
  device_args h r
  = mjoin ((λ arg, ["--device"; arg]) <$> resolved_device_args h r).
Proof.
  unfold device_args, resolved_device_args.
  induction (enabled_devices r) as [|d l IH]; [done|].
  rewrite fmap_cons. change (mjoin (?p :: ?ps)) with (p ++ mjoin ps).
  rewrite IH. unfold resolved_args. cbn [omap list_omap].
  by destruct (resolved_node h (DockerRunner.tty_devices r) d).
Qed.

Lemma elem_of_resolved_device_args (h : Host.t) (r : DockerRunner.t) (arg : string) :
  arg ∈ resolved_device_args h r
  ↔ ∃ d node, d ∈ enabled_devices r
      ∧ resolved_node h (DockerRunner.tty_devices r) d = Some node
      ∧ arg = device_arg d node.
Proof.
  unfold resolved_device_args. rewrite list_elem_of_omap. split.
  - intros (d & Hd & Harg).
    destruct (resolved_node h (DockerRunner.tty_devices r) d) as [node|] eqn:Hnode;
      [|done].
    injection Harg as <-. by exists d, node.
  - intros (d & node & Hd & Hnode & ->). exists d. by rewrite Hnode.
Qed.

Lemma resolved_device_args_no_device (h : Host.t) (r : DockerRunner.t) :
  "--device" ∉ resolved_device_args h r.
Proof.
  intros (d & node & _ & _ & Heq)%elem_of_resolved_device_args.
  unfold device_arg in Heq.
  destruct (DeviceConfig.is_usb_device d); by apply eq_sym, colon_not_device in Heq.
Qed.

(** A runner whose GPU options spell the device pair that the camera
    would have. *)
Definition runner_gpu_device : DockerRunner.t :=
  DockerRunner.mk
    (ContainerConfig.mk "dev" "ubuntu" "latest" "bash" "no")
    (ResourceConfig.mk "bridge" false true "--device /dev/video0:rw")
    (EnvironmentConfig.mk 0 0 ":0" true [":0"; ":1"; ":10"; ":11"; ":99"] None)
    [Scenario.workspace] [Scenario.lidar; Scenario.camera]
    (TTYDeviceFinder._scan_tty_devices Scenario.host).

(** C3 as stated fails when a token of the GPU options is [--device]:
    the options are passed through word by word, so the dry run of a
    configuration whose camera does not resolve prints the device pair of
    the camera all the same. *)
Lemma C3_gpu_options_counterexample :
  ¬ (∀ (h : Host.t) (r : DockerRunner.t) (n i : string) (cmd : list string),
       Py.truthy n = true → Py.truthy i = true →
       result (DockerRunner.assemble h true r n i) = Return cmd →
       ∀ arg,
         (∃ before after, cmd = before ++ "--device" :: arg :: after)
         ↔ (∃ d node,
              d ∈ enabled_devices r
              ∧ resolved_node h (DockerRunner.tty_devices r) d = Some node
              ∧ arg = device_arg d node)).
Proof.
  intros Hclaim.
  destruct (Hclaim Scenario.host runner_gpu_device "dev" "ubuntu:latest" _
              eq_refl eq_refl eq_refl "/dev/video0:rw") as [Hto _].
  destruct Hto as (d & node & Hd & Hnode & Harg).
  { exists ["docker"; "run"; "-d"; "--name"; "dev"].
    eexists. by vm_compute. }
  assert (Hcases : d = Scenario.lidar ∨ d = Scenario.camera).
  { unfold enabled_devices in Hd. apply list_elem_of_filter in Hd as [_ Hd].
    unfold runner_gpu_device in Hd. cbn [DockerRunner.devices] in Hd.
    rewrite !elem_of_cons, elem_of_nil in Hd. tauto. }
  destruct Hcases as [-> | ->]; vm_compute in Hnode; [|done].
  injection Hnode as <-. by vm_compute in Harg.
Qed.

(** C3, amended.  In dry-run mode, whichever enabled devices fail to
    resolve, the run does not abort: [run] returns success and [start]
    gives the exit status 0; the run consists of the queries, a line with
    the mark of failure and the name for each failed device, a line with
    the mark of success and the name for each resolved one, an empty line
    and the command.  The command that is assembled and printed holds,
    between the volume arguments and the environment arguments, a
    [--device] pair for each enabled device that resolved, in the order
    of the configuration, and nothing for the others.  When neither the
    container name, the network mode, the image name nor a token of the
    enabled GPU options is the token [--device], the [--device] pairs of
    the whole command are exactly those of the enabled devices that
    resolved. *)
Theorem C3_dry_run_fails_open (h : Host.t) (r : DockerRunner.t)
    (container_name image_name : option string) :
  let n := final_container_name r container_name in
  let i := final_image_name r image_name in
  Py.truthy n = true → Py.truthy i = true →
  let m := DockerRunner.run h r container_name image_name true in
  let tty_devices := DockerRunner.tty_devices r in
  let enabled := filter (λ d, DeviceConfig.enabled d = true) (DockerRunner.devices r) in
  let resolved := filter (λ d, is_Some (resolved_node h tty_devices d)) enabled in
  let unresolved := filter (λ d, resolved_node h tty_devices d = None) enabled in
  let before :=
    ["docker"; "run"; "-d"; "--name"; n] ++ network_args r ++ privileged_args r
    ++ gpu_args r ++ DockerRunner._build_volume_args h (DockerRunner.volumes r) in
  let after :=
    DockerRunner._build_environment_args h (DockerRunner.environment_config r)
    ++ [i; "tail"; "-f"; "/dev/null"] in
  ∃ docker_cmd,
    result (DockerRunner._build_docker_command h true r n i) = Return docker_cmd
    ∧ DockerCommand.devices docker_cmd
      = mjoin ((λ d, match resolved_node h tty_devices d with
                     | Some node => ["--device"; device_arg d node]
                     | None => []
                     end) <$> enabled)
    ∧ result (DockerRunner.assemble h true r n i)
      = Return (DockerCommand.build docker_cmd)
    ∧ DockerCommand.build docker_cmd
      = before ++ DockerCommand.devices docker_cmd ++ after
    ∧ (n ≠ "--device" → i ≠ "--device" →
       ResourceConfig.network (DockerRunner.resource_config r) ≠ "--device" →
       (ResourceConfig.gpu_enabled (DockerRunner.resource_config r) = true →
        "--device" ∉ Py.split (ResourceConfig.gpu_options (DockerRunner.resource_config r))) →
       ("--device" ∉ before) ∧ ("--device" ∉ after)
       ∧ ∀ arg,
           (∃ b a, DockerCommand.build docker_cmd = b ++ "--device" :: arg :: a)
           ↔ (∃ d node, d ∈ enabled ∧ resolved_node h tty_devices d = Some node
                        ∧ arg = device_arg d node))
    ∧ result m = Return true
    ∧ trace m
      = all_lookups h tty_devices (DockerRunner.devices r)
        ++ ((λ d, Print ("✗ " +:+ DeviceConfig.name d)) <$> unresolved)
        ++ ((λ d, Print ("✓ " +:+ DeviceConfig.name d)) <$> resolved)
        ++ [Print ""; Print (Py.join " " (DockerCommand.build docker_cmd))]
    ∧ (∀ name repository tag command exec_mode force,
         container_name = Some name →
         image_name = Some (repository +:+ ":" +:+ tag) →
         Py.truthy name = true → Py.truthy repository = true →
         Py.truthy tag = true →
         DockerStarter.start h r name repository tag command exec_mode true force = m
         ∧ DockerStarter.exit_status (result m) = 0%Z).
Proof.
  intros n i Hn Hi m tty_devices enabled resolved unresolved before after.
  exists (docker_command h r n i (device_args h r)).
  assert (Hbuild :
    DockerCommand.build (docker_command h r n i (device_args h r))
    = before ++ device_args h r ++ after).
  { rewrite (build_eq h r n i _ Hn Hi). subst before after.
    by rewrite <- !app_assoc. }
  subst m. rewrite (run_dry h r _ _ Hn Hi).
  rewrite build_docker_command_eq, assemble_eq, build_device_args_dry.
  split_and!; try done.
  - intros Hname Himage Hnetwork Hgpu.
    assert (Hbefore : "--device" ∉ before).
    { subst before. rewrite !elem_of_app.
      intros [Hb|[Hnet|[Hp|[Hg|Hv]]]].
      - rewrite !elem_of_cons, elem_of_nil in Hb.
        destruct Hb as [?|[?|[?|[?|[?|?]]]]]; done.
      - unfold network_args in Hnet. cbv zeta in Hnet.
        case_bool_decide; [by apply elem_of_nil in Hnet|].
        rewrite !elem_of_cons, elem_of_nil in Hnet.
        destruct Hnet as [?|[?|?]]; done.
      - unfold privileged_args in Hp. destruct (ResourceConfig.privileged _).
        + by apply list_elem_of_singleton in Hp.
        + by apply elem_of_nil in Hp.
      - unfold gpu_args in Hg. destruct (ResourceConfig.gpu_enabled _).
        + by apply Hgpu.
        + by apply elem_of_nil in Hg.
      - by apply volume_args_no_device in Hv. }
    assert (Hafter : "--device" ∉ after).
    { subst after. rewrite elem_of_app. intros [He|Hi'].
      - by apply environment_args_no_device in He.
      - rewrite !elem_of_cons, elem_of_nil in Hi'.
        destruct Hi' as [?|[?|[?|[?|?]]]]; done. }
    split_and!; [done|done|].
    intros arg. cbn [DockerCommand.devices docker_command] in *.
    rewrite Hbuild, device_args_pairs.
    transitivity (arg ∈ resolved_device_args h r);
      [|exact (elem_of_resolved_device_args h r arg)].
    split.
    + intros (b & a & Heq).
      apply neighbours_skip in Heq as (b' & Heq); [|done].
      apply neighbours_of_pairs in Heq;
        [done|apply resolved_device_args_no_device|done].
    + intros (b & a & Heq)%(pairs_have_neighbours "--device").
      exists (before ++ b), (a ++ after). rewrite Heq.
      by rewrite <- !app_assoc.
  - simpl trace. by rewrite <- !app_assoc.
  - intros name repo tag cmd mode force -> -> Hname Hrepo Htag. split; [|done].
    unfold DockerStarter.start. io_red.
    rewrite Hname, Hrepo, Htag. io_red.
    by rewrite (run_dry h r _ _ Hn Hi), build_device_args_dry.
Qed.

(** The lidar resolves and the camera does not: the dry run succeeds and
    prints a command with the lidar only. *)
Lemma C3_dry_run_fails_open_witness :
  DockerRunner.run Scenario.host
    (Scenario.runner "bridge" [Scenario.lidar; Scenario.camera]) None None true
  = ([Udevadm "/dev/ttyUSB0"; PathExists "/dev/video0"; Print "✗ camera";
      Print "✓ lidar"; Print "";
      Print ("docker run -d --name dev --gpus all -v ~/ws:/ws:rw "
             +:+ "--device /dev/ttyUSB0:/dev/lidar:rw "
             +:+ "-e ROS_DOMAIN_ID=0 -e ROS_LOCALHOST_ONLY=0 -e DISPLAY=:0 "
             +:+ "-e PULSE_SERVER=unix:/run/user/1000/pulse/native "
             +:+ "ubuntu:latest tail -f /dev/null")],
     Return true).
Proof.
  destruct (C3_dry_run_fails_open Scenario.host
              (Scenario.runner "bridge" [Scenario.lidar; Scenario.camera]) None None)
    as (docker_cmd & _ & _ & _ & _ & _ & Hresult & Htrace & _); [reflexivity..|].
  rewrite (io_eta (DockerRunner.run _ _ _ _ _)), Hresult. by vm_compute.
Defined.


(** ** C10: the ROS values of the configuration are not read *)

(** A document for the examples: it declares ROS values. *)
Definition ros_document : gmap string yaml :=
  {[ "environment" :=
       YMap {[ "ROS_DOMAIN_ID" := YInt 42; "ROS_LOCALHOST_ONLY" := YInt 1;
               "DISPLAY" := YStr ":1" ]} ]}.

(** The keys of the environment section that the loader reads. *)
Definition environment_keys : list string :=
  ["DISPLAY"; "auto_detect_display"; "fallback_displays"; "PULSE_SERVER"].

(** C10.  For every configuration document from which the environment
    model is built, the two ROS fields hold the defaults 0 and 0
    whatever the document declares: setting any key of the environment
    section other than the four that the loader reads, to any value,
    gives the same model.  The environment arguments therefore start
    with [-e ROS_DOMAIN_ID=0 -e ROS_LOCALHOST_ONLY=0], and every command
    assembled by a runner that is built from the document contains
    these four tokens in a row. *)
Theorem C10_ros_values_are_defaults (config : gmap string yaml)
    (e : EnvironmentConfig.t) :
  ConfigLoader.parse_environment config = Loaded e →
  (EnvironmentConfig.ros_domain_id e = 0%Z
   ∧ EnvironmentConfig.ros_localhost_only e = 0%Z)
  ∧ (∀ env key value,
       config !! "environment" = Some (YMap env) → key ∉ environment_keys →
       ConfigLoader.parse_environment
         (<["environment" := YMap (<[key := value]> env)]> config) = Loaded e)
  ∧ (∀ h, ∃ rest,
       DockerRunner._build_environment_args h e
       = ["-e"; "ROS_DOMAIN_ID=0"; "-e"; "ROS_LOCALHOST_ONLY=0"] ++ rest)
  ∧ (∀ h r dry_run n i cmd,
       DockerRunner.init h config = Loaded r →
       Py.truthy n = true → Py.truthy i = true →
       result (DockerRunner.assemble h dry_run r n i) = Return cmd →
       ∃ before after,
         cmd = before ++ ["-e"; "ROS_DOMAIN_ID=0"; "-e"; "ROS_LOCALHOST_ONLY=0"]
               ++ after).
Proof.
  intros Hparse.
  assert (Hros : EnvironmentConfig.ros_domain_id e = 0%Z
                 ∧ EnvironmentConfig.ros_localhost_only e = 0%Z).
  { unfold ConfigLoader.parse_environment in Hparse.
    destruct (ConfigLoader.section config "environment") as [env| |]; [|done..].
    simpl in Hparse.
    destruct (ConfigLoader.get_str env _ _); [|done..]. simpl in Hparse.
    destruct (ConfigLoader.get_bool env _ _); [|done..]. simpl in Hparse.
    destruct (ConfigLoader.get_str_list env _ _); [|done..]. simpl in Hparse.
    destruct (ConfigLoader.get_opt_str env _); [|done..]. simpl in Hparse.
    by injection Hparse as <-. }
  assert (Hargs : ∀ h, ∃ rest,
    DockerRunner._build_environment_args h e
    = ["-e"; "ROS_DOMAIN_ID=0"; "-e"; "ROS_LOCALHOST_ONLY=0"] ++ rest).
  { intros h. unfold DockerRunner._build_environment_args.
    destruct Hros as [-> ->]. by eexists. }
  split_and!; [by destruct Hros|by destruct Hros| |done|].
  - intros env key value Henv Hkey. rewrite <- Hparse.
    unfold ConfigLoader.parse_environment, ConfigLoader.section.
    rewrite lookup_insert_eq, Henv. cbn [mbind loaded_mbind].
    assert (Hget : ∀ k, k ∈ environment_keys → <[key := value]> env !! k = env !! k).
    { intros k Hk. apply lookup_insert_ne. by intros ->. }
    unfold ConfigLoader.get_str, ConfigLoader.get_bool, ConfigLoader.get_str_list,
      ConfigLoader.get_opt_str.
    rewrite (Hget "DISPLAY") by (by left).
    rewrite (Hget "auto_detect_display") by (by right; left).
    rewrite (Hget "fallback_displays") by (by right; right; left).
    rewrite (Hget "PULSE_SERVER") by (by right; right; right; left).
    done.
  - intros h r dry n i cmd Hinit Hn Hi Hcmd.
    apply (assemble_cases h r dry n i Hn Hi) in Hcmd.
    assert (He : DockerRunner.environment_config r = e).
    { unfold DockerRunner.init in Hinit. rewrite Hparse in Hinit.
      destruct (ConfigLoader.parse_container config); [|done..].
      destruct (ConfigLoader.parse_resources config); [|done..].
      simpl in Hinit.
      destruct (ConfigLoader.parse_volumes config); [|done..].
      destruct (ConfigLoader.parse_devices config); [|done..].
      simpl in Hinit. by injection Hinit as <-. }
    rewrite He in Hcmd. destruct (Hargs h) as [rest Hrest].
    rewrite Hrest in Hcmd.
    exists (["docker"; "run"; "-d"] ++ ["--name"; n] ++ network_args r
            ++ privileged_args r ++ gpu_args r
            ++ DockerRunner._build_volume_args h (DockerRunner.volumes r)
            ++ device_args h r),
      (rest ++ [i; "tail"; "-f"; "/dev/null"]).
    rewrite Hcmd. clear.
    generalize ["docker"; "run"; "-d"] ["--name"; n] (network_args r)
      (privileged_args r) (gpu_args r)
      (DockerRunner._build_volume_args h (DockerRunner.volumes r))
      (device_args h r) ["-e"; "ROS_DOMAIN_ID=0"; "-e"; "ROS_LOCALHOST_ONLY=0"]
      [i; "tail"; "-f"; "/dev/null"].
    intros l1 l2 l3 l4 l5 l6 l7 l8 l9. by rewrite <- !app_assoc.
Qed.

(** A document that declares [ROS_DOMAIN_ID: 42] and
    [ROS_LOCALHOST_ONLY: 1]. *)
Lemma C10_ros_values_are_defaults_witness :
  DockerRunner._build_environment_args Scenario.host
    (EnvironmentConfig.mk 0 0 ":1" true [":0"; ":1"; ":10"; ":11"; ":99"] None)
  = ["-e"; "ROS_DOMAIN_ID=0"; "-e"; "ROS_LOCALHOST_ONLY=0"; "-e"; "DISPLAY=:1";
     "-e"; "PULSE_SERVER=unix:/run/user/1000/pulse/native"].
Proof.
  destruct (C10_ros_values_are_defaults ros_document
              (EnvironmentConfig.mk 0 0 ":1" true [":0"; ":1"; ":10"; ":11"; ":99"] None))
    as (_ & _ & Hargs & _).
  - by vm_compute.
  - destruct (Hargs Scenario.host) as [rest Hrest]. by vm_compute.
Defined.

(** ** C8: the assembled command is a function of what was resolved *)

(** Two hosts show the same snapshot to a runner: the same identity for
    each node of the inventory, the same answer about the path of each
    enabled static device, the same expansion of the source of each
    enabled volume, the same display variable and the same user id. *)
Definition same_snapshot (h1 h2 : Host.t) (r : DockerRunner.t) : Prop :=
  (∀ node, node ∈ DockerRunner.tty_devices r →
     Host.udevadm_info h1 node = Host.udevadm_info h2 node)
  ∧ (∀ d path, d ∈ DockerRunner.devices r → DeviceConfig.enabled d = true →
       DeviceConfig.path d = Some path →
       Host.path_exists h1 path = Host.path_exists h2 path)
  ∧ (∀ v, v ∈ DockerRunner.volumes r → VolumeConfig.enabled v = true →
       Host.expanduser h1 (VolumeConfig.source v)
       = Host.expanduser h2 (VolumeConfig.source v))
  ∧ Host.environ h1 !! "DISPLAY" = Host.environ h2 !! "DISPLAY"
  ∧ Host.getuid h1 = Host.getuid h2.

Section determinism.
Context (h1 h2 : Host.t) (r : DockerRunner.t).
Hypothesis Hsame : same_snapshot h1 h2 r.

Lemma same_find_loop v p i s (l : list string) :
  (∀ node, node ∈ l → node ∈ DockerRunner.tty_devices r) →
  TTYDeviceFinder.find_loop h1 v p i s l = TTYDeviceFinder.find_loop h2 v p i s l.
Proof.
  destruct Hsame as (Hudev & _).
  induction l as [|node l IH]; intros Hl; [done|].
  cbn [TTYDeviceFinder.find_loop].
  rewrite !get_device_info_eq, !io_bind_return.
  assert (Hinfo : device_info h1 node = device_info h2 node).
  { unfold device_info. rewrite Hudev; [done|]. apply Hl. by left. }
  rewrite Hinfo, IH; [done|]. intros m Hm. apply Hl. by right.
Qed.

Lemma same_map_usb_device (d : DeviceConfig.t) :
  DeviceMapper.map_usb_device h1 (DockerRunner.tty_devices r) d
  = DeviceMapper.map_usb_device h2 (DockerRunner.tty_devices r) d.
Proof.
  unfold DeviceMapper.map_usb_device, TTYDeviceFinder.find_by_usb_id.
  destruct (negb _); [done|].
  destruct (DeviceConfig.usb_vendor d), (DeviceConfig.usb_product d); try done.
  by apply same_find_loop.
Qed.

Lemma same_resolved_node (d : DeviceConfig.t) :
  d ∈ DockerRunner.devices r → DeviceConfig.enabled d = true →
  resolved_node h1 (DockerRunner.tty_devices r) d
  = resolved_node h2 (DockerRunner.tty_devices r) d.
Proof.
  intros Hd Hen. unfold resolved_node. rewrite same_map_usb_device.
  destruct (DeviceConfig.is_usb_device d); [done|].
  destruct (DeviceConfig.path d) as [path|] eqn:Hpath; [|done].
  destruct Hsame as (_ & Hexists & _). by rewrite (Hexists d path).
Qed.

Lemma same_lookups (d : DeviceConfig.t) :
  lookups h1 (DockerRunner.tty_devices r) d
  = lookups h2 (DockerRunner.tty_devices r) d.
Proof. unfold lookups. by rewrite same_map_usb_device. Qed.

(** Mapping a function over the enabled devices of the runner. *)
Lemma same_on_enabled {A} (f g : DeviceConfig.t → A) :
  (∀ d, d ∈ DockerRunner.devices r → DeviceConfig.enabled d = true → f d = g d) →
  f <$> enabled_devices r = g <$> enabled_devices r.
Proof.
  intros Hfg. apply Forall_fmap_ext, Forall_forall.
  intros d [Hen Hd]%list_elem_of_filter. by apply Hfg.
Qed.

Lemma same_map_devices dry_run_mode :
  DeviceMapper.map_devices h1 dry_run_mode (DockerRunner.tty_devices r)
    (DockerRunner.devices r)
  = DeviceMapper.map_devices h2 dry_run_mode (DockerRunner.tty_devices r)
      (DockerRunner.devices r).
Proof.
  rewrite !map_devices_eq. unfold failures, entries, all_lookups.
  fold (enabled_devices r).
  rewrite (same_on_enabled (failure h1 _) (failure h2 (DockerRunner.tty_devices r))).
  2:{ intros d Hd Hen. unfold failure. by rewrite same_resolved_node. }
  rewrite (same_on_enabled (entry h1 _) (entry h2 (DockerRunner.tty_devices r))).
  2:{ intros d Hd Hen. unfold entry. by rewrite same_resolved_node. }
  rewrite (same_on_enabled (lookups h1 _) (lookups h2 (DockerRunner.tty_devices r))).
  2:{ intros d _ _. apply same_lookups. }
  done.
Qed.

Lemma same_build_device_args dry_run_mode :
  DockerRunner._build_device_args h1 dry_run_mode r
  = DockerRunner._build_device_args h2 dry_run_mode r.
Proof.
  rewrite !build_device_args_eq, same_map_devices. unfold device_args.
  rewrite (same_on_enabled (resolved_line h1 _ dry_run_mode)
             (resolved_line h2 (DockerRunner.tty_devices r) dry_run_mode)).
  2:{ intros d Hd Hen. unfold resolved_line. by rewrite same_resolved_node. }
  rewrite (same_on_enabled (resolved_args h1 _)
             (resolved_args h2 (DockerRunner.tty_devices r))).
  2:{ intros d Hd Hen. unfold resolved_args. by rewrite same_resolved_node. }
  done.
Qed.

Lemma same_volume_args (l : list VolumeConfig.t) :
  (∀ v, v ∈ l → v ∈ DockerRunner.volumes r) →
  DockerRunner._build_volume_args h1 l = DockerRunner._build_volume_args h2 l.
Proof.
  destruct Hsame as (_ & _ & Hexpand & _).
  induction l as [|v l IH]; intros Hl; [done|]. simpl.
  rewrite IH by (intros w Hw; apply Hl; by right).
  destruct (VolumeConfig.enabled v) eqn:Hen; [|done].
  unfold DockerRunner.expanded_source. rewrite Hexpand; [done| |done].
  apply Hl. by left.
Qed.

Lemma same_environment_args (e : EnvironmentConfig.t) :
  DockerRunner._build_environment_args h1 e
  = DockerRunner._build_environment_args h2 e.
Proof.
  destruct Hsame as (_ & _ & _ & Hdisplay & Huid).
  unfold DockerRunner._build_environment_args, EnvironmentConfig.get_display,
    EnvironmentConfig.get_pulse_server.
  by rewrite Hdisplay, Huid.
Qed.

Lemma same_assemble dry_run_mode (n i : string) :
  DockerRunner.assemble h1 dry_run_mode r n i
  = DockerRunner.assemble h2 dry_run_mode r n i.
Proof.
  rewrite !assemble_eq, same_build_device_args. unfold docker_command.
  by rewrite same_volume_args, same_environment_args.
Qed.

End determinism.

(** C8.  Command assembly is deterministic: the assembler, run on two
    hosts that show the same snapshot to the runner, in particular run
    twice on one host, makes the same queries and produces the same
    argument sequence; and a produced sequence has the fixed order base
    run flags, name, network flag, privileged flag, GPU option tokens,
    volume flags, device flags, environment flags, image reference,
    keep-alive entry command. *)
Theorem C8_assembly_deterministic (h1 h2 : Host.t) (r : DockerRunner.t)
    (dry_run : bool) (n i : string) :
  same_snapshot h1 h2 r →
  Py.truthy n = true → Py.truthy i = true →
  DockerRunner.assemble h1 dry_run r n i = DockerRunner.assemble h2 dry_run r n i
  ∧ (∀ cmd, result (DockerRunner.assemble h1 dry_run r n i) = Return cmd →
       cmd = ["docker"; "run"; "-d"]
             ++ ["--name"; n]
             ++ network_args r
             ++ privileged_args r
             ++ gpu_args r
             ++ DockerRunner._build_volume_args h1 (DockerRunner.volumes r)
             ++ device_args h1 r
             ++ DockerRunner._build_environment_args h1
                  (DockerRunner.environment_config r)
             ++ [i; "tail"; "-f"; "/dev/null"]).
Proof.
  intros Hsame Hn Hi. split; [by apply same_assemble|].
  intros cmd. by apply assemble_cases.
Qed.

(** The scenario's host and a host with the same devices, the same
    display and the same user, which differs in everything that the
    assembler does not read. *)
Lemma C8_assembly_deterministic_witness :
  let other := Host.mk Scenario.glob Scenario.udevadm_info Scenario.path_exists
                 (λ path, path) ∅ 1000 false (λ _, false) (λ _, false) (λ _, false)
                 (λ _, LaunchCalledProcessError) (λ _, EnterKeyboardInterrupt) in
  let r := Scenario.runner "host" [Scenario.lidar; Scenario.joystick_ro] in
  DockerRunner.assemble Scenario.host false r "dev" "ubuntu:latest"
  = DockerRunner.assemble other false r "dev" "ubuntu:latest".
Proof.
  intros other r.
  apply (C8_assembly_deterministic Scenario.host other r false "dev" "ubuntu:latest");
    [|reflexivity..].
  by repeat split.
Defined.

(** ** The whole process on a document *)

(** The document of the scenario: a container, the lidar and a camera
    that the host does not have. *)
Definition scenario_document : yaml :=
  YMap {[ "container" :=
            YMap {[ "name" := YStr "dev";
                    "image" := YMap {[ "repository" := YStr "ubuntu";
                                       "tag" := YStr "latest" ]} ]};
          "devices" :=
            YSeq [ YMap {[ "name" := YStr "lidar"; "usb_vendor" := YStr "10c4";
                           "usb_product" := YStr "ea60" ]};
                   YMap {[ "name" := YStr "camera"; "path" := YStr "/dev/video0" ]} ] ]}.

(** A dry run of the scenario ends with status 0 and prints the command
    with the lidar; a normal run ends with status 1 before anything is
    launched. *)
Example main_scenario :
  DockerStarter.main Scenario.host scenario_document true false
  = Some ([Udevadm "/dev/ttyUSB0"; PathExists "/dev/video0"; Print "✗ camera";
           Print "✓ lidar"; Print "";
           Print ("docker run -d --name dev "
                  +:+ "--device /dev/ttyUSB0:/dev/lidar:rw "
                  +:+ "-e ROS_DOMAIN_ID=0 -e ROS_LOCALHOST_ONLY=0 -e DISPLAY=:0 "
                  +:+ "-e PULSE_SERVER=unix:/run/user/1000/pulse/native "
                  +:+ "ubuntu:latest tail -f /dev/null")], 0%Z)
  ∧ DockerStarter.main Scenario.host scenario_document false false
    = Some ([CheckDocker; CheckImage "ubuntu:latest"; StopAndRemove "dev"; Xhost;
             Udevadm "/dev/ttyUSB0"; PathExists "/dev/video0";
             LogError "未找到所有必需的设备，无法启动容器";
             LogError "  缺失设备: camera - 设备路径不存在: /dev/video0";
             Print (String "010" "按任意键退出..."); Input], 1%Z).
Proof. split; by vm_compute. Qed.

(* ================================================================== *)
(** * Further properties of the script *)
(* ================================================================== *)

(** ** The matcher asks about no node after the one it returns *)

Lemma queried_first (f : string → bool) (before after : list string) (x : string) :
  f x = true → (∀ y, y ∈ before → f y = false) →
  queried f (before ++ x :: after) = before ++ [x].
Proof.
  intros Hx. induction before as [|a before IH]; intros Hb; simpl.
  - by rewrite Hx.
  - rewrite (Hb a) by by left. f_equal. apply IH. intros y Hy. apply Hb. by right.
Qed.

Lemma queried_none (f : string → bool) (l : list string) :
  (∀ y, y ∈ l → f y = false) → queried f l = l.
Proof.
  induction l as [|a l IH]; intros Hl; [done|]. simpl.
  rewrite (Hl a) by by left. f_equal. apply IH. intros y Hy. apply Hl. by right.
Qed.

Lemma accepts_not_satisfies h v p i s node :
  accepts h v p i s node = false ↔ ¬ satisfies h v p i s node.
Proof. rewrite <- accepts_satisfies. by destruct (accepts _ _ _ _ _ _). Qed.

(** X1.  The identity lookups of a match request are made in the order
    of the inventory and stop at the node that is returned: when a node
    passes the filters and no earlier one does, exactly the nodes up to
    and including it are asked about; when no node passes, every node of
    the inventory is asked about once. *)
Theorem matcher_lookups_stop_at_match (h : Host.t) (tty_devices : list string)
    (vendor_id product_id : string) (usb_interface usb_serial : option string) :
  let request :=
    TTYDeviceFinder.find_by_usb_id h tty_devices vendor_id product_id
      usb_interface usb_serial in
  (∀ before node after,
     tty_devices = before ++ node :: after →
     satisfies h vendor_id product_id usb_interface usb_serial node →
     (∀ m, m ∈ before →
           ¬ satisfies h vendor_id product_id usb_interface usb_serial m) →
     request = (Udevadm <$> (before ++ [node]), Return (Some node)))
  ∧ ((∀ m, m ∈ tty_devices →
           ¬ satisfies h vendor_id product_id usb_interface usb_serial m) →
     request = (Udevadm <$> tty_devices, Return None)).
Proof.
  intros request. subst request. unfold TTYDeviceFinder.find_by_usb_id.
  rewrite find_loop_eq. split.
  - intros before node after -> Hnode Hbefore.
    rewrite queried_first, find_app_first; [done| | | |].
    + by apply accepts_satisfies.
    + intros m Hm. by apply accepts_not_satisfies, Hbefore.
    + by apply accepts_satisfies.
    + intros m Hm. by apply accepts_not_satisfies, Hbefore.
  - intros Hnone.
    assert (Hfalse : ∀ m, m ∈ tty_devices →
              accepts h vendor_id product_id usb_interface usb_serial m = false).
    { intros m Hm. by apply accepts_not_satisfies, Hnone. }
    rewrite queried_none by done. f_equal. f_equal.
    destruct (List.find _ tty_devices) as [node|] eqn:Hfind; [|done].
    apply find_first in Hfind as (before & after & -> & Hacc & _).
    rewrite Hfalse in Hacc; [done|]. apply elem_of_app. right. by left.
Qed.

(** On the two-port adapter the request for interface 00 asks about
    [/dev/ttyUSB0] only. *)
Lemma matcher_lookups_stop_at_match_witness :
  TTYDeviceFinder.find_by_usb_id Scenario.host_two_ports
    ["/dev/ttyUSB0"; "/dev/ttyUSB1"] "0403" "6010" (Some "00") None
  = ([Udevadm "/dev/ttyUSB0"], Return (Some "/dev/ttyUSB0")).
Proof.
  pose proof (matcher_lookups_stop_at_match Scenario.host_two_ports
                ["/dev/ttyUSB0"; "/dev/ttyUSB1"] "0403" "6010" (Some "00") None)
    as [Hfound _].
  apply (Hfound [] "/dev/ttyUSB0" ["/dev/ttyUSB1"]).
  - reflexivity.
  - apply accepts_satisfies. by vm_compute.
  - by intros m ?%elem_of_nil.
Defined.

(** ** The engine, one device spec at a time *)

Lemma queried_subset (f : string → bool) (l : list string) :
  ∀ n, n ∈ queried f l → n ∈ l.
Proof.
  induction l as [|a l IH]; intros n; [done|]. simpl.
  intros [->|Hn]%elem_of_cons; [by left|]. right.
  destruct (f a); [by apply elem_of_nil in Hn|by apply IH].
Qed.

Lemma find_elem_of {A} (f : A → bool) (l : list A) (x : A) :
  List.find f l = Some x → x ∈ l ∧ f x = true.
Proof.
  intros (before & after & -> & Hx & _)%find_first. split; [|done].
  apply elem_of_app. right. by left.
Qed.

(** X2.  An enabled USB-kind device spec is resolved through identity
    lookups of inventory nodes alone: the declared static path, if any,
    is neither checked nor used.  Either the spec is mapped to a node of
    the inventory whose identity passes the filters of the spec, with the
    argument [node:container path:rw], or it is recorded as failed with
    the reason naming the requested vendor and product ids. *)
Theorem usb_device_resolves_within_inventory (h : Host.t)
    (tty_devices : list string) (acc : DeviceMapper.lists) (d : DeviceConfig.t) :
  DeviceConfig.enabled d = true →
  DeviceConfig.is_usb_device d = true →
  ∃ vendor product nodes,
    DeviceConfig.usb_vendor d = Some vendor
    ∧ DeviceConfig.usb_product d = Some product
    ∧ (∀ n, n ∈ nodes → n ∈ tty_devices)
    ∧ ((∃ node,
          node ∈ tty_devices
          ∧ satisfies h vendor product (DeviceConfig.usb_interface d)
              (DeviceConfig.usb_serial d) node
          ∧ DeviceMapper.map_device h tty_devices acc d
            = (Udevadm <$> nodes,
               Return (DeviceMapper.mk_lists (DeviceMapper.failed_devices acc)
                         (DeviceMapper.mapped_devices acc
                          ++ [(d, Some node,
                               node +:+ ":" +:+ DeviceConfig.effective_container_path d
                                    +:+ ":rw")]))))
       ∨ DeviceMapper.map_device h tty_devices acc d
         = (Udevadm <$> nodes,
            Return (DeviceMapper.mk_lists
                      (DeviceMapper.failed_devices acc
                       ++ [(DeviceConfig.name d,
                            "未找到USB设备 " +:+ vendor +:+ ":" +:+ product)])
                      (DeviceMapper.mapped_devices acc
                       ++ [(d, None,
                            "未找到USB设备 " +:+ vendor +:+ ":" +:+ product)])))).
Proof.
  intros Hen Husb.
  destruct (DeviceConfig.usb_vendor d) as [vendor|] eqn:Hv;
    [|by unfold DeviceConfig.is_usb_device in Husb; rewrite Hv in Husb].
  destruct (DeviceConfig.usb_product d) as [product|] eqn:Hp;
    [|by unfold DeviceConfig.is_usb_device in Husb; rewrite Hv, Hp in Husb].
  set (f := accepts h vendor product (DeviceConfig.usb_interface d)
              (DeviceConfig.usb_serial d)).
  exists vendor, product, (queried f tty_devices).
  split_and!; [done|done|apply queried_subset|].
  assert (Hmap : DeviceMapper.map_usb_device h tty_devices d
                 = (Udevadm <$> queried f tty_devices,
                    Return (List.find f tty_devices))).
  { unfold DeviceMapper.map_usb_device, TTYDeviceFinder.find_by_usb_id.
    rewrite Husb, Hv, Hp. simpl negb. cbv iota. apply find_loop_eq. }
  rewrite map_device_eq, Hen.
  unfold lookups, failure, entry, resolved_node, device_arg, error_msg.
  rewrite Husb, Hmap, Hv, Hp. simpl result. simpl trace.
  destruct (List.find f tty_devices) as [node|] eqn:Hfind; [|by right].
  destruct (Py.truthy node); [|by right].
  left. exists node. apply find_elem_of in Hfind as [Hin Hacc].
  split_and!; [done|by apply accepts_satisfies|]. by rewrite app_nil_r.
Qed.

(** The lidar of the scenario, declared with a static path as well. *)
Lemma usb_device_resolves_within_inventory_witness :
  DeviceMapper.map_device Scenario.host ["/dev/ttyUSB0"; "/dev/ttyUSB1"]
    (DeviceMapper.mk_lists [] [])
    (DeviceConfig.mk "lidar" (Some "/dev/video0") true "rw" (Some "10c4")
       (Some "ea60") None None None)
  = ([Udevadm "/dev/ttyUSB0"],
     Return (DeviceMapper.mk_lists []
               [(DeviceConfig.mk "lidar" (Some "/dev/video0") true "rw" (Some "10c4")
                   (Some "ea60") None None None,
                 Some "/dev/ttyUSB0", "/dev/ttyUSB0:/dev/lidar:rw")])).
Proof.
  destruct (usb_device_resolves_within_inventory Scenario.host
              ["/dev/ttyUSB0"; "/dev/ttyUSB1"] (DeviceMapper.mk_lists [] [])
              (DeviceConfig.mk "lidar" (Some "/dev/video0") true "rw" (Some "10c4")
                 (Some "ea60") None None None) eq_refl eq_refl)
    as (vendor & product & nodes & _ & _ & _ & _).
  by vm_compute.
Defined.

(** X3.  An enabled device spec without a usable kind never resolves,
    on any host: when one of the two USB ids is missing and the path is
    missing or empty, the engine makes no query for it, records it as
    failed with the reason of a missing path, and in normal mode every
    device list that contains it ends the run with exit status 1. *)
Theorem pathless_device_never_resolves (h : Host.t) (tty_devices : list string)
    (devices : list DeviceConfig.t) (d : DeviceConfig.t) :
  d ∈ devices →
  DeviceConfig.enabled d = true →
  DeviceConfig.usb_vendor d = None ∨ DeviceConfig.usb_product d = None →
  DeviceConfig.path d = None ∨ DeviceConfig.path d = Some "" →
  let reason := "设备路径不存在: " +:+ fmt_opt (DeviceConfig.path d) in
  (∀ acc,
     DeviceMapper.map_device h tty_devices acc d
     = ([], Return (DeviceMapper.mk_lists
                      (DeviceMapper.failed_devices acc ++ [(DeviceConfig.name d, reason)])
                      (DeviceMapper.mapped_devices acc ++ [(d, None, reason)]))))
  ∧ result (DeviceMapper.map_devices h false tty_devices devices) = SysExit 1
  ∧ LogError ("  缺失设备: " +:+ DeviceConfig.name d +:+ " - " +:+ reason)
    ∈ trace (DeviceMapper.map_devices h false tty_devices devices).
Proof.
  intros Hin Hen Hids Hpath reason.
  assert (Husb : DeviceConfig.is_usb_device d = false).
  { unfold DeviceConfig.is_usb_device.
    destruct Hids as [-> | ->]; [done|]. apply andb_false_r. }
  assert (Hnode : resolved_node h tty_devices d = None).
  { unfold resolved_node. rewrite Husb. by destruct Hpath as [-> | ->]. }
  assert (Hmsg : error_msg d = reason).
  { unfold error_msg. by rewrite Husb. }
  split_and!.
  - intros acc. rewrite map_device_eq, Hen. unfold lookups, failure, entry.
    rewrite Hnode, Hmsg, Husb. by destruct Hpath as [-> | ->].
  - pose proof (failure_elem_of h tty_devices devices d Hin Hen Hnode) as Hf.
    rewrite map_devices_eq.
    destruct (failures h tty_devices devices); [by apply elem_of_nil in Hf|done].
  - pose proof (failure_elem_of h tty_devices devices d Hin Hen Hnode) as Hf.
    rewrite map_devices_eq.
    destruct (failures h tty_devices devices) as [|f fs] eqn:Hfs;
      [by apply elem_of_nil in Hf|].
    unfold trace. cbn [fst]. apply elem_of_app. right. apply elem_of_cons. right.
    apply elem_of_app. left. rewrite <- Hfs.
    apply list_elem_of_fmap. exists (DeviceConfig.name d, error_msg d).
    split; [by rewrite Hmsg|by rewrite Hfs].
Qed.

(** A spec that gives a vendor id but no product id and no path. *)
Lemma pathless_device_never_resolves_witness :
  let d := DeviceConfig.mk "imu" None true "rw" (Some "0483") None None None None in
  result (DeviceMapper.map_devices Scenario.host false ["/dev/ttyUSB0"]
            [Scenario.lidar; d]) = SysExit 1
  ∧ LogError "  缺失设备: imu - 设备路径不存在: None"
    ∈ trace (DeviceMapper.map_devices Scenario.host false ["/dev/ttyUSB0"]
               [Scenario.lidar; d]).
Proof.
  intros d.
  destruct (pathless_device_never_resolves Scenario.host ["/dev/ttyUSB0"]
              [Scenario.lidar; d] d) as (_ & Hexit & Hlog).
  - by right; left.
  - reflexivity.
  - by right.
  - by left.
  - by split.
Defined.

(** ** The engine on a whole device list *)

Lemma resolved_node_sound (h : Host.t) (tty_devices : list string)
    (d : DeviceConfig.t) (node : string) :
  resolved_node h tty_devices d = Some node →
  Py.truthy node = true
  ∧ (DeviceConfig.is_usb_device d = true → node ∈ tty_devices)
  ∧ (DeviceConfig.is_usb_device d = false →
     DeviceConfig.path d = Some node ∧ Host.path_exists h node = true).
Proof.
  intros Hnode. split; [by eapply resolved_node_truthy|].
  unfold resolved_node in Hnode.
  destruct (DeviceConfig.is_usb_device d) eqn:Husb; split; try done; intros _.
  - unfold DeviceMapper.map_usb_device, TTYDeviceFinder.find_by_usb_id in Hnode.
    rewrite Husb in Hnode. simpl negb in Hnode. cbv iota in Hnode.
    destruct (DeviceConfig.usb_vendor d), (DeviceConfig.usb_product d); try done.
    rewrite find_loop_eq in Hnode. simpl result in Hnode.
    destruct (List.find _ tty_devices) as [n|] eqn:Hfind; [|done].
    destruct (Py.truthy n); [|done]. injection Hnode as <-.
    by apply find_elem_of in Hfind as [? _].
  - destruct (DeviceConfig.path d) as [p|]; [|done].
    destruct (Py.truthy p); [|done]. simpl in Hnode.
    destruct (Host.path_exists h p) eqn:Hp; [|done]. by injection Hnode as <-.
Qed.

Lemma no_failures_all_resolved (h : Host.t) (tty_devices : list string)
    (devices : list DeviceConfig.t) :
  failures h tty_devices devices = [] →
  ∀ d, d ∈ devices → DeviceConfig.enabled d = true →
       is_Some (resolved_node h tty_devices d).
Proof.
  intros Hf d Hd Hen.
  destruct (resolved_node h tty_devices d) eqn:Hnode; [by eexists|].
  pose proof (failure_elem_of h tty_devices devices d Hd Hen Hnode) as Hin.
  rewrite Hf in Hin. by apply elem_of_nil in Hin.
Qed.

(** What [map_devices] returns when it returns. *)
Lemma map_devices_returns (h : Host.t) (dry_run_mode : bool)
    (tty_devices : list string) (devices : list DeviceConfig.t)
    (items : list DeviceMapper.item) :
  result (DeviceMapper.map_devices h dry_run_mode tty_devices devices) = Return items →
  items = entries h tty_devices devices
  ∧ (dry_run_mode = false → failures h tty_devices devices = []).
Proof.
  rewrite map_devices_eq.
  destruct (failures h tty_devices devices); [by intros [= <-]|].
  destruct dry_run_mode; [by intros [= <-]|done].
Qed.

(** X4.  When the engine returns, it returns one item for each enabled
    device spec, in the order of the declarations; an item with a node
    carries a non-empty node, which belongs to the inventory for a
    USB-kind spec and is the declared, existing path for a static one;
    and in normal mode every returned item has a node. *)
Theorem mapped_items_follow_declarations (h : Host.t) (dry_run_mode : bool)
    (tty_devices : list string) (devices : list DeviceConfig.t)
    (items : list DeviceMapper.item) :
  result (DeviceMapper.map_devices h dry_run_mode tty_devices devices) = Return items →
  (λ it : DeviceMapper.item, it.1.1) <$> items
  = filter (λ d, DeviceConfig.enabled d = true) devices
  ∧ Forall (λ it : DeviceMapper.item,
      ∀ node, it.1.2 = Some node →
        Py.truthy node = true
        ∧ (DeviceConfig.is_usb_device it.1.1 = true → node ∈ tty_devices)
        ∧ (DeviceConfig.is_usb_device it.1.1 = false →
           DeviceConfig.path it.1.1 = Some node ∧ Host.path_exists h node = true))
      items
  ∧ (dry_run_mode = false → Forall (λ it : DeviceMapper.item, is_Some it.1.2) items).
Proof.
  intros [-> Hnormal]%map_devices_returns. unfold entries. split_and!.
  - rewrite <- list_fmap_compose. rewrite <- (list_fmap_id (filter _ devices)) at 2.
    apply list_fmap_ext. intros _ d _. unfold entry. simpl.
    by destruct (resolved_node h tty_devices d).
  - apply Forall_fmap, Forall_forall. intros d _ node. unfold entry.
    destruct (resolved_node h tty_devices d) as [n|] eqn:Hd; simpl; [|done].
    intros [= <-]. by apply resolved_node_sound.
  - intros Hdry. specialize (Hnormal Hdry).
    apply Forall_fmap, Forall_forall. intros d [Hen Hd]%list_elem_of_filter.
    destruct (no_failures_all_resolved h tty_devices devices Hnormal d Hd Hen)
      as [n Hn].
    unfold compose, entry. rewrite Hn. by eexists.
Qed.

(** The lidar, the disabled camera and the joystick of the scenario. *)
Lemma mapped_items_follow_declarations_witness :
  (λ it : DeviceMapper.item, it.1.1)
    <$> [(Scenario.lidar, Some "/dev/ttyUSB0", "/dev/ttyUSB0:/dev/lidar:rw");
         (Scenario.joystick_ro, Some "/dev/input/js0", "/dev/input/js0:ro")]
  = filter (λ d, DeviceConfig.enabled d = true)
      [Scenario.lidar; Scenario.camera_off; Scenario.joystick_ro].
Proof.
  apply (mapped_items_follow_declarations Scenario.host false
           ["/dev/ttyUSB0"; "/dev/ttyUSB1"]
           [Scenario.lidar; Scenario.camera_off; Scenario.joystick_ro]).
  by vm_compute.
Defined.

(** X5.  The two modes differ on failures only: when the engine returns
    in normal mode, the dry run of the same device list is the same
    computation, and it consists of identity lookups and existence
    checks alone, with nothing printed or logged. *)
Theorem modes_agree_when_all_resolve (h : Host.t) (tty_devices : list string)
    (devices : list DeviceConfig.t) (items : list DeviceMapper.item) :
  result (DeviceMapper.map_devices h false tty_devices devices) = Return items →
  DeviceMapper.map_devices h true tty_devices devices
  = DeviceMapper.map_devices h false tty_devices devices
  ∧ Forall is_query (trace (DeviceMapper.map_devices h false tty_devices devices)).
Proof.
  intros [_ Hf]%map_devices_returns. specialize (Hf eq_refl).
  rewrite !map_devices_eq, Hf. split; [done|]. apply all_lookups_queries.
Qed.

Lemma modes_agree_when_all_resolve_witness :
  DeviceMapper.map_devices Scenario.host true ["/dev/ttyUSB0"; "/dev/ttyUSB1"]
    [Scenario.lidar; Scenario.joystick_ro]
  = DeviceMapper.map_devices Scenario.host false ["/dev/ttyUSB0"; "/dev/ttyUSB1"]
      [Scenario.lidar; Scenario.joystick_ro].
Proof.
  eapply (modes_agree_when_all_resolve Scenario.host
            ["/dev/ttyUSB0"; "/dev/ttyUSB1"] [Scenario.lidar; Scenario.joystick_ro]).
  by vm_compute.
Defined.

(** X6.  Device specs are resolved independently of each other: in
    dry-run mode the engine always returns, and the items of a
    concatenated device list are the items of its two parts; in normal
    mode, when the engine returns on the concatenation, it returns on
    both parts, and both the items and the queries made are those of the
    first part followed by those of the second. *)
Theorem device_mapping_composes (h : Host.t) (tty_devices : list string)
    (devices1 devices2 : list DeviceConfig.t) :
  (∃ items1 items2,
     result (DeviceMapper.map_devices h true tty_devices devices1) = Return items1
     ∧ result (DeviceMapper.map_devices h true tty_devices devices2) = Return items2
     ∧ result (DeviceMapper.map_devices h true tty_devices (devices1 ++ devices2))
       = Return (items1 ++ items2))
  ∧ (∀ items,
       result (DeviceMapper.map_devices h false tty_devices (devices1 ++ devices2))
       = Return items →
       ∃ items1 items2,
         result (DeviceMapper.map_devices h false tty_devices devices1) = Return items1
         ∧ result (DeviceMapper.map_devices h false tty_devices devices2) = Return items2
         ∧ items = items1 ++ items2
         ∧ trace (DeviceMapper.map_devices h false tty_devices (devices1 ++ devices2))
           = trace (DeviceMapper.map_devices h false tty_devices devices1)
             ++ trace (DeviceMapper.map_devices h false tty_devices devices2)).
Proof.
  assert (Hentries : entries h tty_devices (devices1 ++ devices2)
                     = entries h tty_devices devices1 ++ entries h tty_devices devices2).
  { unfold entries. by rewrite filter_app, fmap_app. }
  assert (Hfailures : failures h tty_devices (devices1 ++ devices2)
                      = failures h tty_devices devices1
                        ++ failures h tty_devices devices2).
  { unfold failures. by rewrite filter_app, fmap_app, join_app. }
  assert (Hlookups : all_lookups h tty_devices (devices1 ++ devices2)
                     = all_lookups h tty_devices devices1
                       ++ all_lookups h tty_devices devices2).
  { unfold all_lookups. by rewrite filter_app, fmap_app, join_app. }
  split.
  - exists (entries h tty_devices devices1), (entries h tty_devices devices2).
    rewrite !map_devices_eq, Hentries.
    split_and!; by repeat (destruct (failures _ _ _)).
  - intros items [-> Hf]%map_devices_returns. specialize (Hf eq_refl).
    rewrite Hfailures in Hf. apply app_eq_nil in Hf as [Hf1 Hf2].
    exists (entries h tty_devices devices1), (entries h tty_devices devices2).
    rewrite !map_devices_eq, Hfailures, Hf1, Hf2, Hlookups. by split_and!.
Qed.

(** ** [run] and [start]: what reaches the host *)

(** An event that only reads the host or writes to the terminal. *)
Definition reads_only (e : event) : Prop :=
  match e with
  | Udevadm _ | PathExists _ | Print _ | LogError _ => True
  | _ => False
  end.

Lemma query_reads_only (t : list event) : Forall is_query t → Forall reads_only t.
Proof. intros Ht. eapply Forall_impl; [exact Ht|]. by intros []. Qed.

Lemma build_device_args_dry_reads_only (h : Host.t) (r : DockerRunner.t) :
  Forall reads_only (trace (DockerRunner._build_device_args h true r)).
Proof.
  rewrite build_device_args_dry. simpl trace. rewrite !Forall_app. split_and!.
  - apply query_reads_only, all_lookups_queries.
  - by apply Forall_fmap, Forall_forall.
  - by apply Forall_fmap, Forall_forall.
Qed.

Lemma run_dry_reads_only (h : Host.t) (r : DockerRunner.t)
    (container_name image_name : option string) :
  Forall reads_only (trace (DockerRunner.run h r container_name image_name true)).
Proof.
  destruct (Py.truthy (final_container_name r container_name)) eqn:Hn,
    (Py.truthy (final_image_name r image_name)) eqn:Hi.
  - rewrite (run_dry h r _ _ Hn Hi). simpl trace. rewrite Forall_app. split.
    + apply build_device_args_dry_reads_only.
    + by repeat constructor.
  - unfold DockerRunner.run.
    fold (final_container_name r container_name) (final_image_name r image_name).
    rewrite Hn, Hi. by repeat constructor.
  - unfold DockerRunner.run.
    fold (final_container_name r container_name) (final_image_name r image_name).
    rewrite Hn. by repeat constructor.
  - unfold DockerRunner.run.
    fold (final_container_name r container_name) (final_image_name r image_name).
    rewrite Hn. by repeat constructor.
Qed.

(** X7.  A dry run changes nothing on the host: the trace of [run] and
    of [start] in dry-run mode holds identity lookups, existence checks,
    printed lines and error log lines only; no container is stopped or
    removed, no X11 access is granted, no image is checked or pulled,
    nothing is launched and no container is entered. *)
Theorem dry_run_only_reads (h : Host.t) (r : DockerRunner.t) :
  (∀ container_name image_name,
     Forall reads_only (trace (DockerRunner.run h r container_name image_name true)))
  ∧ (∀ container_name image_repository image_tag command exec_mode force,
       Forall reads_only
         (trace (DockerStarter.start h r container_name image_repository image_tag
                   command exec_mode true force))).
Proof.
  split; [apply run_dry_reads_only|].
  intros cn repo tag cmd mode force. unfold DockerStarter.start. io_red.
  destruct (negb _ || negb _ || negb _); io_red.
  - by repeat constructor.
  - pose proof (run_dry_reads_only h r (Some cn) (Some (repo +:+ ":" +:+ tag)))
      as Hrun.
    by destruct (DockerRunner.run h r _ _ true).
Qed.

(** [run] in normal mode when the device arguments are built. *)
Lemma run_normal_return (h : Host.t) (r : DockerRunner.t)
    (container_name image_name : option string) (devices : list string) :
  result (DockerRunner._build_device_args h false r) = Return devices →
  let n := final_container_name r container_name in
  let i := final_image_name r image_name in
  let command := DockerCommand.build (docker_command h r n i devices) in
  DockerRunner.run h r container_name image_name false
  = if negb (Py.truthy n) || negb (Py.truthy i)
    then ([LogError "容器名称和镜像名称不能为空"], Return false)
    else if Host.stop_and_remove_container h n
    then (StopAndRemove n :: Xhost
            :: trace (DockerRunner._build_device_args h false r)
            ++ Launch command
            :: match Host.docker_run h command with
               | LaunchOk => [LogInfo ("容器 " +:+ n +:+ " 启动成功")]
               | LaunchCalledProcessError => [LogError "启动容器失败: "]
               | LaunchKeyboardInterrupt => [LogInfo "用户中断操作"]
               end,
          match Host.docker_run h command with
          | LaunchOk => Return true
          | _ => Return false
          end)
    else ([StopAndRemove n], Return false).
Proof.
  intros Hdevices n i command. unfold DockerRunner.run.
  fold (final_container_name r container_name) (final_image_name r image_name).
  fold n i. rewrite assemble_eq, Hdevices. fold command.
  destruct (negb _ || negb _); [done|].
  io_red. destruct (Host.stop_and_remove_container h n); io_red; [|done].
  by destruct (Host.docker_run h command).
Qed.

(** The device arguments are built, or the run ends with status 1. *)
Lemma build_device_args_result (h : Host.t) (dry_run_mode : bool) (r : DockerRunner.t) :
  result (DockerRunner._build_device_args h dry_run_mode r) = Return (device_args h r)
  ∨ result (DockerRunner._build_device_args h dry_run_mode r) = SysExit 1.
Proof.
  rewrite build_device_args_eq, map_devices_eq. simpl.
  destruct (failures _ _ _); [by left|]. destruct dry_run_mode; [by left|by right].
Qed.

(** X8.  In normal mode [run] hands at most one command to the
    container runtime, and it is the command that the assembler produced;
    it returns success exactly when the names are not empty, the old
    container was stopped and removed, a command was assembled and its
    launch succeeded; and when the old container cannot be removed, the
    run stops there, before any device is looked up. *)
Theorem normal_run_launches_assembled_command (h : Host.t) (r : DockerRunner.t)
    (container_name image_name : option string) :
  let n := final_container_name r container_name in
  let i := final_image_name r image_name in
  let m := DockerRunner.run h r container_name image_name false in
  (launches (trace m) = []
   ∨ ∃ cmd, launches (trace m) = [cmd]
            ∧ result (DockerRunner.assemble h false r n i) = Return cmd)
  ∧ (result m = Return true
     ↔ Py.truthy n = true ∧ Py.truthy i = true
       ∧ Host.stop_and_remove_container h n = true
       ∧ ∃ cmd, result (DockerRunner.assemble h false r n i) = Return cmd
                ∧ Host.docker_run h cmd = LaunchOk)
  ∧ (Py.truthy n = true → Py.truthy i = true →
     Host.stop_and_remove_container h n = false →
     m = ([StopAndRemove n], Return false)).
Proof.
  intros n i m. subst m.
  destruct (build_device_args_result h false r) as [Hargs|Hargs].
  - rewrite (run_normal_return h r _ _ _ Hargs). fold n i.
    rewrite assemble_eq, Hargs.
    set (command := DockerCommand.build (docker_command h r n i (device_args h r))).
    destruct (Py.truthy n), (Py.truthy i); simpl negb; simpl orb; cbv iota.
    2-4: split_and!; [by left|split; [done|by intros (? & ? & _)]|done].
    destruct (Host.stop_and_remove_container h n).
    + split_and!; [right; exists command|..|done].
      * split; [|done]. simpl trace. rewrite !launches_cons. simpl.
        rewrite launches_app, build_device_args_launches, launches_cons. simpl.
        by destruct (Host.docker_run h command).
      * simpl result. split.
        -- intros Hok. split_and!; try done. exists command. split; [done|].
           by destruct (Host.docker_run h command).
        -- intros (_ & _ & _ & cmd & [= <-] & ->). done.
    + split_and!; [by left|split; [done|by intros (_ & _ & ? & _)]|done].
  - rewrite (run_normal_exit h r _ _ Hargs). fold n i.
    rewrite assemble_eq, Hargs.
    destruct (Py.truthy n), (Py.truthy i); simpl negb; simpl orb; cbv iota.
    2-4: split_and!; [by left|split; [done|by intros (? & ? & _)]|done].
    destruct (Host.stop_and_remove_container h n).
    + split_and!; [left|split; [done|by intros (_ & _ & _ & ? & ? & _)]|done].
      simpl trace. rewrite !launches_cons. simpl. apply build_device_args_launches.
    + split_and!; [by left|split; [done|by intros (_ & _ & ? & _)]|done].
Qed.

(** A normal run of the scenario with the lidar alone. *)
Lemma normal_run_launches_assembled_command_witness :
  result (DockerRunner.run Scenario.host (Scenario.runner "host" [Scenario.lidar])
            None None false) = Return true.
Proof.
  apply (normal_run_launches_assembled_command Scenario.host
           (Scenario.runner "host" [Scenario.lidar]) None None).
  split_and!; [reflexivity..|]. eexists. split; reflexivity.
Defined.

(** An event of [run]: anything but the checks, the pull and the
    [docker exec] that belong to [start]. *)
Definition runner_event (e : event) : Prop :=
  match e with
  | CheckDocker | CheckImage _ | PullImage _ | DockerExec _ => False
  | _ => True
  end.

Lemma build_device_args_runner_events (h : Host.t) (dry_run_mode : bool)
    (r : DockerRunner.t) :
  Forall runner_event (trace (DockerRunner._build_device_args h dry_run_mode r)).
Proof.
  rewrite build_device_args_eq, map_devices_eq. simpl trace.
  assert (Hq : Forall runner_event
                 (all_lookups h (DockerRunner.tty_devices r) (DockerRunner.devices r))).
  { eapply Forall_impl; [apply all_lookups_queries|]. by intros []. }
  assert (Hlines : Forall runner_event
            (mjoin (resolved_line h (DockerRunner.tty_devices r) dry_run_mode
                      <$> enabled_devices r))).
  { apply Forall_join, Forall_fmap, Forall_forall. intros d _.
    unfold compose, resolved_line. destruct (resolved_node _ _ d); by repeat constructor. }
  set (failed := failures h (DockerRunner.tty_devices r) (DockerRunner.devices r)).
  assert (Hshort : Forall runner_event
            ((λ f : string * string, Print ("✗ " +:+ f.1)) <$> failed)).
  { by apply Forall_fmap, Forall_forall. }
  assert (Hlong : Forall runner_event
            ((λ f : string * string,
                LogError ("  缺失设备: " +:+ f.1 +:+ " - " +:+ f.2)) <$> failed)).
  { by apply Forall_fmap, Forall_forall. }
  destruct failed; [|destruct dry_run_mode]; unfold trace, result; cbn [fst snd];
    repeat (rewrite Forall_app || rewrite Forall_cons);
    split_and!; try done; by constructor.
Qed.

(** A trace without a launch event launches nothing. *)
Lemma launches_queries_free (t : list event) :
  Forall (λ e, ∀ cmd, e ≠ Launch cmd) t → launches t = [].
Proof.
  induction 1 as [|e t He _ IH]; [done|].
  rewrite launches_cons, IH. destruct e; try done. by destruct (He cmd).
Qed.

Lemma run_runner_events (h : Host.t) (r : DockerRunner.t)
    (container_name image_name : option string) (dry_run : bool) :
  Forall runner_event (trace (DockerRunner.run h r container_name image_name dry_run)).
Proof.
  destruct dry_run.
  { eapply Forall_impl; [apply run_dry_reads_only|]. by intros []. }
  pose proof (build_device_args_runner_events h false r) as Hargs.
  destruct (build_device_args_result h false r) as [Hr|Hr].
  - rewrite (run_normal_return h r _ _ _ Hr).
    destruct (negb _ || negb _); [by repeat constructor|].
    destruct (Host.stop_and_remove_container h _); [|by repeat constructor].
    simpl trace. do 2 (apply Forall_cons; split; [done|]).
    rewrite Forall_app. split; [done|]. apply Forall_cons; split; [done|].
    destruct (Host.docker_run h _); by repeat constructor.
  - rewrite (run_normal_exit h r _ _ Hr).
    destruct (negb _ || negb _); [by repeat constructor|].
    destruct (Host.stop_and_remove_container h _); [|by repeat constructor].
    simpl trace. by do 2 (apply Forall_cons; split; [done|]).
Qed.

(** How [run] ends, and what a successful normal run has launched. *)
Lemma run_result_cases (h : Host.t) (r : DockerRunner.t)
    (container_name image_name : option string) (dry_run : bool) :
  let m := DockerRunner.run h r container_name image_name dry_run in
  (result m = Return true ∨ result m = Return false
   ∨ (dry_run = false ∧ result m = SysExit 1))
  ∧ (dry_run = true → launches (trace m) = [])
  ∧ (dry_run = false → result m = Return true →
     ∃ cmd, launches (trace m) = [cmd] ∧ Host.docker_run h cmd = LaunchOk).
Proof.
  intros m. subst m. destruct dry_run.
  - split_and!; [| |done].
    + destruct (Py.truthy (final_container_name r container_name)) eqn:Hn,
        (Py.truthy (final_image_name r image_name)) eqn:Hi.
      * rewrite (run_dry h r _ _ Hn Hi). by left.
      * unfold DockerRunner.run.
        fold (final_container_name r container_name) (final_image_name r image_name).
        rewrite Hn, Hi. by right; left.
      * unfold DockerRunner.run.
        fold (final_container_name r container_name) (final_image_name r image_name).
        rewrite Hn. by right; left.
      * unfold DockerRunner.run.
        fold (final_container_name r container_name) (final_image_name r image_name).
        rewrite Hn. by right; left.
    + intros _. apply launches_queries_free.
      eapply Forall_impl; [apply run_dry_reads_only|]. by intros [].
  - destruct (build_device_args_result h false r) as [Hr|Hr].
    + rewrite (run_normal_return h r _ _ _ Hr).
      destruct (negb _ || negb _); [by split_and!; [right; left| |]|].
      destruct (Host.stop_and_remove_container h _);
        [|by split_and!; [right; left| |]].
      split_and!; [|done|].
      * simpl result. destruct (Host.docker_run h _); auto.
      * intros _ Hok. simpl result in Hok. eexists. split.
        -- simpl trace. rewrite !launches_cons. simpl.
           rewrite launches_app, build_device_args_launches, launches_cons. simpl.
           by destruct (Host.docker_run h _).
        -- by destruct (Host.docker_run h _).
    + rewrite (run_normal_exit h r _ _ Hr).
      destruct (negb _ || negb _); [by split_and!; [right; left| |]|].
      destruct (Host.stop_and_remove_container h _);
        [|by split_and!; [right; left| |]].
      split_and!; [by right; right|done|done].
Qed.

(** The argument list and the info line of [_enter_container]: in the
    execution mode ["command"] the entry command is run through
    [bash -c], in any other mode it is run as it is. *)
Definition enter_command (container_name command exec_mode : string) : list string :=
  if bool_decide (exec_mode = "command")
  then ["docker"; "exec"; "-it"; container_name; "bash"; "-c"; command]
  else ["docker"; "exec"; "-it"; container_name; command].

Definition enter_info (container_name command exec_mode : string) : string :=
  if bool_decide (exec_mode = "command")
  then "在容器中执行命令: " +:+ command
  else "进入容器: " +:+ container_name.

Lemma enter_container_eq (h : Host.t) (container_name command exec_mode : string) :
  DockerStarter._enter_container h container_name command exec_mode
  = ([LogInfo (enter_info container_name command exec_mode);
      DockerExec (enter_command container_name command exec_mode)]
       ++ match Host.docker_exec h (enter_command container_name command exec_mode) with
          | EnterOk => []
          | EnterCalledProcessError => [LogError "进入容器失败: "]
          | EnterKeyboardInterrupt => [LogInfo "用户中断操作"]
          end,
     match Host.docker_exec h (enter_command container_name command exec_mode) with
     | EnterOk => Return tt
     | EnterCalledProcessError => SysExit 1
     | EnterKeyboardInterrupt => SysExit 0
     end).
Proof.
  unfold DockerStarter._enter_container, DockerStarter.enter_with, enter_info,
    enter_command.
  case_bool_decide; by destruct (Host.docker_exec h _).
Qed.

(** A trace that ends with, or holds, given events after a prefix of
    one, two or three events and the trace of [run]. *)
Lemma ends_with2 (a b : event) (tm suffix : list event) :
  ∃ before, a :: b :: tm ++ suffix = before ++ suffix.
Proof. by exists (a :: b :: tm). Qed.

Lemma ends_with3 (a b c : event) (tm suffix : list event) :
  ∃ before, a :: b :: c :: tm ++ suffix = before ++ suffix.
Proof. by exists (a :: b :: c :: tm). Qed.

Lemma holds2 (a b : event) (tm middle after : list event) :
  ∃ before after', a :: b :: tm ++ middle ++ after = before ++ middle ++ after'.
Proof. by exists (a :: b :: tm), after. Qed.

Lemma holds3 (a b c : event) (tm middle after : list event) :
  ∃ before after', a :: b :: c :: tm ++ middle ++ after = before ++ middle ++ after'.
Proof. by exists (a :: b :: c :: tm), after. Qed.

(** X9.  Entering the container.  In [start] a [docker exec] is made
    in normal mode only, after exactly one command was launched with
    success, and it is the one of the configured execution mode:
    [docker exec -it name bash -c command] in the mode ["command"],
    [docker exec -it name command] in any other, with the info line of
    that mode logged just before.  In normal mode [start] returns success
    only when that [docker exec] completed, and then it is the last thing
    done; and [start] exits with status 0 only when that [docker exec]
    was interrupted by the user, the interruption being the last thing
    logged. *)
Theorem start_enters_after_launch (h : Host.t) (r : DockerRunner.t)
    (container_name image_repository image_tag command exec_mode : string)
    (dry_run force : bool) :
  let s := DockerStarter.start h r container_name image_repository image_tag
             command exec_mode dry_run force in
  let enter := enter_command container_name command exec_mode in
  let info := enter_info container_name command exec_mode in
  (∀ cmd, DockerExec cmd ∈ trace s →
     cmd = enter ∧ dry_run = false
     ∧ (∃ before after, trace s = before ++ [LogInfo info; DockerExec enter] ++ after)
     ∧ ∃ launched, launches (trace s) = [launched]
                   ∧ Host.docker_run h launched = LaunchOk)
  ∧ (dry_run = false → result s = Return true →
     Host.docker_exec h enter = EnterOk
     ∧ ∃ before, trace s = before ++ [LogInfo info; DockerExec enter])
  ∧ (result s = SysExit 0 →
     Host.docker_exec h enter = EnterKeyboardInterrupt
     ∧ ∃ before, trace s = before ++ [LogInfo info; DockerExec enter;
                                      LogInfo "用户中断操作"]).
Proof.
  intros s enter info. subst s.
  pose proof (run_result_cases h r (Some container_name)
                (Some (image_repository +:+ ":" +:+ image_tag)) dry_run)
    as (Hres & Hdry & Hok).
  pose proof (run_runner_events h r (Some container_name)
                (Some (image_repository +:+ ":" +:+ image_tag)) dry_run) as Hev.
  unfold DockerStarter.start. rewrite enter_container_eq. fold enter info.
  destruct (DockerRunner.run h r (Some container_name)
              (Some (image_repository +:+ ":" +:+ image_tag)) dry_run) as [tm rm].
  simpl in Hres, Hdry, Hok, Hev.
  assert (Hnoexec : ∀ cmd, DockerExec cmd ∉ tm).
  { intros cmd Hin. rewrite Forall_forall in Hev. by apply Hev in Hin. }
  clear Hev. clearbody enter info.
  destruct dry_run.
  - io_red.
    destruct (negb (Py.truthy container_name) || negb (Py.truthy image_repository)
              || negb (Py.truthy image_tag)); io_red.
    + split_and!; [|done|done].
      intros cmd. rewrite elem_of_cons, elem_of_nil. by intros [?|?].
    + split_and!; [by intros cmd ?%Hnoexec|done|].
      intros Hexit. destruct Hres as [Hr | [Hr | [? _]]]; [| |done];
        rewrite Hr in Hexit; done.
  - assert (Hcmd : rm = Return true →
              ∃ cmd, launches tm = [cmd] ∧ Host.docker_run h cmd = LaunchOk)
      by auto.
    clear Hok Hdry.
    destruct (Host.check_docker h),
      (negb (Py.truthy container_name) || negb (Py.truthy image_repository)
       || negb (Py.truthy image_tag)), force,
      (Host.pull_image h (image_repository +:+ ":" +:+ image_tag)),
      (Host.check_image_exists h (image_repository +:+ ":" +:+ image_tag));
      io_red.
    all: try (split_and!; [|done|done];
              intros cmd; rewrite ?elem_of_cons, elem_of_nil;
              intros H; repeat (destruct H as [H|H]; [discriminate H|]); done).
    all: destruct Hres as [-> | [-> | [_ ->]]]; io_red.
    all: try (split_and!; [|done|done];
              intros cmd; rewrite ?elem_of_cons, ?elem_of_app, ?elem_of_cons,
                            ?elem_of_nil;
              intros H;
              repeat (destruct H as [H|H];
                      [first [discriminate H | by apply Hnoexec in H]|]);
              first [done | by apply Hnoexec in H]).
    all: destruct (Hcmd eq_refl) as (launched & Hl & Hrun); clear Hcmd.
    all: destruct (Host.docker_exec h enter) eqn:Hexec; io_red.
    all: split_and!;
      [ intros cmd Hin; split_and!;
          [ rewrite ?elem_of_cons, ?elem_of_app, ?elem_of_cons, ?elem_of_nil in Hin;
            repeat (destruct Hin as [Hin|Hin];
                    [first [congruence | by apply Hnoexec in Hin]|]);
            first [congruence | done | by apply Hnoexec in Hin]
          | done
          | first [ exact (holds2 _ _ tm [LogInfo info; DockerExec enter] _)
                  | exact (holds3 _ _ _ tm [LogInfo info; DockerExec enter] _) ]
          | exists launched; split; [|done];
            repeat (rewrite launches_cons || rewrite launches_app);
            by rewrite Hl ]
      | intros _ Hr;
        first [ discriminate Hr
              | split; [done|]; first [apply ends_with2 | apply ends_with3] ]
      | intros Hr;
        first [ discriminate Hr
              | split; [done|]; first [apply ends_with2 | apply ends_with3] ] ].
Qed.

Lemma runner_events_not_start (t : list event) :
  Forall runner_event t →
  ∀ image, (PullImage image ∉ t) ∧ (CheckImage image ∉ t).
Proof.
  intros Ht image. rewrite Forall_forall in Ht.
  split; intros Hin; by apply Ht in Hin.
Qed.

(** X10.  In normal mode the image is pulled exactly when docker is
    available, the three names are not empty, and the pull is forced or
    the image is not present; a forced start never asks whether the image
    is present; and when the pull fails, the start fails before any
    container is touched: nothing is stopped, removed or launched. *)
Theorem start_pull_policy (h : Host.t) (r : DockerRunner.t)
    (container_name image_repository image_tag command exec_mode : string)
    (force : bool) :
  let image := image_repository +:+ ":" +:+ image_tag in
  let s := DockerStarter.start h r container_name image_repository image_tag
             command exec_mode false force in
  (PullImage image ∈ trace s
   ↔ Host.check_docker h = true
     ∧ Py.truthy container_name = true ∧ Py.truthy image_repository = true
     ∧ Py.truthy image_tag = true
     ∧ (force = true ∨ Host.check_image_exists h image = false))
  ∧ (force = true → CheckImage image ∉ trace s)
  ∧ (PullImage image ∈ trace s → Host.pull_image h image = false →
     result s = Return false
     ∧ Forall (λ e, e = CheckDocker ∨ e = CheckImage image ∨ e = PullImage image
                    ∨ (∃ msg, e = LogError msg)) (trace s)).
Proof.
  intros image s. subst s.
  pose proof (run_runner_events h r (Some container_name) (Some image) false) as Hev.
  pose proof (runner_events_not_start _ Hev image) as [Hpull Hcheck].
  unfold DockerStarter.start. rewrite enter_container_eq. fold image.
  destruct (DockerRunner.run h r (Some container_name) (Some image) false)
    as [tm rm].
  simpl in Hpull, Hcheck. clear Hev.
  destruct (Host.check_docker h); io_red.
  2:{ split_and!; rewrite ?elem_of_cons, ?elem_of_nil;
        intuition (try discriminate; eauto). }
  destruct (Py.truthy container_name), (Py.truthy image_repository),
    (Py.truthy image_tag); cbn [negb orb]; io_red.
  2-8: split_and!; rewrite ?elem_of_cons, ?elem_of_nil;
         intuition (try discriminate; eauto).
  destruct force, (Host.pull_image h image) eqn:Hp,
    (Host.check_image_exists h image) eqn:Hc; io_red;
    try destruct rm as [[|]|c]; io_red;
    try destruct (Host.docker_exec h _); io_red.
  all: split_and!.
  all: rewrite ?elem_of_cons, ?elem_of_app, ?elem_of_cons, ?elem_of_nil.
  all: try (intuition (try discriminate; eauto); fail).
  all: try (intros _ _; split; [done|]; repeat constructor; eauto; fail).
Qed.

(** The image of the scenario is present: a forced start pulls it all
    the same. *)
Lemma start_pull_policy_witness :
  PullImage "ubuntu:latest"
  ∈ trace (DockerStarter.start Scenario.host
             (Scenario.runner "bridge" [Scenario.lidar]) "dev" "ubuntu" "latest"
             "bash" "interactive" false true).
Proof.
  apply (start_pull_policy Scenario.host (Scenario.runner "bridge" [Scenario.lidar])
           "dev" "ubuntu" "latest" "bash" "interactive" true).
  split_and!; [reflexivity..|by left].
Defined.

(** ** [main]: names that the document must declare *)

Lemma get_config_missing (config : gmap string yaml) (keys : list string) :
  DockerStarter.getitems keys (YMap config) = None →
  DockerStarter._get_config config keys "" = Some "".
Proof.
  intros Hmissing. unfold DockerStarter._get_config.
  case_bool_decide; [done|]. by rewrite Hmissing.
Qed.

(** [start] with an empty name stops after the check for docker. *)
Lemma start_empty_name (h : Host.t) (r : DockerRunner.t)
    (container_name image_repository image_tag command exec_mode : string)
    (dry_run force : bool) :
  Py.truthy container_name && Py.truthy image_repository && Py.truthy image_tag
  = false →
  let s := DockerStarter.start h r container_name image_repository image_tag
             command exec_mode dry_run force in
  result s = Return false
  ∧ Forall (λ e, e = CheckDocker ∨ (∃ msg, e = LogError msg)) (trace s).
Proof.
  intros Hempty s. subst s. unfold DockerStarter.start.
  assert (Hnames : negb (Py.truthy container_name)
                   || negb (Py.truthy image_repository)
                   || negb (Py.truthy image_tag) = true).
  { by destruct (Py.truthy container_name), (Py.truthy image_repository),
      (Py.truthy image_tag). }
  rewrite Hnames.
  destruct dry_run, (Host.check_docker h); io_red;
    (split; [done|]);
    repeat (apply Forall_cons; split; [eauto|]); done.
Qed.

(** X11.  The defaults that the loader gives to the container name and
    to the image are of no use to the process: for a document that leaves
    out the container name, the image repository or the image tag,
    whenever [main] runs it ends with exit status 1, having done nothing
    but the check for docker and error logging: no device is looked up
    and nothing is launched. *)
Theorem main_requires_declared_names (h : Host.t) (config : gmap string yaml)
    (dry_run force : bool) (t : list event) (code : Z) :
  DockerStarter.getitems ["container"; "name"] (YMap config) = None
  ∨ DockerStarter.getitems ["container"; "image"; "repository"] (YMap config) = None
  ∨ DockerStarter.getitems ["container"; "image"; "tag"] (YMap config) = None →
  DockerStarter.main h (YMap config) dry_run force = Some (t, code) →
  code = 1%Z
  ∧ Forall (λ e, e = CheckDocker ∨ (∃ msg, e = LogError msg)) t.
Proof.
  intros Hmissing. unfold DockerStarter.main.
  destruct (DockerRunner.init h config) as [runner| |]; [| |done].
  2:{ intros [= <- <-]. split; [done|].
      repeat (apply Forall_cons; split; [eauto|]). done. }
  destruct (DockerStarter._get_config config ["container"; "name"] "")
    as [name|] eqn:Hname; [|done].
  destruct (DockerStarter._get_config config ["container"; "image"; "repository"] "")
    as [repository|] eqn:Hrepository; [|done].
  destruct (DockerStarter._get_config config ["container"; "image"; "tag"] "")
    as [tag|] eqn:Htag; [|done].
  destruct (DockerStarter._get_config config ["container"; "command"] "bash")
    as [command|]; [|done].
  destruct (DockerStarter._get_config config ["container"; "exec_mode"] "interactive")
    as [exec_mode|]; [|done].
  cbn [mbind option_bind].
  assert (Hempty : Py.truthy name && Py.truthy repository && Py.truthy tag = false).
  { destruct Hmissing as [Hm|[Hm|Hm]]; apply get_config_missing in Hm.
    - rewrite Hm in Hname. injection Hname as <-. done.
    - rewrite Hm in Hrepository. injection Hrepository as <-.
      by destruct (Py.truthy name).
    - rewrite Hm in Htag. injection Htag as <-. apply andb_false_r. }
  destruct (start_empty_name h runner name repository tag command exec_mode
              dry_run force Hempty)
    as [Hresult Htrace].
  intros [= <- <-]. rewrite Hresult. by split.
Qed.

(** A document with an image, but no container name. *)
Definition nameless_document : gmap string yaml :=
  {[ "container" :=
       YMap {[ "image" := YMap {[ "repository" := YStr "ubuntu";
                                  "tag" := YStr "latest" ]} ]} ]}.

Lemma main_requires_declared_names_witness :
  DockerStarter.main Scenario.host (YMap nameless_document) true false
  = Some ([LogError "容器名称和镜像信息不能为空"], 1%Z).
Proof.
  assert (Hmain : DockerStarter.main Scenario.host (YMap nameless_document) true false
                  = Some ([LogError "容器名称和镜像信息不能为空"], 1%Z))
    by by vm_compute.
  assert (Hmissing :
    DockerStarter.getitems ["container"; "name"] (YMap nameless_document) = None
    ∨ DockerStarter.getitems ["container"; "image"; "repository"]
        (YMap nameless_document) = None
    ∨ DockerStarter.getitems ["container"; "image"; "tag"]
        (YMap nameless_document) = None)
    by (left; by vm_compute).
  pose proof (main_requires_declared_names Scenario.host nameless_document true false
                [LogError "容器名称和镜像信息不能为空"] 1%Z Hmissing Hmain) as [_ _].
  exact Hmain.
Defined.

(** X12.  The launch never carries the entry command or the restart
    policy of the configuration, nor the list of fallback displays: two
    runners that differ in these three fields only make the same run,
    with the same queries and the same command. *)
Theorem launch_ignores_command_and_restart (h : Host.t)
    (name repository tag command command' restart restart' : string)
    (rc : ResourceConfig.t) (ros_domain_id ros_localhost_only : Z)
    (display : string) (auto_detect_display : bool)
    (fallback_displays fallback_displays' : list string)
    (pulse_server : option string) (volumes : list VolumeConfig.t)
    (devices : list DeviceConfig.t) (tty_devices : list string)
    (container_name image_name : option string) (dry_run : bool) :
  DockerRunner.run h
    (DockerRunner.mk (ContainerConfig.mk name repository tag command restart) rc
       (EnvironmentConfig.mk ros_domain_id ros_localhost_only display
          auto_detect_display fallback_displays pulse_server)
       volumes devices tty_devices)
    container_name image_name dry_run
  = DockerRunner.run h
      (DockerRunner.mk (ContainerConfig.mk name repository tag command' restart') rc
         (EnvironmentConfig.mk ros_domain_id ros_localhost_only display
            auto_detect_display fallback_displays' pulse_server)
         volumes devices tty_devices)
      container_name image_name dry_run.
Proof. reflexivity. Qed.

(** ** The identity resolver on a property listing *)

















(* ================================================================== *)
(** ** The container lifecycle calls of the runner *)
(* ================================================================== *)

(** [ContainerStatus]. *)
Inductive ContainerStatus :=
| RUNNING
| STOPPED
| NOT_EXISTS
| ERROR.

(** The container tooling as the two lifecycle functions see it: the
    outcome of each [subprocess.run(..., check=True)]. *)
Module Docker.
Record t := mk {
  (** [docker ps -a --format {{.Names}}] *)
  ps_all : completed;
  (** [docker ps --format {{.Names}}] *)
  ps : completed;
  (** [docker stop name] *)
  stop : string → completed;
  (** [docker rm -f name] *)
  rm : string → completed
}.
End Docker.

(** What the lifecycle functions do, in order.  The error line is logged
    with the text of the exception after its colon; that text is left
    out. *)
Inductive docker_call :=
| DockerPsAll
| DockerPs
| DockerStop (name : string)
| DockerRm (name : string)
| DockerLogInfo (msg : string)
| DockerLogError (msg : string).

(** How a lifecycle function ends: with a value, or with an exception
    that it does not catch (any but [CalledProcessError]). *)
Inductive attempt (A : Type) :=
| Done (a : A)
| Uncaught (exn : string).
Arguments Done {A} a.
Arguments Uncaught {A} exn.

Module ContainerLifecycle.

(** The names that a listing shows: [stdout.strip().split('\n')]. *)
Definition names (stdout : string) : list string :=
  Py.split_on "010" (Py.strip stdout).

Definition _get_container_status (d : Docker.t) (container_name : string)
    : list docker_call * attempt ContainerStatus :=
  match Docker.ps_all d with
  | Completed stdout =>
      if negb (bool_decide (container_name ∈ names stdout)) then
        ([DockerPsAll], Done NOT_EXISTS)
      else
        match Docker.ps d with
        | Completed running =>
            ([DockerPsAll; DockerPs],
             Done (if bool_decide (container_name ∈ names running)
                   then RUNNING else STOPPED))
        | CalledProcessError _ => ([DockerPsAll; DockerPs], Done ERROR)
        | OtherException exn => ([DockerPsAll; DockerPs], Uncaught exn)
        end
  | CalledProcessError _ => ([DockerPsAll], Done ERROR)
  | OtherException exn => ([DockerPsAll], Uncaught exn)
  end.

(** The removal that ends [_stop_and_remove_container]. *)
Definition remove (d : Docker.t) (container_name : string)
    : list docker_call * attempt bool :=
  match Docker.rm d container_name with
  | Completed _ =>
      ([DockerLogInfo ("删除容器: " +:+ container_name); DockerRm container_name],
       Done true)
  | CalledProcessError _ =>
      ([DockerLogInfo ("删除容器: " +:+ container_name); DockerRm container_name;
        DockerLogError "停止/删除容器失败: "],
       Done false)
  | OtherException exn =>
      ([DockerLogInfo ("删除容器: " +:+ container_name); DockerRm container_name],
       Uncaught exn)
  end.

(** After a list of calls. *)
Definition after {A} (calls : list docker_call) (m : list docker_call * attempt A)
    : list docker_call * attempt A :=
  (calls ++ m.1, m.2).

Definition _stop_and_remove_container (d : Docker.t) (container_name : string)
    : list docker_call * attempt bool :=
  match _get_container_status d container_name with
  | (calls, Uncaught exn) => (calls, Uncaught exn)
  | (calls, Done NOT_EXISTS) =>
      (calls ++ [DockerLogInfo ("容器 " +:+ container_name +:+ " 不存在，无需删除")],
       Done true)
  | (calls, Done RUNNING) =>
      match Docker.stop d container_name with
      | Completed _ =>
          after (calls ++ [DockerLogInfo ("停止容器: " +:+ container_name);
                           DockerStop container_name])
            (remove d container_name)
      | CalledProcessError _ =>
          (calls ++ [DockerLogInfo ("停止容器: " +:+ container_name);
                     DockerStop container_name;
                     DockerLogError "停止/删除容器失败: "],
           Done false)
      | OtherException exn =>
          (calls ++ [DockerLogInfo ("停止容器: " +:+ container_name);
                     DockerStop container_name],
           Uncaught exn)
      end
  | (calls, Done _) => after calls (remove d container_name)
  end.

End ContainerLifecycle.

(** X14.  Stopping and removing the old container: a container that the
    full listing does not show is left alone and the result is success;
    [docker stop] is called only for a container that both listings
    show, and [docker rm -f] never after a stop that failed; when the
    listing itself fails, the removal is attempted all the same and its
    outcome is the result; and the result is success only if the
    container was not listed or the removal completed. *)
Theorem stop_and_remove_cases (d : Docker.t) (container_name : string) :
  let m := ContainerLifecycle._stop_and_remove_container d container_name in
  (∀ stdout, Docker.ps_all d = Completed stdout →
     container_name ∉ ContainerLifecycle.names stdout →
     m.2 = Done true ∧ (DockerStop container_name ∉ m.1)
     ∧ (DockerRm container_name ∉ m.1))
  ∧ (DockerStop container_name ∈ m.1 →
     ∃ stdout running,
       Docker.ps_all d = Completed stdout ∧ Docker.ps d = Completed running
       ∧ container_name ∈ ContainerLifecycle.names stdout
       ∧ container_name ∈ ContainerLifecycle.names running)
  ∧ (DockerRm container_name ∈ m.1 → DockerStop container_name ∈ m.1 →
     ∃ stdout, Docker.stop d container_name = Completed stdout)
  ∧ (∀ code, Docker.ps_all d = CalledProcessError code →
     DockerRm container_name ∈ m.1
     ∧ (m.2 = Done true ↔ ∃ stdout, Docker.rm d container_name = Completed stdout))
  ∧ (m.2 = Done true →
     (∃ stdout, Docker.ps_all d = Completed stdout
                ∧ container_name ∉ ContainerLifecycle.names stdout)
     ∨ ∃ stdout, Docker.rm d container_name = Completed stdout).
Proof.
  intros m. subst m.
  unfold ContainerLifecycle._stop_and_remove_container,
    ContainerLifecycle._get_container_status, ContainerLifecycle.remove,
    ContainerLifecycle.after.
  destruct (Docker.ps_all d) as [stdout|code|exn] eqn:Hall;
    [case_bool_decide as Hin; cbn [negb];
     [destruct (Docker.ps d) as [running|code|exn] eqn:Hps;
      [case_bool_decide as Hrun|..]|]|..];
    destruct (Docker.stop d container_name) eqn:Hstop,
      (Docker.rm d container_name) eqn:Hrm; cbn [fst snd app].
  all: split_and!; intros.
  all: rewrite ?elem_of_cons, ?elem_of_app, ?elem_of_cons, ?elem_of_nil in *.
  all: naive_solver.
Qed.

(** ** The loader on lists of entries *)

Lemma dict_items_skip (config : gmap string yaml) (key : string)
    (before after : list yaml) (x : yaml) :
  (∀ m, x ≠ YMap m) →
  ConfigLoader.dict_items (<[key := YSeq (before ++ x :: after)]> config) key
  = ConfigLoader.dict_items (<[key := YSeq (before ++ after)]> config) key.
Proof.
  intros Hx. unfold ConfigLoader.dict_items. rewrite !lookup_insert_eq.
  f_equal. rewrite !omap_app. f_equal. simpl.
  destruct x; try done. by destruct (Hx m).
Qed.

(** X15.  An entry of the [devices] or of the [volumes] list that is
    not a mapping (a string, a number, a nested list, an empty entry) is
    skipped without an error: the loader gives the same result as for the
    list without that entry. *)
Theorem loader_skips_entries_that_are_no_mappings (config : gmap string yaml)
    (before after : list yaml) (x : yaml) :
  (∀ m, x ≠ YMap m) →
  ConfigLoader.parse_devices (<["devices" := YSeq (before ++ x :: after)]> config)
  = ConfigLoader.parse_devices (<["devices" := YSeq (before ++ after)]> config)
  ∧ ConfigLoader.parse_volumes (<["volumes" := YSeq (before ++ x :: after)]> config)
    = ConfigLoader.parse_volumes (<["volumes" := YSeq (before ++ after)]> config).
Proof.
  intros Hx. unfold ConfigLoader.parse_devices, ConfigLoader.parse_volumes.
  by rewrite !(dict_items_skip _ _ _ _ _ Hx).
Qed.

(** A device list with a stray string between two entries. *)
Lemma loader_skips_entries_that_are_no_mappings_witness :
  ConfigLoader.parse_devices
    (<["devices" := YSeq ([YMap {[ "name" := YStr "lidar" ]}]
                          ++ YStr "camera" :: [])]> ∅)
  = ConfigLoader.parse_devices
      (<["devices" := YSeq ([YMap {[ "name" := YStr "lidar" ]}] ++ [])]> ∅).
Proof.
  apply (loader_skips_entries_that_are_no_mappings ∅
           [YMap {[ "name" := YStr "lidar" ]}] [] (YStr "camera")).
  by intros m.
Defined.

(** ** The volume arguments *)

(** X16.  The volume arguments are a [-v] pair for each enabled volume,
    in the order of the configuration, the second token being the
    expanded source, the target and the options joined by colons; so
    their number is twice the number of enabled volumes. *)
Theorem volume_args_pair_per_enabled_volume (h : Host.t)
    (volumes : list VolumeConfig.t) :
  DockerRunner._build_volume_args h volumes
  = mjoin ((λ v, ["-v"; Host.expanduser h (VolumeConfig.source v) +:+ ":"
                          +:+ VolumeConfig.target v +:+ ":"
                          +:+ VolumeConfig.options v])
             <$> filter (λ v, VolumeConfig.enabled v = true) volumes)
  ∧ length (DockerRunner._build_volume_args h volumes)
    = 2 * length (filter (λ v, VolumeConfig.enabled v = true) volumes).
Proof.
  induction volumes as [|v volumes [IHargs IHlen]]; [done|].
  cbn [DockerRunner._build_volume_args].
  destruct (VolumeConfig.enabled v) eqn:Hv.
  - rewrite filter_cons_True by done. rewrite fmap_cons.
    change (mjoin (?x :: ?xs)) with (x ++ mjoin xs). rewrite <- IHargs.
    split; [done|]. rewrite length_app, IHlen. simpl. lia.
  - rewrite filter_cons_False by congruence. by split.
Qed.

(** ** The order of the inventory *)

(** In a sorted list, an element comes before every other element that
    is larger. *)
Lemma sorted_order (l : list string) (a u : string) :
  StronglySorted String.le l → a ∈ l → u ∈ l → String.le a u → a ≠ u →
  ∃ l1 l2 l3, l = l1 ++ a :: l2 ++ u :: l3.
Proof.
  intros Hs. induction Hs as [|x l Hs IH Hall]; intros Ha Hu Hle Hne.
  { by apply elem_of_nil in Ha. }
  apply elem_of_cons in Ha as [->|Ha], Hu as [->|Hu].
  - done.
  - apply list_elem_of_split in Hu as (l2 & l3 & ->). by exists [], l2, l3.
  - rewrite Forall_forall in Hall. specialize (Hall _ Ha).
    destruct Hne. by apply (anti_symm String.le).
  - destruct (IH Ha Hu Hle Hne) as (l1 & l2 & l3 & ->).
    by exists (x :: l1), l2, l3.
Qed.

Lemma acm_before_usb (a u : string) :
  String.le ("/dev/ttyACM" +:+ a) ("/dev/ttyUSB" +:+ u)
  ∧ "/dev/ttyACM" +:+ a ≠ "/dev/ttyUSB" +:+ u.
Proof. split; [by vm_compute|]. intros Heq. by vm_compute in Heq. Qed.

(** X17.  Although the USB pattern is scanned first, the inventory is
    sorted as text: every node named [/dev/ttyACM...] comes before every
    node named [/dev/ttyUSB...], so that of an ACM node and a USB node
    that both pass the filters of a request, the matcher does not return
    the USB node. *)
Theorem inventory_lists_acm_before_usb (h : Host.t) (a u : string) :
  "/dev/ttyUSB" +:+ u ∈ Host.glob h "/dev/ttyUSB*" →
  "/dev/ttyACM" +:+ a ∈ Host.glob h "/dev/ttyACM*" →
  (∃ l1 l2 l3,
     TTYDeviceFinder._scan_tty_devices h
     = l1 ++ ("/dev/ttyACM" +:+ a) :: l2 ++ ("/dev/ttyUSB" +:+ u) :: l3)
  ∧ (∀ vendor_id product_id usb_interface usb_serial,
       satisfies h vendor_id product_id usb_interface usb_serial ("/dev/ttyACM" +:+ a) →
       result (TTYDeviceFinder.find_by_usb_id h (TTYDeviceFinder._scan_tty_devices h)
                 vendor_id product_id usb_interface usb_serial)
       ≠ Return (Some ("/dev/ttyUSB" +:+ u))).
Proof.
  intros Hu Ha.
  destruct (scan_sorted h) as [Hsorted Hperm].
  destruct (acm_before_usb a u) as [Hle Hne].
  assert (Hin : ∀ n, n ∈ Host.glob h "/dev/ttyUSB*" ++ Host.glob h "/dev/ttyACM*" →
                     n ∈ TTYDeviceFinder._scan_tty_devices h).
  { intros n Hn. by rewrite Hperm. }
  assert (Horder : ∃ l1 l2 l3,
            TTYDeviceFinder._scan_tty_devices h
            = l1 ++ ("/dev/ttyACM" +:+ a) :: l2 ++ ("/dev/ttyUSB" +:+ u) :: l3).
  { apply sorted_order; [done| | |done|done]; apply Hin, elem_of_app; auto. }
  split; [done|].
  intros v p i s Hsat. rewrite find_by_usb_id_result. intros [= Hfind].
  apply find_first in Hfind as (before & after & Heq & _ & Hbefore).
  assert (Hacm : "/dev/ttyACM" +:+ a ∈ before ++ ("/dev/ttyUSB" +:+ u) :: after).
  { rewrite <- Heq. apply Hin, elem_of_app. auto. }
  apply elem_of_app in Hacm as [Hacm|Hacm].
  - apply Hbefore in Hacm. apply accepts_satisfies in Hsat. congruence.
  - apply elem_of_cons in Hacm as [Hacm|Hacm]; [done|].
    rewrite Heq in Hsorted. apply StronglySorted_app_1_r in Hsorted.
    apply StronglySorted_inv in Hsorted as [_ Hall].
    rewrite Forall_forall in Hall. specialize (Hall _ Hacm).
    destruct Hne. by apply (anti_symm String.le).
Qed.

(** A host with the two serial adapters of the scenario and one ACM
    modem. *)
Definition host_with_acm : Host.t :=
  Host.mk
    (λ pattern, if bool_decide (pattern = "/dev/ttyACM*") then ["/dev/ttyACM0"]
                else Scenario.glob pattern)
    Scenario.udevadm_info Scenario.path_exists (λ path, path) ∅ 1000
    true (λ _, true) (λ _, true) (λ _, true) (λ _, LaunchOk) (λ _, EnterOk).

Lemma inventory_lists_acm_before_usb_witness :
  ∃ l1 l2 l3,
    TTYDeviceFinder._scan_tty_devices host_with_acm
    = l1 ++ ("/dev/ttyACM" +:+ "0") :: l2 ++ ("/dev/ttyUSB" +:+ "0") :: l3.
Proof.
  apply (inventory_lists_acm_before_usb host_with_acm "0" "0");
    vm_compute; repeat constructor.
Defined.
